(** * Robin: investigation orchestration core

  A shallow embedding of the Python sources of the Robin OSINT agent
  ([agent/tools.py], [agent/client.py],
  [backend/app/services/agent_service.py],
  [backend/app/models/investigation.py]) together with the properties
  its specification states about them.

  Conventions of the embedding:
  - a Python [str] is a [string]; characters are the 8-bit characters of
    [Ascii], read as code points below 256;
  - a JSON-like Python value is a [pyval]; a [dict] whose iteration order
    is observable is an association list in insertion order;
  - a function that can raise returns a [PyResult];
  - calls to collaborators that are outside the sources (the search and
    scrape transports, the sub-agent runner, the reasoning engine, the SSE
    stream manager) are parameters of a [Section], and every call made to
    them is recorded so that "nothing was dispatched" can be stated. *)

From Stdlib Require Import ZArith QArith.QArith_base Ascii String.
From stdpp Require Import base tactics option list strings pretty gmap.

Set Warnings "-register-all,-notation-for-abbreviation,-clear-no-such-hyp".

Close Scope Q_scope.
Open Scope Z_scope.
Open Scope nat_scope.

(** ** Python strings *)

Module PyStr.

(** The empty [str]. *)
Definition empty : string := EmptyString.

(** [len(s)]. *)
Definition len (s : string) : nat := String.length s.

(** [s[:n]] for [0 <= n]. *)
Fixpoint take (n : nat) (s : string) : string :=
  match n, s with
  | S n', String c s' => String c (take n' s')
  | _, _ => EmptyString
  end.

(** [sep.join(parts)]. *)
Fixpoint join (sep : string) (parts : list string) : string :=
  match parts with
  | [] => EmptyString
  | [p] => p
  | p :: rest => p +:+ sep +:+ join sep rest
  end.

(** [s.replace(a, b)] for single characters [a] and [b]. *)
Fixpoint replace_char (a b : ascii) (s : string) : string :=
  match s with
  | EmptyString => EmptyString
  | String c s' =>
      String (if decide (c = a) then b else c) (replace_char a b s')
  end.

(** [t.startswith(s)]. *)
Fixpoint startswith (s t : string) : bool :=
  match s, t with
  | EmptyString, _ => true
  | String a s', String b t' => bool_decide (a = b) && startswith s' t'
  | String _ _, EmptyString => false
  end.

(** [s in t] on strings: [s] occurs in [t] as a contiguous block. *)
Fixpoint contains (s t : string) : bool :=
  startswith s t ||
  match t with
  | EmptyString => false
  | String _ t' => contains s t'
  end.

(** The mathematical reading of [s in t]. *)
Definition substring_of (s t : string) : Prop :=
  ∃ pre post, t = pre +:+ s +:+ post.

(** [s.endswith(suffix)]. *)
Fixpoint endswith (suffix s : string) : bool :=
  bool_decide (s = suffix) ||
  match s with
  | EmptyString => false
  | String _ s' => endswith suffix s'
  end.

(** Truthiness of a [str]: non-empty. *)
Definition truthy (s : string) : bool :=
  match s with EmptyString => false | String _ _ => true end.

End PyStr.

Infix "`substring_of`" := PyStr.substring_of (at level 70) : stdpp_scope.


(** ** Python values, exceptions and dictionaries *)

(** The line feed of Python's ["\n"]. *)
Definition nl : string := String (ascii_of_nat 10) EmptyString.

(** JSON-like values, as a tool receives them from the reasoning engine. *)
Inductive pyval : Type :=
| PNone
| PBool (b : bool)
| PInt (z : Z)
| PStr (s : string)
| PList (items : list pyval)
| PDict (entries : list (string * pyval)).

(** An instance of [Exception]; only [str(e)] is ever observed. *)
Record PyException : Type := { exc_str : string }.

(** The outcome of a call that may raise. *)
Inductive PyResult (A : Type) : Type :=
| Return (a : A)
| Raise (e : PyException).
Arguments Return {A} a.
Arguments Raise {A} e.

Module PyDict.

(** A [dict] with [str] keys, in insertion order. *)
Definition t (V : Type) : Type := list (string * V).

(** [d.get(k)]. *)
Fixpoint get {V : Type} (d : t V) (k : string) : option V :=
  match d with
  | [] => None
  | (k', v) :: d' => if decide (k' = k) then Some v else get d' k
  end.

(** [k in d]. *)
Definition mem {V : Type} (d : t V) (k : string) : bool :=
  bool_decide (is_Some (get d k)).

(** [list(d.keys())]. *)
Definition keys {V : Type} (d : t V) : list string := d.*1.

End PyDict.

Module PyRepr.

(** Lower-case hexadecimal digit of [n < 16]. *)
Definition hex_digit (n : nat) : ascii :=
  if decide (n < 10) then ascii_of_nat (48 + n) else ascii_of_nat (87 + n).

(** [str.isprintable] on one code point below 256. *)
Definition printable (c : ascii) : bool :=
  let n := nat_of_ascii c in
  bool_decide (32 ≤ n < 127) || (bool_decide (161 ≤ n) && negb (bool_decide (n = 173))).

Definition quote1 : ascii := ascii_of_nat 39.
Definition quote2 : ascii := ascii_of_nat 34.
Definition backslash : ascii := ascii_of_nat 92.

Fixpoint has_char (c : ascii) (s : string) : bool :=
  match s with
  | EmptyString => false
  | String c' s' => bool_decide (c' = c) || has_char c s'
  end.

(** The quote character [repr] picks: double quotes only when the string
    holds a single quote and no double quote. *)
Definition pick_quote (s : string) : ascii :=
  if has_char quote1 s && negb (has_char quote2 s) then quote2 else quote1.

(** [repr] of one character inside quotes [q]. *)
Definition repr_char (q c : ascii) : string :=
  let n := nat_of_ascii c in
  if bool_decide (c = q) || bool_decide (c = backslash) then
    String backslash (String c EmptyString)
  else if decide (n = 9) then String backslash "t"
  else if decide (n = 10) then String backslash "n"
  else if decide (n = 13) then String backslash "r"
  else if printable c then String c EmptyString
  else String backslash
         (String "x" (String (hex_digit (n `div` 16))
                        (String (hex_digit (n `mod` 16)) EmptyString))).

Fixpoint repr_chars (q : ascii) (s : string) : string :=
  match s with
  | EmptyString => EmptyString
  | String c s' => repr_char q c +:+ repr_chars q s'
  end.

(** [repr(s)] for a [str]. *)
Definition repr_str (s : string) : string :=
  let q := pick_quote s in
  String q (repr_chars q s +:+ String q EmptyString).

(** [repr(l)], which is also [str(l)], for a list of [str]. *)
Definition repr_str_list (l : list string) : string :=
  "[" +:+ PyStr.join ", " (repr_str <$> l) +:+ "]".

(** [str(x)] for an [Optional[str]]. *)
Definition str_option (x : option string) : string :=
  match x with Some s => s | None => "None" end.

End PyRepr.

(** ** Statements that mutate state and may raise *)

(** A Python statement run on a state [S]: it returns or raises, and the
    mutations made before a raise stay. *)
Definition Py (S A : Type) : Type := S → PyResult A * S.

Module Py.
Section ops.
Context {S : Type}.

Definition ret {A : Type} (a : A) : Py S A := λ s, (Return a, s).

Definition raise {A : Type} (e : PyException) : Py S A := λ s, (Raise e, s).

Definition bind {A B : Type} (m : Py S A) (k : A → Py S B) : Py S B :=
  λ s, match m s with
       | (Return a, s') => k a s'
       | (Raise e, s') => (Raise e, s')
       end.

(** Read an attribute. *)
Definition gets {A : Type} (f : S → A) : Py S A := λ s, (Return (f s), s).

(** Assign. *)
Definition modify (f : S → S) : Py S unit := λ s, (Return tt, f s).

(** [if c: body]. *)
Definition when (c : bool) (body : Py S unit) : Py S unit :=
  if c then body else ret tt.

(** [for x in l: body]. *)
Fixpoint for_each {A : Type} (l : list A) (body : A → Py S unit) : Py S unit :=
  match l with
  | [] => ret tt
  | x :: l' => bind (body x) (λ _, for_each l' body)
  end.

(** [try: m  except Exception as e: handler]. *)
Definition try_except {A : Type} (m : Py S A) (handler : PyException → Py S A)
  : Py S A :=
  λ s, match m s with
       | (Return a, s') => (Return a, s')
       | (Raise e, s') => handler e s'
       end.

End ops.

(** Run a statement of a component on the part of the state it owns. *)
Definition zoom {S T A : Type} (get : S → T) (set : T → S → S) (m : Py T A)
  : Py S A :=
  λ s, let '(r, t') := m (get s) in (r, set t' s).

End Py.

(** The statements form a monad; stdpp's [x ← m; k] and [m;; k] sequence
    them. *)
#[global] Instance Py_ret {S : Type} : MRet (Py S) := λ A, Py.ret.
#[global] Instance Py_bind {S : Type} : MBind (Py S) := λ A B k m, Py.bind m k.
#[global] Typeclasses Opaque Py.


(** ** [agent/tools.py]: the tools exposed to the reasoning engine *)

(** What every tool returns:
    [{"content": [{"type": "text", "text": ...}]}]. *)
Record ContentBlock : Type := { block_type : string; block_text : string }.
Record ToolResponse : Type := { content : list ContentBlock }.

Definition text_response (text : string) : ToolResponse :=
  {| content := [ {| block_type := "text"; block_text := text |} ] |}.

(** A tool run: the calls it dispatched to its blocking collaborator, in
    order, and the response it returned. *)
Record ToolRun (Call : Type) : Type :=
  { dispatched : list Call; response : ToolResponse }.
Arguments dispatched {Call} _.
Arguments response {Call} _.

(** The text of a single-block response. *)
Definition response_text (r : ToolResponse) : string :=
  match content r with
  | [b] => block_text b
  | _ => EmptyString
  end.

(** One search hit, a [dict] with the keys ["title"] and ["link"]. *)
Record SearchResult : Type := { title : string; link : string }.

Module CoreSearch.
Section fanout.

(** Modelled from the spec: [core.search.get_search_results] is not among
    the sources.  Section 4.1: the query goes to a fixed roster of sources;
    each source operation independently fails or succeeds, and a failing
    source contributes zero results; after all sources complete the results
    are deduplicated by normalized link, preserving first-seen order across
    the roster's fixed source order.  The pool bound [max_workers] limits the
    concurrency and nothing else. *)
Context {Source : Type}.
Variable roster : list Source.
Variable fetch : Source → string → PyResult (list SearchResult).
Variable normalize : string → string.

(** The dedup key of a result. *)
Definition dedup_key (r : SearchResult) : string := normalize (link r).

(** What one source contributes. *)
Definition source_results (query : string) (src : Source) : list SearchResult :=
  match fetch src query with
  | Return rs => rs
  | Raise _ => []
  end.

(** All raw results, in roster order. *)
Definition raw_results (query : string) : list SearchResult :=
  concat (source_results query <$> roster).

(** Keep a result when its key has not been seen yet. *)
Fixpoint dedup_from (seen : gset string) (rs : list SearchResult)
  : list SearchResult :=
  match rs with
  | [] => []
  | r :: rs' =>
      if decide (dedup_key r ∈ seen) then dedup_from seen rs'
      else r :: dedup_from ({[ dedup_key r ]} ∪ seen) rs'
  end.

Definition get_search_results (query : string) (max_workers : Z)
  : list SearchResult :=
  dedup_from ∅ (raw_results query).

End fanout.
End CoreSearch.

Module Tools.

(** *** [darkweb_search] *)

Record SearchArgs : Type :=
  { query : string; search_max_workers : option Z }.

Section darkweb_search.

(** [core.search.get_search_results], run in the executor. *)
Variable get_search_results : string → Z → PyResult (list SearchResult).

(** The display cap of line 64. *)
Definition display_limit : nat := 50.

(** Line 59: the title, cut to 80 characters with an ellipsis. *)
Definition format_title (t : string) : string :=
  if decide (80 < PyStr.len t) then PyStr.take 80 t +:+ "..." else t.

(** Line 61: one numbered entry. *)
Definition format_result (i : nat) (res : SearchResult) : string :=
  pretty i +:+ ". **" +:+ format_title (title res) +:+ "**" +:+ nl
    +:+ "   URL: " +:+ link res.

(** Lines 57-61: [enumerate(results, 1)]. *)
Definition formatted (results : list SearchResult) : list string :=
  imap (λ i res, format_result (S i) res) results.

(** Line 64. *)
Definition display_results (results : list SearchResult) : list string :=
  take display_limit (formatted results).

(** Line 65. *)
Definition total_count (results : list SearchResult) : nat := length results.

(** Line 67. *)
Definition search_header (results : list SearchResult) : string :=
  "Found **" +:+ pretty (total_count results)
    +:+ "** unique results from dark web search engines." +:+ nl +:+ nl.

(** Lines 70-71: the marker, when there is one. *)
Definition more_marker (results : list SearchResult) : option string :=
  if decide (50 < total_count results) then
    Some (nl +:+ nl +:+ "... and " +:+ pretty (total_count results - 50)
            +:+ " more results.")
  else None.

(** Line 73. *)
Definition search_footer : string :=
  nl +:+ nl +:+ "**Next step**: Select the most relevant results and use `darkweb_scrape` with a list of targets containing title and link for each.".

(** Lines 56-73. *)
Definition search_result_text (results : list SearchResult) : string :=
  search_header results
    +:+ PyStr.join (nl +:+ nl) (display_results results)
    +:+ default EmptyString (more_marker results)
    +:+ search_footer.

Definition darkweb_search (args : SearchArgs) : ToolResponse :=
  let max_workers := default 5%Z (search_max_workers args) in
  match get_search_results (PyStr.replace_char " " "+" (query args)) max_workers with
  | Raise e =>
      text_response ("Search failed: " +:+ exc_str e
                       +:+ ". Make sure Tor is running on port 9050.")
  | Return [] =>
      text_response "No results found. Try refining your search query or check Tor connectivity."
  | Return results => text_response (search_result_text results)
  end.

End darkweb_search.

(** *** [darkweb_scrape] *)

Record ScrapeArgs : Type :=
  { targets : list pyval; scrape_max_workers : option Z }.

(** An entry of [urls_data]. *)
Record UrlEntry : Type := { entry_title : pyval; entry_link : pyval }.

(** One call [scrape_multiple(urls_data, max_workers=max_workers)]. *)
Record ScrapeCall : Type :=
  { call_urls : list UrlEntry; call_workers : Z }.

(** Lines 114-124: what one target contributes to [urls_data]. *)
Definition validate_target (target : pyval) : option UrlEntry :=
  match target with
  | PDict d =>
      match PyDict.get d "link" with
      | Some l =>
          Some {| entry_title := default (PStr "Unknown") (PyDict.get d "title");
                  entry_link := l |}
      | None => None
      end
  | PStr s => Some {| entry_title := PStr "Unknown"; entry_link := PStr s |}
  | _ => None
  end.

(** Lines 112-124. *)
Definition validate_targets (ts : list pyval) : list UrlEntry :=
  omap validate_target ts.

(** Line 161: [content and len(content) > 50]. *)
Definition meaningful (content : option string) : bool :=
  match content with
  | Some c => PyStr.truthy c && bool_decide (50 < PyStr.len c)
  | None => false
  end.

(** Line 164. *)
Definition display_content (c : string) : string :=
  if decide (2000 < PyStr.len c) then PyStr.take 2000 c +:+ "..." else c.

Definition source_heading (url : string) : string :=
  "## Source: " +:+ url +:+ nl +:+ nl.

(** Line 167. *)
Definition minimal_part (url : string) : string :=
  source_heading url +:+ "*[Minimal or no content extracted]*" +:+ nl +:+ nl +:+ "---".

(** Line 165. *)
Definition meaningful_part (url c : string) : string :=
  source_heading url +:+ display_content c +:+ nl +:+ nl +:+ "---".

(** Lines 161-167: the part written for one item of [results]. *)
Definition content_part (item : string * option string) : string :=
  match item with
  | (url, Some c) =>
      if meaningful (Some c) then meaningful_part url c else minimal_part url
  | (url, None) => minimal_part url
  end.

(** Lines 158-167. *)
Definition content_parts (results : PyDict.t (option string)) : list string :=
  content_part <$> results.

Definition success_count (results : PyDict.t (option string)) : nat :=
  length (filter (λ item, meaningful item.2 = true) results).

(** Lines 169-171. *)
Definition scrape_result_text (urls_data : list UrlEntry)
    (results : PyDict.t (option string)) : string :=
  "Successfully scraped **" +:+ pretty (success_count results) +:+ "/"
    +:+ pretty (length urls_data) +:+ "** pages." +:+ nl +:+ nl
    +:+ PyStr.join nl (content_parts results)
    +:+ nl +:+ nl
    +:+ "**Next step**: Analyze this content for intelligence artifacts and generate your findings report.".

Definition no_targets_text : string :=
  "No targets provided. Please specify URLs to scrape as a list of objects with 'title' and 'link' keys.".

Definition invalid_targets_text : string :=
  "Invalid target format. Provide a list of objects with 'title' and 'link' keys, or a list of URL strings.".

(** Modelled from the spec: [core.scrape.scrape_multiple] is not among the
    sources.  Sections 4.2 and 8: every requested target always appears in
    the output mapping, whose key set equals exactly the set of valid
    requested links, regardless of how many retrievals failed. *)
Definition scrape_contract (urls_data : list UrlEntry)
    (results : PyDict.t (option string)) : Prop :=
  ∀ l, (∃ e, e ∈ urls_data ∧ entry_link e = PStr l) ↔ l ∈ PyDict.keys results.

Section darkweb_scrape.

(** [core.scrape.scrape_multiple], run in the executor: a mapping from url
    to the extracted text ([None] when there is none), or an exception for
    the whole batch. *)
Variable scrape_multiple :
  list UrlEntry → Z → PyResult (PyDict.t (option string)).

Definition darkweb_scrape (args : ScrapeArgs) : ToolRun ScrapeCall :=
  let max_workers := default 5%Z (scrape_max_workers args) in
  match targets args with
  | [] => {| dispatched := []; response := text_response no_targets_text |}
  | _ :: _ =>
      match validate_targets (targets args) with
      | [] =>
          {| dispatched := []; response := text_response invalid_targets_text |}
      | urls_data =>
          let call := {| call_urls := urls_data; call_workers := max_workers |} in
          {| dispatched := [call];
             response :=
               match scrape_multiple urls_data max_workers with
               | Raise e =>
                   text_response ("Scraping failed: " +:+ exc_str e
                                    +:+ ". Some .onion sites may be offline.")
               | Return [] =>
                   text_response "Failed to scrape any content. The .onion sites may be offline or blocking requests."
               | Return results =>
                   text_response (scrape_result_text urls_data results)
               end |}
      end
  end.

End darkweb_scrape.

(** *** [delegate_analysis] *)

Record DelegateArgs : Type :=
  { agent_types : list string;
    delegate_content : string;
    delegate_context : option string }.

(** [agent.subagents.SubAgentResult]. *)
Record SubAgentResult : Type :=
  { agent_type : string;
    analysis : string;
    success : bool;
    error : option string }.

(** One call [run_subagents_parallel(agent_types, content, context)]. *)
Record DelegateCall : Type :=
  { call_agents : list string; call_content : string; call_context : string }.

(** The four worker kinds named by the tool's description (lines 225-228)
    and by [tests/test_subagents.py]. *)
Definition registry_names : list string :=
  ["ThreatActorProfiler"; "IOCExtractor"; "MalwareAnalyst";
   "MarketplaceInvestigator"].

Definition no_content_text : string :=
  "No content provided for analysis. Please include the scraped content to analyze.".

Section delegate_analysis.

(** [get_available_subagents()]: a fresh copy of the registry, worker kind
    to description.  The descriptions live in [agent/prompts.py]. *)
Variable available : PyDict.t string.

(** [agent.subagents.run_subagents_parallel]. *)
Variable run_subagents_parallel :
  list string → string → string → PyResult (list SubAgentResult).

(** Line 252. *)
Definition agent_list : string :=
  PyStr.join nl ((λ kv, "- **" +:+ kv.1 +:+ "**: " +:+ kv.2) <$> available).

(** Line 262. *)
Definition invalid_types (ats : list string) : list string :=
  filter (λ a, PyDict.mem available a = false) ats.

(** Line 267. *)
Definition invalid_types_text (invalid : list string) : string :=
  "Invalid agent types: " +:+ PyRepr.repr_str_list invalid
    +:+ ". Valid types: " +:+ PyRepr.repr_str_list (PyDict.keys available).

(** Lines 294-297. *)
Definition result_part (r : SubAgentResult) : string :=
  if success r then
    "### " +:+ agent_type r +:+ nl +:+ nl +:+ analysis r +:+ nl
  else
    "### " +:+ agent_type r +:+ nl +:+ nl +:+ "*Analysis failed: "
      +:+ PyRepr.str_option (error r) +:+ "*" +:+ nl.

(** Lines 291-304. *)
Definition delegate_result_text (ats : list string)
    (results : list SubAgentResult) : string :=
  PyStr.join nl
    (("## Sub-Agent Analysis Results" +:+ nl +:+ nl +:+ "Delegated to: "
        +:+ PyStr.join ", " ats +:+ nl)
       :: (result_part <$> results)
       ++ ["---" +:+ nl +:+ nl
             +:+ "**Next step**: Synthesize these findings into your final report."]).

Definition delegate_analysis (args : DelegateArgs) : ToolRun DelegateCall :=
  let context := default EmptyString (delegate_context args) in
  match agent_types args with
  | [] =>
      {| dispatched := [];
         response :=
           text_response ("No agents specified. Available sub-agents:"
                            +:+ nl +:+ nl +:+ agent_list) |}
  | _ :: _ =>
      match invalid_types (agent_types args) with
      | (_ :: _) as invalid =>
          {| dispatched := [];
             response := text_response (invalid_types_text invalid) |}
      | [] =>
          if PyStr.truthy (delegate_content args) then
            let call := {| call_agents := agent_types args;
                           call_content := delegate_content args;
                           call_context := context |} in
            {| dispatched := [call];
               response :=
                 match run_subagents_parallel (agent_types args)
                         (delegate_content args) context with
                 | Raise e =>
                     text_response ("Sub-agent execution failed: " +:+ exc_str e)
                 | Return results =>
                     text_response
                       (delegate_result_text (agent_types args) results)
                 end |}
          else
            {| dispatched := []; response := text_response no_content_text |}
      end
  end.

End delegate_analysis.

(** *** [save_report] *)

Record SaveArgs : Type :=
  { report_content : string; report_filename : option string }.

(** The files on disk, each with its text. *)
Definition Files : Type := gmap string string.

(** What the operating system does to [open(filename, "w")] followed by
    [f.write(content)]: nothing goes wrong, or [open] raises, or [write]
    raises after [written] characters. *)
Inductive Fault : Type :=
| NoFault
| OpenFails (e : PyException)
| WriteFails (e : PyException) (written : nat).

Section save_report.

(** [datetime.now().strftime("%Y-%m-%d_%H-%M-%S")]. *)
Variable now : string.

(** Lines 194-201: the name the report is written under. *)
Definition target_filename (args : SaveArgs) : string :=
  let filename := default EmptyString (report_filename args) in
  let filename :=
    if PyStr.truthy filename then filename
    else "robin_report_" +:+ now +:+ ".md" in
  if PyStr.endswith ".md" filename then filename else filename +:+ ".md".

(** Lines 189-219. *)
Definition save_report (fault : Fault) (args : SaveArgs) (files : Files)
  : ToolResponse * Files :=
  let filename := target_filename args in
  match fault with
  | NoFault =>
      (text_response ("Report saved successfully to **" +:+ filename +:+ "**"),
       <[filename := report_content args]> files)
  | OpenFails e =>
      (text_response ("Failed to save report: " +:+ exc_str e), files)
  | WriteFails e written =>
      (text_response ("Failed to save report: " +:+ exc_str e),
       <[filename := PyStr.take written (report_content args)]> files)
  end.

(** [open] follows a name to a file, and two names can lead to one file
    (["./a.md"] and ["a.md"], a link and what it points to).  [realpath name]
    is the file the operating system opens for [name], and the disk maps
    each file to its text.  [save_report] above is the case in which every
    name is its own file. *)
Section on_disk.

Variable realpath : string → string.

(** Lines 189-219, on the files behind the names. *)
Definition save_report_on_disk (fault : Fault) (args : SaveArgs)
    (disk : Files) : ToolResponse * Files :=
  let filename := target_filename args in
  match fault with
  | NoFault =>
      (text_response ("Report saved successfully to **" +:+ filename +:+ "**"),
       <[realpath filename := report_content args]> disk)
  | OpenFails e =>
      (text_response ("Failed to save report: " +:+ exc_str e), disk)
  | WriteFails e written =>
      (text_response ("Failed to save report: " +:+ exc_str e),
       <[realpath filename := PyStr.take written (report_content args)]> disk)
  end.

(** What reading under [name] gives. *)
Definition read_file (name : string) (disk : Files) : option string :=
  disk !! realpath name.

End on_disk.

End save_report.

End Tools.

(** ** [claude_code_sdk]: what the reasoning engine streams *)

Module Sdk.

Inductive Block : Type :=
| TextBlock (text : string)
| ToolUseBlock (name : string) (input : PyDict.t pyval)
| OtherBlock.

(** The messages [query] yields.  [SystemMessage] and [ResultMessage] have a
    [subtype]; only [SystemMessage] has [data]; only [ResultMessage] has
    [result], [duration_ms] and [num_turns]. *)
Inductive Message : Type :=
| SystemMessage (subtype : string) (data : PyDict.t pyval)
| AssistantMessage (content : list Block)
| ResultMessage (subtype : string) (result : option string)
    (duration_ms num_turns : option Z)
| UserMessage.

(** [create_sdk_mcp_server(name=..., version=..., tools=...)]. *)
Record McpServer : Type :=
  { server_name : string; server_version : string; server_tools : list string }.

Record ClaudeCodeOptions : Type :=
  { system_prompt : string;
    model : string;
    max_turns : Z;
    mcp_servers : PyDict.t McpServer;
    allowed_tools : list string;
    permission_mode : string;
    resume : option string }.

(** One run of the async generator [query(prompt=..., options=...)]: the
    messages it yields and, when it ends by raising, the exception. *)
Record Stream : Type :=
  { messages : list Message; failure : option PyException }.

End Sdk.

(** ** [agent/client.py] *)

(** An entry of the tool-use log: [{"name": ..., "input": ...}]. *)
Record ToolUse : Type := { name : string; input : PyDict.t pyval }.

Module InvestigationResult.

Record t : Type :=
  { text : string;
    session_id : option string;
    duration_ms : option Z;
    num_turns : option Z;
    tools_used : list ToolUse }.

(** [InvestigationResult(text=...)], the other fields at their defaults. *)
Definition of_text (text : string) : t :=
  {| text := text; session_id := None; duration_ms := None;
     num_turns := None; tools_used := [] |}.

End InvestigationResult.

Module RobinAgent.

(** The mutable attributes of a [RobinAgent]. *)
Record t : Type :=
  { model : string;
    session_id : option string;
    _tools_used : list ToolUse;
    _mcp_server : option Sdk.McpServer }.

Definition set_session_id (v : option string) (a : t) : t :=
  {| model := model a; session_id := v; _tools_used := _tools_used a;
     _mcp_server := _mcp_server a |}.

Definition set_tools_used (v : list ToolUse) (a : t) : t :=
  {| model := model a; session_id := session_id a; _tools_used := v;
     _mcp_server := _mcp_server a |}.

Definition set_mcp_server (v : option Sdk.McpServer) (a : t) : t :=
  {| model := model a; session_id := session_id a;
     _tools_used := _tools_used a; _mcp_server := v |}.

(** Truthiness of an [Optional[str]]. *)
Definition truthy_opt (x : option string) : bool :=
  match x with Some s => PyStr.truthy s | None => false end.

(** Lines 199-202. *)
Definition reset_session (self : t) : t :=
  set_tools_used [] (set_session_id None self).

Section agent.

(** The callbacks belong to some owner with state [S]; a callback is a
    statement on that state. *)
Context {S : Type}.

Record Callbacks : Type :=
  { on_text : option (string → Py S unit);
    on_tool_use : option (string → PyDict.t pyval → Py S unit);
    on_complete : option (InvestigationResult.t → Py S unit) }.

(** [config.DEFAULT_MODEL], [config.MAX_AGENT_TURNS] and
    [prompts.ROBIN_SYSTEM_PROMPT]. *)
Variable DEFAULT_MODEL : string.
Variable MAX_AGENT_TURNS : Z.
Variable ROBIN_SYSTEM_PROMPT : string.

(** The reasoning engine behind [claude_code_sdk.query]. *)
Variable query : string → Sdk.ClaudeCodeOptions → Sdk.Stream.

(** Modelled from the spec: the scheduling of the reasoning-engine boundary
    is not in the sources.  Section 5: waiting on the reasoning-engine stream
    is a suspension point, once per streamed chunk; [suspended] is what the
    rest of the event loop does to the owner's state while the generator
    waits for the next message. *)
Variable suspended : S → S.

Variable callbacks : Callbacks.

(** Lines 58-64; [model or DEFAULT_MODEL]. *)
Definition __init__ (model : option string) : t :=
  {| model := if truthy_opt model then default DEFAULT_MODEL model
              else DEFAULT_MODEL;
     session_id := None; _tools_used := []; _mcp_server := None |}.

(** Lines 66-74. *)
Definition _get_mcp_server : Py t Sdk.McpServer :=
  cached ← Py.gets _mcp_server;
  match cached with
  | Some server => mret server
  | None =>
      let server :=
        {| Sdk.server_name := "robin"; Sdk.server_version := "1.0.0";
           Sdk.server_tools :=
             ["darkweb_search"; "darkweb_scrape"; "save_report";
              "delegate_analysis"] |} in
      Py.modify (set_mcp_server (Some server));;
      mret server
  end.

(** Lines 76-98. *)
Definition _build_options : Py t Sdk.ClaudeCodeOptions :=
  mcp_server ← _get_mcp_server;
  model ← Py.gets model;
  session_id ← Py.gets session_id;
  mret {| Sdk.system_prompt := ROBIN_SYSTEM_PROMPT;
          Sdk.model := model;
          Sdk.max_turns := MAX_AGENT_TURNS;
          Sdk.mcp_servers := [("robin", mcp_server)];
          Sdk.allowed_tools :=
            ["mcp__robin__darkweb_search"; "mcp__robin__darkweb_scrape";
             "mcp__robin__save_report"; "mcp__robin__delegate_analysis"];
          Sdk.permission_mode := "acceptEdits";
          Sdk.resume := if truthy_opt session_id then session_id else None |}.

(** The frame of one run of the generator [investigate]: the agent, the
    local [full_response], the chunks yielded so far, the state of the
    callbacks' owner, and the queries put to the engine. *)
Record Frame : Type :=
  { self : t;
    full_response : string;
    yielded : list string;
    owner : S;
    asked : list (string * Sdk.ClaudeCodeOptions) }.

Definition set_self (v : t) (f : Frame) : Frame :=
  {| self := v; full_response := full_response f; yielded := yielded f;
     owner := owner f; asked := asked f |}.

Definition set_full_response (v : string) (f : Frame) : Frame :=
  {| self := self f; full_response := v; yielded := yielded f;
     owner := owner f; asked := asked f |}.

Definition set_yielded (v : list string) (f : Frame) : Frame :=
  {| self := self f; full_response := full_response f; yielded := v;
     owner := owner f; asked := asked f |}.

Definition set_owner (v : S) (f : Frame) : Frame :=
  {| self := self f; full_response := full_response f; yielded := yielded f;
     owner := v; asked := asked f |}.

Definition set_asked (v : list (string * Sdk.ClaudeCodeOptions)) (f : Frame)
  : Frame :=
  {| self := self f; full_response := full_response f; yielded := yielded f;
     owner := owner f; asked := v |}.

Definition on_self {A : Type} (m : Py t A) : Py Frame A :=
  Py.zoom self set_self m.

Definition on_owner {A : Type} (m : Py S A) : Py Frame A :=
  Py.zoom owner set_owner m.

(** [yield chunk]; the consumer takes the chunk and asks for the next. *)
Definition yield (chunk : string) : Py Frame unit :=
  Py.modify (λ f, set_yielded (yielded f ++ [chunk]) f).

(** Waiting for the next message of the engine. *)
Definition await_next : Py Frame unit :=
  Py.modify (λ f, set_owner (suspended (owner f)) f).

(** [if self.on_text: self.on_text(text)]. *)
Definition call_on_text (text : string) : Py Frame unit :=
  match on_text callbacks with
  | Some cb => on_owner (cb text)
  | None => mret tt
  end.

Definition call_on_tool_use (tool_name : string) (tool_input : PyDict.t pyval)
  : Py Frame unit :=
  match on_tool_use callbacks with
  | Some cb => on_owner (cb tool_name tool_input)
  | None => mret tt
  end.

Definition call_on_complete (result : InvestigationResult.t) : Py Frame unit :=
  match on_complete callbacks with
  | Some cb => on_owner (cb result)
  | None => mret tt
  end.

(** Lines 138-142 and 158-162: append, forward to the callback, yield. *)
Definition emit_chunk (stream : bool) (text : string) : Py Frame unit :=
  Py.modify (λ f, set_full_response (full_response f +:+ text) f);;
  call_on_text text;;
  Py.when stream (yield text).

(** Lines 135-151, one block. *)
Definition handle_block (stream : bool) (block : Sdk.Block) : Py Frame unit :=
  match block with
  | Sdk.TextBlock text => emit_chunk stream text
  | Sdk.ToolUseBlock tool_name tool_input =>
      on_self (Py.modify (λ a,
        set_tools_used
          (_tools_used a ++ [ {| name := tool_name; input := tool_input |} ]) a));;
      call_on_tool_use tool_name tool_input
  | Sdk.OtherBlock => mret tt
  end.

(** Lines 155-162. *)
Definition capture_final_result (stream : bool) (result : option string)
  : Py Frame unit :=
  match result with
  | Some result_text =>
      Py.when (PyStr.truthy result_text)
        (full ← Py.gets full_response;
         Py.when (PyStr.truthy result_text
                  && negb (PyStr.contains result_text full))
           (emit_chunk stream result_text))
  | None => mret tt
  end.

(** Lines 164-173. *)
Definition complete (duration_ms num_turns : option Z) : Py Frame unit :=
  full ← Py.gets full_response;
  agent ← Py.gets self;
  call_on_complete
    {| InvestigationResult.text := full;
       InvestigationResult.session_id := session_id agent;
       InvestigationResult.duration_ms := duration_ms;
       InvestigationResult.num_turns := num_turns;
       InvestigationResult.tools_used := _tools_used agent |}.

(** Lines 128-131, for a message whose [data] is [data]. *)
Definition capture_session_id (data : PyDict.t pyval) : Py Frame unit :=
  match data with
  | [] => mret tt
  | _ :: _ =>
      on_self (Py.modify (set_session_id
        match PyDict.get data "session_id" with
        | Some (PStr sid) => Some sid
        | _ => None
        end))
  end.

(** Lines 127-173, the body of the loop for one message. *)
Definition handle_message (stream : bool) (message : Sdk.Message)
  : Py Frame unit :=
  match message with
  | Sdk.SystemMessage subtype data =>
      if decide (subtype = "init") then capture_session_id data else mret tt
  | Sdk.AssistantMessage content =>
      Py.for_each content (handle_block stream)
  | Sdk.ResultMessage subtype result duration_ms num_turns =>
      if decide (subtype = "init") then mret tt
      else
        capture_final_result stream result;;
        complete duration_ms num_turns
  | Sdk.UserMessage => mret tt
  end.

(** Line 126: [async for message in query(...)]. *)
Fixpoint consume (stream : bool) (messages : list Sdk.Message)
    (failure : option PyException) : Py Frame unit :=
  match messages with
  | message :: rest =>
      await_next;;
      handle_message stream message;;
      consume stream rest failure
  | [] =>
      await_next;;
      match failure with
      | Some e => Py.raise e
      | None => mret tt
      end
  end.

(** Lines 121-176. *)
Definition investigate (query_text : string) (stream : bool) : Py Frame unit :=
  on_self (Py.modify (set_tools_used []));;
  Py.modify (set_full_response EmptyString);;
  options ← on_self _build_options;
  Py.modify (λ f, set_asked (asked f ++ [(query_text, options)]) f);;
  let s := query query_text options in
  consume stream (Sdk.messages s) (Sdk.failure s);;
  Py.when (negb stream) (full ← Py.gets full_response; yield full).

(** Lines 178-197. *)
Definition follow_up (query_text : string) : Py Frame unit :=
  investigate query_text true.

(** The frame in which a call of the generator starts. *)
Definition enter (agent : t) (s : S) : Frame :=
  {| self := agent; full_response := EmptyString; yielded := [];
     owner := s; asked := [] |}.

End agent.

End RobinAgent.

(** ** [backend/app/models/investigation.py]: the SSE event payloads *)

Module Events.

(** The generic code of [ErrorEventData]. *)
Definition INVESTIGATION_ERROR : string := "INVESTIGATION_ERROR".

(** One constructor per event-data class, with the fields of the class. *)
Inductive SSEEventData : Type :=
| TextEventData (content : string)
| ToolStartEventData (id tool : string) (input : PyDict.t pyval)
| ToolEndEventData (id tool : string) (duration_ms : Z) (output : option string)
| SubAgentStartEventData (agent_type : string)
| SubAgentEndEventData (agent_type analysis : string) (success : bool)
    (error : option string)
| CompleteEventData (text : string) (session_id : option string)
    (duration_ms num_turns : option Z)
| ErrorEventData (message code : string).

Definition is_tool_start (e : SSEEventData) : bool :=
  match e with ToolStartEventData _ _ _ => true | _ => false end.

Definition is_tool_end (e : SSEEventData) : bool :=
  match e with ToolEndEventData _ _ _ _ => true | _ => false end.

Definition is_error (e : SSEEventData) : bool :=
  match e with ErrorEventData _ _ => true | _ => false end.

End Events.

(** ** The SSE stream manager *)

Module SSEStreamManager.
Import Events.

(** Modelled from the spec: [backend/app/sse/stream.py] is not among the
    sources.  Sections 3 and 4.5: the events of a session form one ordered
    sequence, immutable once emitted; the id of a tool invocation is
    generated at its start; an Error event carries a message and the generic
    code.  Each [emit_*] appends one event and finishes without waiting. *)
Record t : Type := { events : list SSEEventData; issued : nat }.

Definition empty : t := {| events := []; issued := 0 |}.

Definition emit (e : SSEEventData) : Py t unit :=
  Py.modify (λ m, {| events := events m ++ [e]; issued := issued m |}).

Section ids.

(** The [n]-th invocation id the manager generates. *)
Variable new_tool_id : nat → string.

Definition emit_text (text : string) : Py t unit :=
  emit (TextEventData text).

Definition emit_tool_start (tool : string) (input : PyDict.t pyval)
  : Py t string :=
  n ← Py.gets issued;
  let tool_id := new_tool_id n in
  Py.modify (λ m, {| events := events m ++ [ToolStartEventData tool_id tool input];
                     issued := S n |});;
  mret tool_id.

Definition emit_tool_end (tool_id tool : string) (duration_ms : Z)
  : Py t unit :=
  emit (ToolEndEventData tool_id tool duration_ms None).

(** [SubAgentStartEventData.agent_type] is a [str]; anything else fails
    validation. *)
Definition emit_subagent_start (agent_type : pyval) : Py t unit :=
  match agent_type with
  | PStr s => emit (SubAgentStartEventData s)
  | _ => Py.raise {| exc_str := "validation error for SubAgentStartEventData" |}
  end.

Definition emit_complete (text : string) (session_id : option string)
    (duration_ms num_turns : option Z) : Py t unit :=
  emit (CompleteEventData text session_id duration_ms num_turns).

Definition emit_error (message : string) : Py t unit :=
  emit (ErrorEventData message INVESTIGATION_ERROR).

End ids.
End SSEStreamManager.

(** ** [backend/app/services/agent_service.py] *)

Module AgentService.
Import Events.

(** [int(x)] on a rational: truncation towards zero. *)
Definition py_int (x : Q) : Z := Z.quot (Qnum x) (Z.pos (Qden x)).

(** Lines 62 and 91: [int((now - start) * 1000)].  The readings of
    [time.time()] are taken as exact rationals; the code computes in binary
    floating point, so a value may differ from this one by the rounding of
    the product.  When [start] is not after [now] both are non-negative. *)
Definition duration_ms (now start : Q) : Z :=
  py_int (Qmult (Qminus now start) (inject_Z 1000)).

(** The attributes of an [AgentService] other than its agent and stream. *)
Record t : Type :=
  { investigation_id : string;
    model : string;
    _current_tool_id : option string;
    _tool_start_time : Q;
    _tools_used : list ToolUse;
    _subagent_results : list Tools.SubAgentResult;
    _full_response : string;
    _result : option InvestigationResult.t }.

Definition set_current_tool_id (v : option string) (a : t) : t :=
  {| investigation_id := investigation_id a; model := model a;
     _current_tool_id := v; _tool_start_time := _tool_start_time a;
     _tools_used := _tools_used a; _subagent_results := _subagent_results a;
     _full_response := _full_response a; _result := _result a |}.

Definition set_tool_start_time (v : Q) (a : t) : t :=
  {| investigation_id := investigation_id a; model := model a;
     _current_tool_id := _current_tool_id a; _tool_start_time := v;
     _tools_used := _tools_used a; _subagent_results := _subagent_results a;
     _full_response := _full_response a; _result := _result a |}.

Definition set_tools_used (v : list ToolUse) (a : t) : t :=
  {| investigation_id := investigation_id a; model := model a;
     _current_tool_id := _current_tool_id a;
     _tool_start_time := _tool_start_time a;
     _tools_used := v; _subagent_results := _subagent_results a;
     _full_response := _full_response a; _result := _result a |}.

Definition set_full_response (v : string) (a : t) : t :=
  {| investigation_id := investigation_id a; model := model a;
     _current_tool_id := _current_tool_id a;
     _tool_start_time := _tool_start_time a;
     _tools_used := _tools_used a; _subagent_results := _subagent_results a;
     _full_response := v; _result := _result a |}.

Definition set_result (v : option InvestigationResult.t) (a : t) : t :=
  {| investigation_id := investigation_id a; model := model a;
     _current_tool_id := _current_tool_id a;
     _tool_start_time := _tool_start_time a;
     _tools_used := _tools_used a; _subagent_results := _subagent_results a;
     _full_response := _full_response a; _result := v |}.

(** The coroutines the callbacks hand to [asyncio.create_task]; their
    arguments are evaluated when the coroutine object is created. *)
Inductive Coroutine : Type :=
| emit_text_coro (text : string)
| emit_tool_end_coro (tool_id tool : string) (duration : Z)
| emit_start_coro (name : string) (input_data : PyDict.t pyval)
| emit_complete_coro (text : string) (session_id : option string)
    (duration_ms num_turns : option Z).

(** What the callbacks act on: the service, its stream, the tasks the event
    loop has ready to run (oldest first) and the number of clock readings
    taken so far. *)
Record World : Type :=
  { service : t;
    stream : SSEStreamManager.t;
    ready : list Coroutine;
    ticks : nat }.

Definition set_service (v : t) (w : World) : World :=
  {| service := v; stream := stream w; ready := ready w; ticks := ticks w |}.

Definition set_stream (v : SSEStreamManager.t) (w : World) : World :=
  {| service := service w; stream := v; ready := ready w; ticks := ticks w |}.

Definition set_ready (v : list Coroutine) (w : World) : World :=
  {| service := service w; stream := stream w; ready := v; ticks := ticks w |}.

Definition set_ticks (v : nat) (w : World) : World :=
  {| service := service w; stream := stream w; ready := ready w; ticks := v |}.

Definition on_service {A : Type} (m : Py t A) : Py World A :=
  Py.zoom service set_service m.

Definition on_stream {A : Type} (m : Py SSEStreamManager.t A) : Py World A :=
  Py.zoom stream set_stream m.

(** [asyncio.create_task(coro)]: the task is queued and runs once the
    running task waits. *)
Definition create_task (c : Coroutine) : Py World unit :=
  Py.modify (λ w, set_ready (ready w ++ [c]) w).

(** What iterating a value yields; [None] when it is not iterable. *)
Definition py_iter (v : pyval) : option (list pyval) :=
  match v with
  | PList items => Some items
  | PStr s => Some ((λ c, PStr (String c EmptyString)) <$> list_ascii_of_string s)
  | PDict d => Some (PStr <$> PyDict.keys d)
  | _ => None
  end.

Section service.

(** [settings.default_model] and [config.DEFAULT_MODEL]. *)
Variable default_model : string.
Variable DEFAULT_MODEL : string.

(** The successive readings of [time.time()], in seconds. *)
Variable clock : nat → Q.

(** The ids [SSEStreamManager] generates. *)
Variable new_tool_id : nat → string.

(** [time.time()]. *)
Definition time_time : Py World Q :=
  n ← Py.gets ticks;
  Py.modify (set_ticks (S n));;
  mret (clock n).

(** [self._tools_used[-1]["name"]]. *)
Definition last_tool_name : Py World string :=
  used ← Py.gets (λ w, _tools_used (service w));
  match last used with
  | Some u => mret (name u)
  | None => Py.raise {| exc_str := "list index out of range" |}
  end.

(** Lines 27-42. *)
Definition __init__ (investigation_id : string) (model : option string) : t :=
  {| investigation_id := investigation_id;
     model := if RobinAgent.truthy_opt model then default default_model model
              else default_model;
     _current_tool_id := None;
     _tool_start_time := inject_Z 0;
     _tools_used := [];
     _subagent_results := [];
     _full_response := EmptyString;
     _result := None |}.

(** Lines 75-81, the coroutine [emit_start]. *)
Definition emit_start (name : string) (input_data : PyDict.t pyval)
  : Py World unit :=
  tool_id ← on_stream (SSEStreamManager.emit_tool_start new_tool_id name input_data);
  on_service (Py.modify (set_current_tool_id (Some tool_id)));;
  Py.when (bool_decide (name = "mcp__robin__delegate_analysis"))
    (match py_iter (default (PList []) (PyDict.get input_data "agent_types")) with
     | Some agent_types =>
         Py.for_each agent_types
           (λ agent_type, on_stream (SSEStreamManager.emit_subagent_start agent_type))
     | None => Py.raise {| exc_str := "object is not iterable" |}
     end).

(** The body of a task. *)
Definition run_coroutine (c : Coroutine) : Py World unit :=
  match c with
  | emit_text_coro text => on_stream (SSEStreamManager.emit_text text)
  | emit_tool_end_coro tool_id tool duration =>
      on_stream (SSEStreamManager.emit_tool_end tool_id tool duration)
  | emit_start_coro name input_data => emit_start name input_data
  | emit_complete_coro text session_id duration_ms num_turns =>
      on_stream (SSEStreamManager.emit_complete text session_id duration_ms num_turns)
  end.

(** One turn of the event loop while the running task waits: every ready
    task runs to its end, oldest first; an exception inside a task ends that
    task only. *)
Definition run_ready (w : World) : World :=
  foldl (λ w c, (run_coroutine c w).2) (set_ready [] w) (ready w).

(** Lines 52-56. *)
Definition _on_text (text : string) : Py World unit :=
  on_service (Py.modify (λ a, set_full_response (_full_response a +:+ text) a));;
  create_task (emit_text_coro text).

(** Lines 58-83. *)
Definition _on_tool_use (name : string) (input_data : PyDict.t pyval)
  : Py World unit :=
  current ← Py.gets (λ w, _current_tool_id (service w));
  match current with
  | Some tool_id =>
      Py.when (PyStr.truthy tool_id)
        (now ← time_time;
         start ← Py.gets (λ w, _tool_start_time (service w));
         previous ← last_tool_name;
         create_task (emit_tool_end_coro tool_id previous (duration_ms now start)))
  | None => mret tt
  end;;
  now ← time_time;
  on_service (Py.modify (set_tool_start_time now));;
  on_service (Py.modify (λ a,
    set_tools_used (_tools_used a ++ [ {| name := name; input := input_data |} ]) a));;
  create_task (emit_start_coro name input_data).

(** Lines 85-107. *)
Definition _on_complete (result : InvestigationResult.t) : Py World unit :=
  on_service (Py.modify (set_result (Some result)));;
  current ← Py.gets (λ w, _current_tool_id (service w));
  match current with
  | Some tool_id =>
      Py.when (PyStr.truthy tool_id)
        (now ← time_time;
         start ← Py.gets (λ w, _tool_start_time (service w));
         used ← Py.gets (λ w, _tools_used (service w));
         let tool := match last used with
                     | Some u => name u
                     | None => "unknown"
                     end in
         create_task (emit_tool_end_coro tool_id tool (duration_ms now start)))
  | None => mret tt
  end;;
  create_task
    (emit_complete_coro (InvestigationResult.text result)
       (InvestigationResult.session_id result)
       (InvestigationResult.duration_ms result)
       (InvestigationResult.num_turns result)).

(** The callbacks [__init__] hands to its [RobinAgent] (lines 45-50). *)
Definition callbacks : RobinAgent.Callbacks :=
  {| RobinAgent.on_text := Some _on_text;
     RobinAgent.on_tool_use := Some _on_tool_use;
     RobinAgent.on_complete := Some _on_complete |}.

(** A service at work: its world, its agent, and the queries its agent has
    put to the engine. *)
Record Session : Type :=
  { world : World;
    _agent : RobinAgent.t;
    queries : list (string * Sdk.ClaudeCodeOptions) }.

Definition set_world (v : World) (s : Session) : Session :=
  {| world := v; _agent := _agent s; queries := queries s |}.

(** The session [AgentService(investigation_id, stream_manager, model)]
    starts in. *)
Definition start (investigation_id : string) (model : option string)
  : Session :=
  let svc := __init__ investigation_id model in
  {| world := {| service := svc; stream := SSEStreamManager.empty;
                 ready := []; ticks := 0 |};
     _agent := RobinAgent.__init__ DEFAULT_MODEL (Some (AgentService.model svc));
     queries := [] |}.

Section engine.

Variable MAX_AGENT_TURNS : Z.
Variable ROBIN_SYSTEM_PROMPT : string.
Variable query : string → Sdk.ClaudeCodeOptions → Sdk.Stream.

(** [async for _ in gen: pass], for a generator of the agent. *)
Definition drain (gen : Py (RobinAgent.Frame (S := World)) unit)
  : Py Session unit :=
  λ s,
    let '(r, f) := gen (RobinAgent.enter (_agent s) (world s)) in
    (r, {| world := RobinAgent.owner f; _agent := RobinAgent.self f;
           queries := queries s ++ RobinAgent.asked f |}).

Definition agent_investigate (q : string) : Py Session unit :=
  drain (RobinAgent.investigate MAX_AGENT_TURNS ROBIN_SYSTEM_PROMPT query
           run_ready callbacks q true).

Definition agent_follow_up (q : string) : Py Session unit :=
  drain (RobinAgent.follow_up MAX_AGENT_TURNS ROBIN_SYSTEM_PROMPT query
           run_ready callbacks q).

(** [self._result or InvestigationResult(text=self._full_response)]. *)
Definition result_or_text : Py Session InvestigationResult.t :=
  svc ← Py.gets (λ s, service (world s));
  mret (default (InvestigationResult.of_text (_full_response svc)) (_result svc)).

(** Lines 126-128: [await self.stream.emit_error(str(e)); raise]. *)
Definition on_failure {A : Type} (e : PyException) : Py Session A :=
  Py.zoom world set_world (on_stream (SSEStreamManager.emit_error (exc_str e)));;
  Py.raise e.

(** Lines 109-128. *)
Definition investigate (q : string) : Py Session InvestigationResult.t :=
  Py.try_except (agent_investigate q;; result_or_text) on_failure.

(** Lines 130-150. *)
Definition follow_up (q : string) : Py Session InvestigationResult.t :=
  Py.zoom world set_world
    (on_service (Py.modify (set_full_response EmptyString)));;
  Py.try_except (agent_follow_up q;; result_or_text) on_failure.

(** *** Waits that need not give way

    In [investigate] above every wait on the engine lets the event loop run
    the ready tasks.  Python gives the loop a turn at an [await] only when
    what is awaited is not there yet: when the engine has its next message
    at hand the running task goes on, and the tasks the callbacks created
    stay queued.  Nothing in lines 109-128 waits for them or cancels them.
    [suspended] is what one wait on the engine does to the world. *)
Section scheduled.

Variable suspended : World → World.

(** Line 120 under [suspended]. *)
Definition agent_investigate_scheduled (q : string) : Py Session unit :=
  drain (RobinAgent.investigate MAX_AGENT_TURNS ROBIN_SYSTEM_PROMPT query
           suspended callbacks q true).

(** Lines 109-128 under [suspended]. *)
Definition investigate_scheduled (q : string)
  : Py Session InvestigationResult.t :=
  Py.try_except (agent_investigate_scheduled q;; result_or_text) on_failure.

(** At a wait the running task either goes on at once or lets every ready
    task run. *)
Definition schedule : Prop :=
  ∀ w, suspended w = w ∨ suspended w = run_ready w.

End scheduled.

End engine.
End service.
End AgentService.

(** ** [agent/client.py]: the one-shot [run_investigation] *)

Module Client.

(** Lines 232-234 (and the loop of [ui.py], lines 155-157):
    [full_text += chunk] for every chunk the generator yields. *)
Definition collect (chunks : list string) : string :=
  foldl (λ full_text chunk, full_text +:+ chunk) EmptyString chunks.

Section run_investigation.

(** The state the caller's callbacks act on. *)
Context {S : Type}.

Variable DEFAULT_MODEL : string.
Variable MAX_AGENT_TURNS : Z.
Variable ROBIN_SYSTEM_PROMPT : string.
Variable query : string → Sdk.ClaudeCodeOptions → Sdk.Stream.

(** What the rest of the event loop does to the caller's state while the
    generator waits. *)
Variable suspended : S → S.

(** What the callbacks of the agent act on: the caller's state and the
    local [result_holder] of line 221. *)
Record Scope : Type :=
  { caller : S; result_holder : list InvestigationResult.t }.

Definition set_caller (v : S) (c : Scope) : Scope :=
  {| caller := v; result_holder := result_holder c |}.

Definition on_caller {A : Type} (m : Py S A) : Py Scope A :=
  Py.zoom caller set_caller m.

(** Lines 223-224. *)
Definition capture_result (result : InvestigationResult.t) : Py Scope unit :=
  Py.modify (λ c, {| caller := caller c;
                     result_holder := result_holder c ++ [result] |}).

(** Lines 226-230: the callbacks handed to [RobinAgent]. *)
Definition agent_callbacks (on_text : option (string → Py S unit))
    (on_tool_use : option (string → PyDict.t pyval → Py S unit))
  : RobinAgent.Callbacks :=
  {| RobinAgent.on_text := (λ cb text, on_caller (cb text)) <$> on_text;
     RobinAgent.on_tool_use :=
       (λ cb tool_name tool_input, on_caller (cb tool_name tool_input))
         <$> on_tool_use;
     RobinAgent.on_complete := Some capture_result |}.

(** Lines 205-239. *)
Definition run_investigation (query_text : string)
    (on_text : option (string → Py S unit))
    (on_tool_use : option (string → PyDict.t pyval → Py S unit))
  : Py S InvestigationResult.t :=
  λ s,
    let agent := RobinAgent.__init__ DEFAULT_MODEL None in
    let '(r, f) :=
      RobinAgent.investigate MAX_AGENT_TURNS ROBIN_SYSTEM_PROMPT query
        (λ c, set_caller (suspended (caller c)) c)
        (agent_callbacks on_text on_tool_use) query_text true
        (RobinAgent.enter agent {| caller := s; result_holder := [] |}) in
    let full_text := collect (RobinAgent.yielded f) in
    (match r with
     | Return _ =>
         Return match result_holder (RobinAgent.owner f) with
                | result :: _ => result
                | [] => InvestigationResult.of_text full_text
                end
     | Raise e => Raise e
     end,
     caller (RobinAgent.owner f)).

End run_investigation.
End Client.
Section pystr_facts.
Import PyStr.

(** [String.append] is never unfolded by [simpl]; its two equations are
    used as rewrite rules instead. *)
Lemma append_nil_l (s : string) : EmptyString +:+ s = s.
Proof. reflexivity. Qed.

Lemma append_cons (c : ascii) (s t : string) :
  String c s +:+ t = String c (s +:+ t).
Proof. reflexivity. Qed.

Lemma append_empty_r (s : string) : s +:+ EmptyString = s.
Proof.
  induction s as [|c s IH]; [done|]. by rewrite append_cons, IH.
Qed.

Lemma append_assoc (a b c : string) : (a +:+ b) +:+ c = a +:+ b +:+ c.
Proof.
  induction a as [|x a IH]; [done|]. by rewrite !append_cons, IH.
Qed.

Lemma append_length (a b : string) : len (a +:+ b) = len a + len b.
Proof.
  unfold len. induction a as [|x a IH]; [done|].
  rewrite append_cons. simpl. by rewrite IH.
Qed.

Lemma startswith_spec (s t : string) :
  startswith s t = true ↔ ∃ post, t = s +:+ post.
Proof.
  revert t. induction s as [|a s IH]; intros t; simpl.
  - split; [intros _; by exists t | done].
  - destruct t as [|b t].
    + split; [done | intros [post H]; discriminate].
    + rewrite andb_true_iff, bool_decide_eq_true, IH. split.
      * intros [-> [post ->]]. by exists post.
      * intros [post H]. rewrite append_cons in H.
        injection H as -> ->. eauto.
Qed.

Lemma contains_spec (s t : string) :
  contains s t = true ↔ s `substring_of` t.
Proof.
  unfold substring_of. induction t as [|b t IH]; simpl.
  - rewrite orb_false_r, startswith_spec. split.
    + intros [post H]. by exists EmptyString, post.
    + intros [[|c pre] [post H]]; [by exists post | discriminate].
  - rewrite orb_true_iff, startswith_spec, IH. split.
    + intros [[post H] | (pre & post & ->)].
      * by exists EmptyString, post.
      * by exists (String b pre), post.
    + intros [[|c pre] [post H]].
      * left. by exists post.
      * right. rewrite append_cons in H. injection H as _ ->.
        by exists pre, post.
Qed.

Lemma substring_of_refl (s : string) : s `substring_of` s.
Proof.
  exists EmptyString, EmptyString. by rewrite append_nil_l, append_empty_r.
Qed.

Lemma substring_of_app_l (s a b : string) :
  s `substring_of` a → s `substring_of` (a +:+ b).
Proof.
  intros (pre & post & ->). exists pre, (post +:+ b).
  by rewrite !append_assoc.
Qed.

Lemma substring_of_app_r (s a b : string) :
  s `substring_of` b → s `substring_of` (a +:+ b).
Proof.
  intros (pre & post & ->). exists (a +:+ pre), post.
  by rewrite !append_assoc.
Qed.

Lemma substring_of_trans (a b c : string) :
  a `substring_of` b → b `substring_of` c → a `substring_of` c.
Proof.
  intros (p1 & q1 & ->) (p2 & q2 & ->).
  exists (p2 +:+ p1), (q1 +:+ q2). by rewrite !append_assoc.
Qed.

Lemma substring_of_join (sep p : string) (parts : list string) :
  p ∈ parts → p `substring_of` join sep parts.
Proof.
  induction parts as [|q [|r rest] IH]; intros Hin.
  - by apply elem_of_nil in Hin.
  - apply list_elem_of_singleton in Hin as ->. apply substring_of_refl.
  - apply elem_of_cons in Hin as [->|Hin].
    + apply substring_of_app_l, substring_of_refl.
    + change (join sep (q :: r :: rest))
        with (q +:+ sep +:+ join sep (r :: rest)).
      by apply substring_of_app_r, substring_of_app_r, IH.
Qed.

Lemma take_length (n : nat) (s : string) : len (take n s) = n `min` len s.
Proof.
  unfold len. revert s. induction n as [|n IH]; intros [|c s]; simpl; auto.
Qed.

Lemma take_startswith (n : nat) (s : string) :
  ∃ post, s = take n s +:+ post.
Proof.
  revert s. induction n as [|n IH]; intros s.
  - exists s. by destruct s.
  - destruct s as [|c s]; [by exists EmptyString|].
    destruct (IH s) as [post Hpost]. exists post. simpl.
    rewrite append_cons. congruence.
Qed.

End pystr_facts.

(** ** Facts about [darkweb_search] *)

Section search_facts.
Import Tools.

Lemma formatted_length (results : list SearchResult) :
  length (formatted results) = length results.
Proof. unfold formatted. by rewrite length_imap. Qed.

Lemma display_results_length (results : list SearchResult) :
  length (display_results results) = 50 `min` length results.
Proof.
  unfold display_results, display_limit.
  by rewrite length_take, formatted_length.
Qed.

Lemma display_results_lookup (results : list SearchResult) (i : nat) :
  i < 50 →
  display_results results !! i = format_result (S i) <$> results !! i.
Proof.
  intros Hi. unfold display_results, display_limit, formatted.
  by rewrite lookup_take_lt, list_lookup_imap.
Qed.

Lemma display_results_beyond (results : list SearchResult) (i : nat) :
  50 ≤ i → display_results results !! i = None.
Proof. intros Hi. unfold display_results. by apply lookup_take_ge. Qed.

(** [C9] The formatted output of [darkweb_search] on [N >= 1] unique
    results is the header reporting [N] (the full count, never the capped
    one), the first [min N 50] results numbered from 1 in their order, then,
    exactly when [N > 50], the marker ["... and N-50 more results."], then
    the next-step footer; no result beyond the 50th is displayed. *)
Theorem darkweb_search_display_cap
    (get_search_results : string → Z → PyResult (list SearchResult))
    (args : SearchArgs) (results : list SearchResult) :
  get_search_results (PyStr.replace_char " " "+" (query args))
    (default 5%Z (search_max_workers args)) = Return results →
  results ≠ [] →
  let n := length results in
  let text := response_text (darkweb_search get_search_results args) in
  let shown := display_results results in
  ∃ marker,
    text = ("Found **" +:+ pretty n
              +:+ "** unique results from dark web search engines." +:+ nl +:+ nl)
             +:+ PyStr.join (nl +:+ nl) shown +:+ marker +:+ search_footer
    ∧ length shown = 50 `min` n
    ∧ length shown ≤ 50
    ∧ (∀ i, i < 50 → shown !! i = format_result (S i) <$> results !! i)
    ∧ (∀ i, 50 ≤ i → shown !! i = None)
    ∧ (50 < n →
       marker = nl +:+ nl +:+ "... and " +:+ pretty (n - 50) +:+ " more results."
       ∧ ("... and " +:+ pretty (n - 50) +:+ " more results.") `substring_of` text)
    ∧ (n ≤ 50 → marker = EmptyString).
Proof.
  intros Hget Hne n text shown.
  exists (default EmptyString (more_marker results)).
  assert (text = search_result_text results) as Htext.
  { unfold text, darkweb_search. rewrite Hget. by destruct results. }
  split_and!.
  - by rewrite Htext.
  - apply display_results_length.
  - unfold shown. rewrite display_results_length. lia.
  - intros i Hi. by apply display_results_lookup.
  - intros i Hi. by apply display_results_beyond.
  - intros Hn. unfold more_marker, total_count. fold n.
    rewrite decide_True by done. split; [done|].
    rewrite Htext. unfold search_result_text, more_marker, total_count. fold n.
    rewrite decide_True by done. simpl.
    apply substring_of_app_r, substring_of_app_r, substring_of_app_l.
    apply substring_of_app_r, substring_of_app_r, substring_of_refl.
  - intros Hn. unfold more_marker, total_count. fold n.
    by rewrite decide_False by lia.
Qed.

(** A run of [darkweb_search] on two results, none truncated. *)
Lemma darkweb_search_display_cap_witness :
  let two := [ {| title := "Forum"; link := "http://a.onion" |};
               {| title := "Market"; link := "http://b.onion" |} ] in
  ∃ marker,
    response_text
      (darkweb_search (λ _ _, Return two)
         {| query := "ransomware payments"; search_max_workers := None |})
    = ("Found **" +:+ pretty 2
         +:+ "** unique results from dark web search engines." +:+ nl +:+ nl)
        +:+ PyStr.join (nl +:+ nl) (display_results two) +:+ marker
        +:+ search_footer
    ∧ marker = EmptyString.
Proof.
  intros two.
  destruct (darkweb_search_display_cap (λ _ _, Return two)
              {| query := "ransomware payments"; search_max_workers := None |}
              two eq_refl ltac:(done))
    as (marker & Htext & _ & _ & _ & _ & _ & Hnone).
  exists marker. split; [exact Htext | apply Hnone; simpl; lia].
Defined.

End search_facts.

(** ** Facts about [darkweb_scrape] *)

Section scrape_facts.
Import Tools.

Variable scrape_multiple :
  list UrlEntry → Z → PyResult (PyDict.t (option string)).

Lemma validate_targets_elem (ts : list pyval) (e : UrlEntry) :
  e ∈ validate_targets ts ↔ ∃ t, t ∈ ts ∧ validate_target t = Some e.
Proof. apply list_elem_of_omap. Qed.

Lemma validate_targets_nil (ts : list pyval) :
  validate_targets ts = [] ↔ ∀ t, t ∈ ts → validate_target t = None.
Proof.
  unfold validate_targets. induction ts as [|t ts IH]; simpl.
  - split; [intros _ t Ht; by apply elem_of_nil in Ht | done].
  - destruct (validate_target t) as [e|] eqn:Ht.
    + split; [done|]. intros H. specialize (H t (list_elem_of_here _ _)).
      congruence.
    + rewrite IH. split.
      * intros H t' [->|Hin]%elem_of_cons; auto.
      * intros H t' Hin. apply H. by right.
Qed.

Lemma validate_dict_without_link (d : PyDict.t pyval) :
  PyDict.get d "link" = None → validate_target (PDict d) = None.
Proof. intros H. simpl. by rewrite H. Qed.

Lemma darkweb_scrape_dispatch (args : ScrapeArgs) :
  validate_targets (targets args) ≠ [] →
  dispatched (darkweb_scrape scrape_multiple args)
  = [ {| call_urls := validate_targets (targets args);
         call_workers := default 5%Z (scrape_max_workers args) |} ].
Proof.
  intros Hne. unfold darkweb_scrape.
  destruct (targets args) as [|t ts] eqn:Hts; [done|].
  by destruct (validate_targets (t :: ts)).
Qed.

(** A well-formed target: a dict with a ['link'] key, or a bare string. *)
Definition well_formed (target : pyval) : bool :=
  match target with
  | PDict d => PyDict.mem d "link"
  | PStr _ => true
  | _ => false
  end.

(** The entry a well-formed target stands for: its link, and its title or
    ["Unknown"]. *)
Definition entry_of (target : pyval) : UrlEntry :=
  match target with
  | PDict d =>
      {| entry_title := default (PStr "Unknown") (PyDict.get d "title");
         entry_link := default PNone (PyDict.get d "link") |}
  | _ => {| entry_title := PStr "Unknown"; entry_link := target |}
  end.

Lemma validate_target_well_formed (t : pyval) :
  validate_target t = if well_formed t then Some (entry_of t) else None.
Proof.
  destruct t as [|b|z|s|items|d]; try done.
  cbn. unfold PyDict.mem. by destruct (PyDict.get d "link").
Qed.

Lemma validate_targets_well_formed (ts : list pyval) :
  validate_targets ts = entry_of <$> filter (λ t, well_formed t = true) ts.
Proof.
  unfold validate_targets. induction ts as [|t ts IH]; [done|].
  rewrite filter_cons. cbn [omap list_omap].
  rewrite validate_target_well_formed.
  destruct (well_formed t) eqn:Ht.
  - rewrite decide_True by done. cbn. by rewrite <-IH.
  - rewrite decide_False by done. exact IH.
Qed.

(** [C2] as the code has it.  A dict with a ['link'] key is accepted with
    that link and its title (["Unknown"] without one); a bare string is
    accepted as a link titled ["Unknown"]; nothing else is accepted, a dict
    without a ['link'] key among the rest.  [urls_data] holds the entries of
    the well-formed targets, in the order given.  An empty target list, and
    a non-empty list none of whose entries is well-formed, are answered with
    a validation message and nothing is dispatched; as soon as one entry is
    well-formed, whatever the others are, one retrieval is dispatched, for
    exactly the well-formed entries. *)
Theorem darkweb_scrape_validation (args : ScrapeArgs) :
  let run := darkweb_scrape scrape_multiple args in
  let urls_data := validate_targets (targets args) in
  let accepted :=
    entry_of <$> filter (λ t, well_formed t = true) (targets args) in
  (∀ d l, PyDict.get d "link" = Some l →
     validate_target (PDict d)
     = Some {| entry_title := default (PStr "Unknown") (PyDict.get d "title");
               entry_link := l |})
  ∧ (∀ s, validate_target (PStr s)
          = Some {| entry_title := PStr "Unknown"; entry_link := PStr s |})
  ∧ (∀ t, validate_target t = None ↔ well_formed t = false)
  ∧ (∀ d, PyDict.get d "link" = None → validate_target (PDict d) = None)
  ∧ urls_data = accepted
  ∧ (∀ e, e ∈ urls_data ↔ ∃ t, t ∈ targets args ∧ validate_target t = Some e)
  ∧ (targets args = [] →
     run = {| dispatched := []; response := text_response no_targets_text |})
  ∧ (targets args ≠ [] → (∀ t, t ∈ targets args → well_formed t = false) →
     run = {| dispatched := [];
              response := text_response invalid_targets_text |})
  ∧ ((∃ t, t ∈ targets args ∧ well_formed t = true) →
     accepted ≠ []
     ∧ dispatched run
       = [ {| call_urls := accepted;
              call_workers := default 5%Z (scrape_max_workers args) |} ]).
Proof.
  intros run urls_data accepted.
  assert (∀ t, validate_target t = None ↔ well_formed t = false) as Hnone.
  { intros t. rewrite validate_target_well_formed.
    by destruct (well_formed t). }
  assert (urls_data = accepted) as Hurls
    by apply validate_targets_well_formed.
  split_and!.
  - intros d l Hlink. cbn. by rewrite Hlink.
  - done.
  - exact Hnone.
  - apply validate_dict_without_link.
  - exact Hurls.
  - apply validate_targets_elem.
  - intros Hnil. unfold run, darkweb_scrape. by rewrite Hnil.
  - intros Hne Hall.
    assert (validate_targets (targets args) = []) as Hempty.
    { apply validate_targets_nil. intros t Hin. by apply Hnone, Hall. }
    unfold run, darkweb_scrape. rewrite Hempty.
    by destruct (targets args).
  - intros (t & Hin & Ht).
    assert (urls_data ≠ []) as Hsome.
    { unfold urls_data. intros Hnil. rewrite validate_targets_nil in Hnil.
      specialize (Hnil t Hin). apply Hnone in Hnil. congruence. }
    rewrite <-Hurls. split; [done|]. by apply darkweb_scrape_dispatch.
Qed.

Lemma meaningful_iff (content : option string) :
  meaningful content = true ↔ ∃ c, content = Some c ∧ 50 < PyStr.len c.
Proof.
  destruct content as [c|]; simpl.
  - rewrite andb_true_iff, bool_decide_eq_true. split.
    + intros [_ Hlen]. eauto.
    + intros (c' & [= <-] & Hlen). split; [|done].
      destruct c; [simpl in Hlen; lia | done].
  - split; [done | by intros (c & ? & _)].
Qed.

Lemma content_part_meaningful (url c : string) :
  50 < PyStr.len c → content_part (url, Some c) = meaningful_part url c.
Proof.
  intros Hlen. unfold content_part.
  assert (meaningful (Some c) = true) as -> by (apply meaningful_iff; eauto).
  done.
Qed.

Lemma content_part_minimal (url : string) (content : option string) :
  (∀ c, content = Some c → PyStr.len c ≤ 50) →
  content_part (url, content) = minimal_part url.
Proof.
  intros Hshort. destruct content as [c|]; [|done]. unfold content_part.
  destruct (meaningful (Some c)) eqn:Hm; [|done].
  apply meaningful_iff in Hm as (c' & [= <-] & Hlen).
  specialize (Hshort c eq_refl). lia.
Qed.

Lemma content_part_heading (item : string * option string) :
  source_heading item.1 `substring_of` content_part item.
Proof.
  destruct item as [url [c|]]; simpl; [destruct (_ && _)|];
    apply substring_of_app_l, substring_of_refl.
Qed.

Lemma display_content_short (c : string) :
  PyStr.len c ≤ 2000 → display_content c = c.
Proof. intros H. unfold display_content. by rewrite decide_False by lia. Qed.

Lemma display_content_long (c : string) :
  2000 < PyStr.len c →
  display_content c = PyStr.take 2000 c +:+ "..."
  ∧ PyStr.len (PyStr.take 2000 c) = 2000
  ∧ ∃ rest, c = PyStr.take 2000 c +:+ rest.
Proof.
  intros H. unfold display_content. rewrite decide_True by done.
  split_and!; [done | rewrite take_length; lia | apply take_startswith].
Qed.

Lemma content_part_in_text (urls_data : list UrlEntry)
    (results : PyDict.t (option string)) (item : string * option string) :
  item ∈ results →
  content_part item `substring_of` scrape_result_text urls_data results.
Proof.
  intros Hin. unfold scrape_result_text.
  do 7 apply substring_of_app_r. apply substring_of_app_l.
  apply substring_of_join, list_elem_of_fmap_2, Hin.
Qed.

Lemma darkweb_scrape_text (args : ScrapeArgs)
    (results : PyDict.t (option string)) :
  validate_targets (targets args) ≠ [] →
  scrape_multiple (validate_targets (targets args))
    (default 5%Z (scrape_max_workers args)) = Return results →
  results ≠ [] →
  response_text (response (darkweb_scrape scrape_multiple args))
  = scrape_result_text (validate_targets (targets args)) results.
Proof.
  intros Hne Hret Hres. unfold darkweb_scrape.
  destruct (targets args) as [|t ts] eqn:Hts; [done|].
  destruct (validate_targets (t :: ts)) as [|e es] eqn:Hv; [done|].
  cbn [response]. rewrite Hret. by destruct results.
Qed.

(** [C3] When [darkweb_scrape] reaches retrieval and [scrape_multiple]
    returns its mapping: an item whose text is longer than 50 characters is
    written with its text, whole up to 2000 characters and otherwise cut to
    its first 2000 characters followed by ["..."]; an item whose text has 50
    characters or fewer, or none, is written with the placeholder
    ["*[Minimal or no content extracted]*"]; one part is written per item;
    and, [scrape_multiple] keeping the contract of the specification, the
    heading of every requested link is in the output. *)
Theorem darkweb_scrape_output (args : ScrapeArgs)
    (results : PyDict.t (option string)) :
  let urls_data := validate_targets (targets args) in
  let text := response_text (response (darkweb_scrape scrape_multiple args)) in
  urls_data ≠ [] →
  scrape_multiple urls_data (default 5%Z (scrape_max_workers args))
    = Return results →
  scrape_contract urls_data results →
  (∀ url c, (url, Some c) ∈ results → 50 < PyStr.len c →
     content_part (url, Some c)
       = source_heading url +:+ display_content c +:+ nl +:+ nl +:+ "---"
     ∧ content_part (url, Some c) `substring_of` text
     ∧ (PyStr.len c ≤ 2000 → display_content c = c)
     ∧ (2000 < PyStr.len c →
        display_content c = PyStr.take 2000 c +:+ "..."
        ∧ PyStr.len (PyStr.take 2000 c) = 2000
        ∧ ∃ rest, c = PyStr.take 2000 c +:+ rest))
  ∧ (∀ url content, (url, content) ∈ results →
     (∀ c, content = Some c → PyStr.len c ≤ 50) →
     content_part (url, content)
       = source_heading url +:+ "*[Minimal or no content extracted]*"
           +:+ nl +:+ nl +:+ "---"
     ∧ content_part (url, content) `substring_of` text)
  ∧ length (content_parts results) = length results
  ∧ (∀ e l, e ∈ urls_data → entry_link e = PStr l →
     ("## Source: " +:+ l +:+ nl +:+ nl) `substring_of` text).
Proof.
  intros urls_data text Hne Hret Hcontract.
  assert (results ≠ [] → text = scrape_result_text urls_data results) as Htext.
  { intros Hres. by apply darkweb_scrape_text. }
  assert (∀ item, item ∈ results →
            content_part item `substring_of` text) as Hpart.
  { intros item Hin. rewrite Htext.
    - by apply content_part_in_text.
    - intros ->. by apply elem_of_nil in Hin. }
  split_and!.
  - intros url c Hin Hlen. split_and!.
    + by apply content_part_meaningful.
    + by apply Hpart.
    + apply display_content_short.
    + apply display_content_long.
  - intros url content Hin Hshort. split.
    + by apply content_part_minimal.
    + by apply Hpart.
  - unfold content_parts. by rewrite length_fmap.
  - intros e l He Hl.
    assert (l ∈ PyDict.keys results) as Hkey by (apply Hcontract; eauto).
    unfold PyDict.keys in Hkey.
    apply list_elem_of_fmap in Hkey as (item & -> & Hin).
    eapply substring_of_trans; [apply content_part_heading | by apply Hpart].
Qed.

End scrape_facts.

(** [C2] as stated fails: a target list with one dict that has no ['link']
    key and one well-formed dict is not rejected; the retrieval is
    dispatched for the well-formed entry. *)
Lemma darkweb_scrape_malformed_entry_not_rejected :
  let args :=
    {| Tools.targets :=
         [ PDict [("title", PStr "no link here")];
           PDict [("title", PStr "Forum"); ("link", PStr "http://a.onion")] ];
       Tools.scrape_max_workers := None |} in
  let run := Tools.darkweb_scrape (λ _ _, Return [("http://a.onion", None)]) args in
  (∃ d, PDict d ∈ Tools.targets args ∧ PyDict.get d "link" = None)
  ∧ dispatched run
    = [ {| Tools.call_urls :=
             [ {| Tools.entry_title := PStr "Forum";
                  Tools.entry_link := PStr "http://a.onion" |} ];
           Tools.call_workers := 5 |} ]
  ∧ response run ≠ text_response Tools.invalid_targets_text
  ∧ response run ≠ text_response Tools.no_targets_text.
Proof.
  intros args run. split_and!.
  - exists [("title", PStr "no link here")]. split; [|done].
    apply list_elem_of_here.
  - reflexivity.
  - vm_compute. discriminate.
  - vm_compute. discriminate.
Qed.

(** The scenario of the specification: ["x"] yields 10 characters and ["y"]
    yields 500. *)
Lemma darkweb_scrape_output_witness :
  let long := PyStr.join EmptyString (replicate 50 "0123456789") in
  let results := [("x", Some "0123456789"); ("y", Some long)] in
  let args := {| Tools.targets := [PDict [("link", PStr "x")]; PStr "y"];
                 Tools.scrape_max_workers := None |} in
  let text :=
    response_text (response (Tools.darkweb_scrape (λ _ _, Return results) args)) in
  Tools.content_part ("x", Some "0123456789") `substring_of` text
  ∧ Tools.content_part ("y", Some long)
    = Tools.source_heading "y" +:+ long +:+ nl +:+ nl +:+ "---"
  ∧ ("## Source: " +:+ "y" +:+ nl +:+ nl) `substring_of` text.
Proof.
  intros long results args text.
  assert (Tools.validate_targets (Tools.targets args)
          = [ {| Tools.entry_title := PStr "Unknown";
                 Tools.entry_link := PStr "x" |};
              {| Tools.entry_title := PStr "Unknown";
                 Tools.entry_link := PStr "y" |} ]) as Hvalid
    by (vm_compute; reflexivity).
  assert (Tools.scrape_contract (Tools.validate_targets (Tools.targets args))
            results) as Hcontract.
  { intros l. rewrite Hvalid. unfold PyDict.keys, results. cbn [fmap list_fmap fst].
    rewrite !elem_of_cons, elem_of_nil. split.
    - intros (e & He & Hl). rewrite !elem_of_cons, elem_of_nil in He.
      destruct He as [->|[->|[]]]; injection Hl as <-; auto.
    - intros [->|[->|[]]]; eexists.
      + split; [apply list_elem_of_here | reflexivity].
      + split; [apply list_elem_of_further, list_elem_of_here | reflexivity]. }
  destruct (darkweb_scrape_output (λ _ _, Return results) args results
              ltac:(done) eq_refl Hcontract) as (Hlong & Hshort & _ & Hlinks).
  split_and!.
  - apply (Hshort "x" (Some "0123456789")).
    + apply list_elem_of_here.
    + intros c [= <-]. vm_compute. lia.
  - destruct (Hlong "y" long) as (-> & _ & Hkeep & _).
    + apply list_elem_of_further, list_elem_of_here.
    + vm_compute. lia.
    + rewrite Hkeep; [done | vm_compute; lia].
  - apply (Hlinks {| Tools.entry_title := PStr "Unknown";
                     Tools.entry_link := PStr "y" |} "y"); [|done].
    rewrite Hvalid. apply list_elem_of_further, list_elem_of_here.
Defined.

(** ** Facts about [delegate_analysis] *)

Section delegate_facts.
Import Tools.

Variable available : PyDict.t string.
Variable run_subagents_parallel :
  list string → string → string → PyResult (list SubAgentResult).

Lemma pydict_get_is_Some {V : Type} (d : PyDict.t V) (k : string) :
  is_Some (PyDict.get d k) ↔ k ∈ PyDict.keys d.
Proof.
  unfold PyDict.keys. induction d as [|[k' v] d IH]; simpl.
  - rewrite elem_of_nil. split; [by intros [? ?] | done].
  - rewrite elem_of_cons. destruct (decide (k' = k)) as [->|Hne].
    + split; [by left | by eexists].
    + rewrite IH. split; [by right | by intros [?|?]].
Qed.

Lemma pydict_mem_keys {V : Type} (d : PyDict.t V) (k : string) :
  PyDict.mem d k = true ↔ k ∈ PyDict.keys d.
Proof.
  unfold PyDict.mem. by rewrite bool_decide_eq_true, pydict_get_is_Some.
Qed.

Lemma pydict_mem_false {V : Type} (d : PyDict.t V) (k : string) :
  PyDict.mem d k = false ↔ k ∉ PyDict.keys d.
Proof.
  rewrite <-pydict_mem_keys. by destruct (PyDict.mem d k).
Qed.

Lemma invalid_types_elem (ats : list string) (a : string) :
  a ∈ invalid_types available ats ↔ a ∈ ats ∧ a ∉ PyDict.keys available.
Proof.
  unfold invalid_types. rewrite list_elem_of_filter, pydict_mem_false.
  tauto.
Qed.

Lemma invalid_types_nil (ats : list string) :
  invalid_types available ats = [] ↔ ∀ a, a ∈ ats → a ∈ PyDict.keys available.
Proof.
  split.
  - intros Hnil a Hin. destruct (decide (a ∈ PyDict.keys available)) as [|Hno];
      [done|].
    assert (a ∈ invalid_types available ats) as Ha
      by by apply invalid_types_elem.
    rewrite Hnil in Ha. by apply elem_of_nil in Ha.
  - intros Hall. destruct (invalid_types available ats) as [|a rest] eqn:Hinv;
      [done|].
    assert (a ∈ invalid_types available ats) as Ha
      by (rewrite Hinv; apply list_elem_of_here).
    apply invalid_types_elem in Ha as [Hin Hno]. destruct Hno. by apply Hall.
Qed.

Lemma repr_str_in_list (l : list string) (s : string) :
  s ∈ l → PyRepr.repr_str s `substring_of` PyRepr.repr_str_list l.
Proof.
  intros Hin. unfold PyRepr.repr_str_list.
  apply substring_of_app_r, substring_of_app_l.
  by apply substring_of_join, list_elem_of_fmap_2.
Qed.

Lemma repr_str_registry_name (v : string) :
  v ∈ registry_names →
  PyRepr.repr_str v = "'" +:+ v +:+ "'".
Proof.
  unfold registry_names. rewrite !elem_of_cons, elem_of_nil.
  intros [->|[->|[->|[->|[]]]]]; reflexivity.
Qed.

Lemma delegate_analysis_invalid (args : DelegateArgs) :
  agent_types args ≠ [] →
  invalid_types available (agent_types args) ≠ [] →
  delegate_analysis available run_subagents_parallel args
  = {| dispatched := [];
       response :=
         text_response
           (invalid_types_text available
              (invalid_types available (agent_types args))) |}.
Proof.
  intros Hne Hinv. unfold delegate_analysis.
  destruct (agent_types args) as [|a ats]; [done|].
  destruct (invalid_types available (a :: ats)) as [|b bs]; [done|].
  reflexivity.
Qed.

(** [C5] With the registry holding exactly the four worker kinds: a call
    that names a kind outside the registry dispatches nothing, and its
    message is ["Invalid agent types: "] followed by the list of all the
    invalid names, in the order given, then [". Valid types: "] followed by
    the list of all the registry's names; so every invalid name and every
    valid name can be read in it.  A call with no kind at all dispatches
    nothing either and is answered with the list of available workers. *)
Theorem delegate_analysis_rejects_unknown_kinds (args : DelegateArgs) :
  (∀ k, k ∈ PyDict.keys available ↔ k ∈ registry_names) →
  let run := delegate_analysis available run_subagents_parallel args in
  let text := response_text (response run) in
  ((∃ a, a ∈ agent_types args ∧ a ∉ registry_names) →
   let invalid := filter (λ a, a ∉ registry_names) (agent_types args) in
   dispatched run = []
   ∧ text = "Invalid agent types: " +:+ PyRepr.repr_str_list invalid
              +:+ ". Valid types: "
              +:+ PyRepr.repr_str_list (PyDict.keys available)
   ∧ (∀ a, a ∈ agent_types args → a ∉ registry_names →
      a ∈ invalid ∧ PyRepr.repr_str a `substring_of` text)
   ∧ (∀ v, v ∈ registry_names → ("'" +:+ v +:+ "'") `substring_of` text))
  ∧ (agent_types args = [] →
     dispatched run = []
     ∧ text = "No agents specified. Available sub-agents:" +:+ nl +:+ nl
                +:+ agent_list available).
Proof.
  intros Hreg run text. split.
  - intros (a0 & Hin0 & Hbad0) invalid.
    assert (invalid_types available (agent_types args) = invalid) as Hinv.
    { unfold invalid_types, invalid. apply list_filter_iff. intros a.
      by rewrite pydict_mem_false, Hreg. }
    assert (a0 ∈ invalid) as Hin0'.
    { unfold invalid. by apply list_elem_of_filter. }
    assert (run = {| dispatched := [];
                     response := text_response
                                   (invalid_types_text available invalid) |})
      as Hrun.
    { unfold run. rewrite <-Hinv. apply delegate_analysis_invalid.
      - intros Hnil. rewrite Hnil in Hin0. by apply elem_of_nil in Hin0.
      - rewrite Hinv. intros Hnil. rewrite Hnil in Hin0'.
        by apply elem_of_nil in Hin0'. }
    assert (text = invalid_types_text available invalid) as Htext
      by (unfold text; by rewrite Hrun).
    split_and!.
    + by rewrite Hrun.
    + by rewrite Htext.
    + intros a Hin Hbad.
      assert (a ∈ invalid) as Ha by (unfold invalid; by apply list_elem_of_filter).
      split; [done|]. rewrite Htext. unfold invalid_types_text.
      by apply substring_of_app_r, substring_of_app_l, repr_str_in_list.
    + intros v Hv. rewrite Htext. unfold invalid_types_text.
      do 3 apply substring_of_app_r.
      rewrite <-repr_str_registry_name by done.
      apply repr_str_in_list. by apply Hreg.
  - intros Hnil. unfold text, run, delegate_analysis. by rewrite Hnil.
Qed.

(** [C10] A call whose kinds are all in the registry, at least one of them,
    and whose content is empty is answered with the no-content message and
    dispatches nothing.  The check comes after the validation of the kinds
    (with an unknown kind the answer is the invalid-kinds message, empty
    content or not) and before the dispatch (with valid kinds and some
    content the sub-agent runner is called, once). *)
Theorem delegate_analysis_requires_content (args : DelegateArgs) :
  agent_types args ≠ [] →
  (∀ a, a ∈ agent_types args → a ∈ PyDict.keys available) →
  delegate_content args = EmptyString →
  delegate_analysis available run_subagents_parallel args
  = {| dispatched := []; response := text_response no_content_text |}
  ∧ (∀ args' : DelegateArgs,
       agent_types args' ≠ [] →
       (∃ a, a ∈ agent_types args' ∧ a ∉ PyDict.keys available) →
       response (delegate_analysis available run_subagents_parallel args')
       = text_response
           (invalid_types_text available
              (invalid_types available (agent_types args'))))
  ∧ (∀ args' : DelegateArgs,
       agent_types args' ≠ [] →
       (∀ a, a ∈ agent_types args' → a ∈ PyDict.keys available) →
       delegate_content args' ≠ EmptyString →
       dispatched (delegate_analysis available run_subagents_parallel args')
       = [ {| call_agents := agent_types args';
              call_content := delegate_content args';
              call_context := default EmptyString (delegate_context args') |} ]).
Proof.
  intros Hne Hvalid Hempty. split_and!.
  - apply invalid_types_nil in Hvalid. unfold delegate_analysis.
    rewrite Hvalid, Hempty. by destruct (agent_types args).
  - intros args' Hne' (a & Hin & Hbad).
    rewrite delegate_analysis_invalid; [done..|].
    intros Hnil. rewrite invalid_types_nil in Hnil. by apply Hbad, Hnil.
  - intros args' Hne' Hvalid' Hcontent.
    apply invalid_types_nil in Hvalid'. unfold delegate_analysis.
    rewrite Hvalid'. destruct (agent_types args'); [done|].
    by destruct (delegate_content args').
Qed.

End delegate_facts.

(** The registry used in the examples: the four kinds with the descriptions
    of the tool's own documentation. *)
Definition example_registry : PyDict.t string :=
  [ ("ThreatActorProfiler", "Profiles threat actors, APT groups, cybercriminals");
    ("IOCExtractor", "Extracts IPs, domains, hashes, emails, crypto addresses");
    ("MalwareAnalyst", "Analyzes malware, ransomware, exploits");
    ("MarketplaceInvestigator", "Investigates dark web markets and vendors") ].

Lemma delegate_analysis_rejects_unknown_kinds_witness :
  let args := {| Tools.agent_types := ["IOCExtractor"; "Oracle"];
                 Tools.delegate_content := "scraped text";
                 Tools.delegate_context := None |} in
  let run := Tools.delegate_analysis example_registry (λ _ _ _, Return []) args in
  dispatched run = []
  ∧ response_text (response run)
    = "Invalid agent types: ['Oracle']. Valid types: ['ThreatActorProfiler', 'IOCExtractor', 'MalwareAnalyst', 'MarketplaceInvestigator']".
Proof.
  intros args run.
  assert (∀ k, k ∈ PyDict.keys example_registry ↔ k ∈ Tools.registry_names)
    as Hreg by done.
  destruct (delegate_analysis_rejects_unknown_kinds example_registry
              (λ _ _ _, Return []) args Hreg) as [Hbad _].
  destruct Hbad as (Hnone & Htext & _).
  - exists "Oracle". split; [by apply list_elem_of_further, list_elem_of_here|].
    unfold Tools.registry_names. rewrite !elem_of_cons, elem_of_nil.
    intros [?|[?|[?|[?|[]]]]]; discriminate.
  - split; [exact Hnone | etrans; [exact Htext | vm_compute; reflexivity]].
Defined.

Lemma delegate_analysis_requires_content_witness :
  Tools.delegate_analysis example_registry (λ _ _ _, Return [])
    {| Tools.agent_types := ["IOCExtractor"; "MalwareAnalyst"];
       Tools.delegate_content := EmptyString;
       Tools.delegate_context := Some "ransomware payments 2024" |}
  = {| dispatched := []; response := text_response Tools.no_content_text |}.
Proof.
  refine (proj1 (delegate_analysis_requires_content example_registry
                   (λ _ _ _, Return []) _ _ _ _)).
  - done.
  - intros a. cbn. rewrite !elem_of_cons, elem_of_nil.
    intros [->|[->|[]]]; auto.
  - reflexivity.
Defined.

(** ** Facts about the search fan-out *)

Section fanout_facts.
Import CoreSearch.

Context {Source : Type}.
Variable roster : list Source.
Variable fetch : Source → string → PyResult (list SearchResult).
Variable normalize : string → string.

Notation key := (dedup_key normalize).
Notation dedup := (dedup_from normalize).

Lemma dedup_from_keys_unseen (seen : gset string) (rs : list SearchResult)
    (r : SearchResult) :
  r ∈ dedup seen rs → key r ∉ seen.
Proof.
  revert seen. induction rs as [|r' rs IH]; intros seen; simpl.
  - by intros ?%elem_of_nil.
  - destruct (decide (key r' ∈ seen)) as [Hin|Hnot].
    + apply IH.
    + intros [->|Hr]%elem_of_cons; [done|].
      apply IH in Hr. set_solver.
Qed.

Lemma dedup_from_NoDup (seen : gset string) (rs : list SearchResult) :
  NoDup (key <$> dedup seen rs).
Proof.
  revert seen. induction rs as [|r rs IH]; intros seen; simpl.
  - constructor.
  - destruct (decide (key r ∈ seen)) as [Hin|Hnot]; [apply IH|].
    rewrite fmap_cons. constructor; [|apply IH].
    intros (r' & Heq & Hr')%list_elem_of_fmap.
    apply dedup_from_keys_unseen in Hr'. set_solver.
Qed.

Lemma dedup_from_sublist (seen : gset string) (rs : list SearchResult) :
  dedup seen rs `sublist_of` rs.
Proof.
  revert seen. induction rs as [|r rs IH]; intros seen; simpl.
  - constructor.
  - destruct (decide (key r ∈ seen)).
    + by apply sublist_cons.
    + by apply sublist_skip.
Qed.

(** The seen set after a prefix of the raw results has been read. *)
Lemma dedup_from_app (seen : gset string) (pre post : list SearchResult) :
  dedup seen (pre ++ post)
  = dedup seen pre ++ dedup (seen ∪ list_to_set (key <$> pre)) post.
Proof.
  revert seen. induction pre as [|r pre IH]; intros seen; simpl.
  - by rewrite (right_id_L ∅ (∪)).
  - destruct (decide (key r ∈ seen)) as [Hin|Hnot].
    + rewrite IH. do 2 f_equal. set_solver.
    + rewrite IH. simpl. do 3 f_equal. set_solver.
Qed.

(** First-seen order: a result is kept exactly at the first position at
    which its key occurs. *)
Lemma dedup_from_first_seen (pre post : list SearchResult) (r : SearchResult) :
  dedup ∅ (pre ++ r :: post)
  = dedup ∅ pre
      ++ (if decide (key r ∈ key <$> pre) then [] else [r])
      ++ dedup (list_to_set (key <$> pre ++ [r])) post.
Proof.
  rewrite dedup_from_app. f_equal. simpl.
  rewrite (left_id_L ∅ (∪)).
  destruct (decide (key r ∈ list_to_set (key <$> pre))) as [Hin|Hnot].
  - rewrite decide_True by set_solver. simpl. f_equal.
    rewrite fmap_app, list_to_set_app_L. set_solver.
  - rewrite decide_False by set_solver. simpl. do 2 f_equal.
    rewrite fmap_app, list_to_set_app_L. set_solver.
Qed.

Lemma dedup_from_complete (seen : gset string) (rs : list SearchResult)
    (r : SearchResult) :
  r ∈ rs → key r ∉ seen → key r ∈ key <$> dedup seen rs.
Proof.
  revert seen. induction rs as [|r' rs IH]; intros seen; simpl.
  - by intros ?%elem_of_nil.
  - intros [->|Hin]%elem_of_cons Hnot.
    + rewrite decide_False by done. rewrite fmap_cons. apply list_elem_of_here.
    + destruct (decide (key r' ∈ seen)) as [|Hnew]; [by apply IH|].
      rewrite fmap_cons. destruct (decide (key r = key r')) as [->|Hne].
      * apply list_elem_of_here.
      * apply list_elem_of_further, IH; [done|]. set_solver.
Qed.

End fanout_facts.

(** The scenario of the specification: three sources answering with the
    links [{A,B}], [{B,C}] and [{D}]. *)
Definition scenario_hit (l : string) : SearchResult :=
  {| title := "hit " +:+ l; link := l |}.

Definition scenario_fetch (src : nat) (q : string)
  : PyResult (list SearchResult) :=
  match src with
  | 0 => Return [scenario_hit "A"; scenario_hit "B"]
  | 1 => Return [scenario_hit "B"; scenario_hit "C"]
  | 2 => Return [scenario_hit "D"]
  | _ => Raise {| exc_str := "unreachable" |}
  end.

(** [C4] The results of a search hold no two entries with the same
    normalized link; they are the raw results of the sources, read in the
    roster's order, with each entry kept exactly when no earlier entry has
    its normalized link; no normalized link is lost; the pool bound does not
    change them; and the sources of the scenario give [A, B, C, D]. *)
Theorem search_results_unique_in_roster_order {Source : Type}
    (roster : list Source)
    (fetch : Source → string → PyResult (list SearchResult))
    (normalize : string → string) (query : string) (max_workers : Z) :
  let raw := CoreSearch.raw_results roster fetch query in
  let key := CoreSearch.dedup_key normalize in
  let out :=
    CoreSearch.get_search_results roster fetch normalize query max_workers in
  NoDup (key <$> out)
  ∧ out `sublist_of` raw
  ∧ length out ≤ length raw
  ∧ (∀ pre r post, raw = pre ++ r :: post →
     ∃ rest,
       out = CoreSearch.dedup_from normalize ∅ pre
               ++ (if decide (key r ∈ key <$> pre) then [] else [r]) ++ rest)
  ∧ (∀ r, r ∈ raw → key r ∈ key <$> out)
  ∧ (∀ workers,
       CoreSearch.get_search_results roster fetch normalize query workers = out)
  ∧ link <$> CoreSearch.get_search_results [0; 1; 2; 3] scenario_fetch id
               "ransomware+payments+2024" 5
    = ["A"; "B"; "C"; "D"].
Proof.
  intros raw key out. unfold out, CoreSearch.get_search_results. fold raw.
  split_and!.
  - apply dedup_from_NoDup.
  - apply dedup_from_sublist.
  - apply sublist_length, dedup_from_sublist.
  - intros pre r post ->. eexists. apply dedup_from_first_seen.
  - intros r Hr. apply dedup_from_complete; [done | set_solver].
  - done.
  - reflexivity.
Qed.

(** ** Facts about [RobinAgent] *)

Lemma py_bind_run {S A B : Type} (m : Py S A) (k : A → Py S B) (s : S) :
  (m ≫= k) s
  = match m s with
    | (Return a, s') => k a s'
    | (Raise e, s') => (Raise e, s')
    end.
Proof. reflexivity. Qed.

(** Unfold the sequencing of straight-line statements. *)
Ltac py_unfold :=
  unfold mbind, mret, Py_bind, Py_ret, Py.bind, Py.ret, Py.gets, Py.modify,
    Py.when, Py.zoom, Py.raise in *.

Lemma for_each_app {S A : Type} (l1 l2 : list A) (body : A → Py S unit)
    (s : S) :
  Py.for_each (l1 ++ l2) body s
  = (Py.for_each l1 body;; Py.for_each l2 body) s.
Proof.
  revert s. induction l1 as [|x l1 IH]; intros s; [done|].
  cbn [app Py.for_each]. unfold Py.bind at 1. rewrite !py_bind_run.
  unfold Py.bind at 1.
  destruct (body x s) as [[[]|e] s']; [|done]. by rewrite IH, py_bind_run.
Qed.

(** A loop whose body keeps an invariant and returns keeps it and returns. *)
Lemma for_each_invariant {S A : Type} (I : S → Prop) (ok : A → Prop)
    (body : A → Py S unit) (l : list A) (s : S) :
  (∀ x s, ok x → I s → ∃ s', body x s = (Return tt, s') ∧ I s') →
  Forall ok l → I s →
  ∃ s', Py.for_each l body s = (Return tt, s') ∧ I s'.
Proof.
  intros Hbody Hl. revert s. induction Hl as [|x l Hx Hl IH]; intros s Hs.
  - by exists s.
  - destruct (Hbody x s Hx Hs) as (s1 & Hrun & Hs1).
    destruct (IH s1 Hs1) as (s2 & Hrest & Hs2).
    exists s2. split; [|done].
    cbn [Py.for_each]. unfold Py.bind. by rewrite Hrun.
Qed.

Lemma append_eq_self_inv (a b : string) : a = a +:+ b → b = EmptyString.
Proof.
  intros H. apply (f_equal PyStr.len) in H. rewrite append_length in H.
  destruct b; [done | simpl in H; lia].
Qed.

Section client_facts.
Import RobinAgent.

Context {S : Type}.
Variable MAX_AGENT_TURNS : Z.
Variable ROBIN_SYSTEM_PROMPT : string.
Variable query : string → Sdk.ClaudeCodeOptions → Sdk.Stream.
Variable suspended : S → S.
Variable callbacks : Callbacks (S := S).

(** What forwarding [text] to the text callback does to its owner. *)
Definition forwarded (text : string) (s : S) : PyResult unit * S :=
  match on_text callbacks with
  | Some cb => cb text s
  | None => (Return tt, s)
  end.

Lemma emit_chunk_run (stream : bool) (text : string) (f : Frame) :
  emit_chunk callbacks stream text f
  = let f1 := set_full_response (full_response f +:+ text) f in
    match forwarded text (owner f) with
    | (Return _, s') =>
        (Return tt,
         if stream then set_yielded (yielded f ++ [text]) (set_owner s' f1)
         else set_owner s' f1)
    | (Raise e, s') => (Raise e, set_owner s' f1)
    end.
Proof.
  unfold emit_chunk, call_on_text, forwarded, on_owner, Py.zoom, yield.
  rewrite !py_bind_run. simpl.
  destruct (on_text callbacks) as [cb|]; simpl.
  - rewrite py_bind_run. simpl. destruct (cb text (owner f)) as [[[]|e] s'];
      simpl; by destruct stream.
  - by destruct stream.
Qed.

Lemma capture_final_result_run (stream : bool) (result_text : string)
    (f : Frame) :
  result_text ≠ EmptyString →
  capture_final_result callbacks stream (Some result_text) f
  = if PyStr.contains result_text (full_response f) then (Return tt, f)
    else emit_chunk callbacks stream result_text f.
Proof.
  intros Hne.
  assert (PyStr.truthy result_text = true) as Htruthy
    by by destruct result_text.
  unfold capture_final_result. rewrite Htruthy. unfold Py.when at 1.
  rewrite py_bind_run. unfold Py.gets at 1. cbn beta iota.
  by destruct (PyStr.contains result_text (full_response f)).
Qed.


(** [async for message in query(...)] as a loop over the messages, followed
    by the wait that ends the stream. *)
Definition deliver (stream : bool) (message : Sdk.Message)
  : Py (Frame (S := S)) unit :=
  await_next suspended;; handle_message callbacks stream message.

Definition finish (failure : option PyException) : Py (Frame (S := S)) unit :=
  await_next suspended;;
  match failure with
  | Some e => Py.raise e
  | None => mret tt
  end.

Lemma consume_for_each (stream : bool) (messages : list Sdk.Message)
    (failure : option PyException) (f : Frame) :
  consume suspended callbacks stream messages failure f
  = (Py.for_each messages (deliver stream);; finish failure) f.
Proof.
  revert f. induction messages as [|message rest IH]; intros f; [done|].
  cbn [consume Py.for_each]. rewrite !py_bind_run. unfold Py.bind at 1.
  unfold deliver at 1. rewrite py_bind_run.
  destruct (await_next suspended f) as [[[]|e] f1]; [|done].
  rewrite py_bind_run.
  destruct (handle_message callbacks stream message f1) as [[[]|e] f2];
    [|done].
  by rewrite IH, py_bind_run.
Qed.

(** Statements of the generator that leave the record of queries alone. *)
Definition keeps_asked {A : Type} (m : Py (Frame (S := S)) A) : Prop :=
  ∀ f, asked (m f).2 = asked f.

Lemma keeps_asked_bind {A B : Type} (m : Py (Frame (S := S)) A) (k : A → Py (Frame (S := S)) B) :
  keeps_asked m → (∀ a, keeps_asked (k a)) → keeps_asked (m ≫= k).
Proof.
  intros Hm Hk f. rewrite py_bind_run. specialize (Hm f).
  destruct (m f) as [[a|e] f']; simpl in *; [|done].
  by rewrite Hk.
Qed.

Lemma keeps_asked_ret {A : Type} (a : A) : keeps_asked (mret a).
Proof. done. Qed.

Lemma keeps_asked_on_owner {A : Type} (m : Py S A) : keeps_asked (on_owner m).
Proof. intros f. unfold on_owner, Py.zoom. by destruct (m (owner f)). Qed.

Lemma keeps_asked_on_self {A : Type} (m : Py t A) : keeps_asked (on_self m).
Proof. intros f. unfold on_self, Py.zoom. by destruct (m (self f)). Qed.

Lemma keeps_asked_when (c : bool) (m : Py (Frame (S := S)) unit) :
  keeps_asked m → keeps_asked (Py.when c m).
Proof. by destruct c. Qed.

Lemma keeps_asked_for_each {A : Type} (l : list A) (body : A → Py (Frame (S := S)) unit) :
  (∀ x, keeps_asked (body x)) → keeps_asked (Py.for_each l body).
Proof.
  intros Hbody. induction l as [|x l IH]; [done|].
  apply (keeps_asked_bind (body x)); auto.
Qed.

Lemma keeps_asked_emit_chunk (stream : bool) (text : string) :
  keeps_asked (emit_chunk callbacks stream text).
Proof.
  unfold emit_chunk. apply keeps_asked_bind; [done|]. intros _.
  apply keeps_asked_bind.
  - unfold call_on_text. destruct (on_text callbacks);
      [apply keeps_asked_on_owner | done].
  - intros _. by apply keeps_asked_when.
Qed.

Lemma keeps_asked_handle_message (stream : bool) (message : Sdk.Message) :
  keeps_asked (handle_message callbacks stream message).
Proof.
  destruct message as [subtype data|content|subtype result d n|]; simpl.
  - destruct (decide _); [|done]. destruct data; [done|].
    apply keeps_asked_on_self.
  - apply keeps_asked_for_each. intros [text|tool_name tool_input|]; simpl.
    + apply keeps_asked_emit_chunk.
    + apply keeps_asked_bind; [apply keeps_asked_on_self|]. intros _.
      unfold call_on_tool_use. destruct (on_tool_use callbacks);
        [apply keeps_asked_on_owner | done].
    + done.
  - destruct (decide _); [done|]. apply keeps_asked_bind.
    + destruct result as [r|]; [|done]. apply keeps_asked_when.
      apply keeps_asked_bind; [done|]. intros full.
      apply keeps_asked_when, keeps_asked_emit_chunk.
    + intros _. unfold complete. apply keeps_asked_bind; [done|]. intros full.
      apply keeps_asked_bind; [done|]. intros agent.
      unfold call_on_complete. destruct (on_complete callbacks);
        [apply keeps_asked_on_owner | done].
  - done.
Qed.

Lemma keeps_asked_consume (stream : bool) (messages : list Sdk.Message)
    (failure : option PyException) :
  keeps_asked (consume suspended callbacks stream messages failure).
Proof.
  induction messages as [|message rest IH]; simpl.
  - apply keeps_asked_bind; [done|]. intros _. by destruct failure.
  - apply keeps_asked_bind; [done|]. intros _.
    apply keeps_asked_bind; [apply keeps_asked_handle_message | done].
Qed.

(** [investigate] up to the loop over the stream of the engine. *)
Lemma investigate_unfold (q : string) (stream : bool) (a : t) (s : S) :
  ∃ opts a1,
    _build_options MAX_AGENT_TURNS ROBIN_SYSTEM_PROMPT (set_tools_used [] a)
      = (Return opts, a1)
    ∧ investigate MAX_AGENT_TURNS ROBIN_SYSTEM_PROMPT query suspended
        callbacks q stream (enter a s)
      = (consume suspended callbacks stream (Sdk.messages (query q opts))
           (Sdk.failure (query q opts));;
         Py.when (negb stream) (full ← Py.gets full_response; yield full))
          (set_asked [(q, opts)]
             (set_self a1
                (set_full_response EmptyString
                   (set_self (set_tools_used [] a) (enter a s))))).
Proof.
  assert (∃ opts a1,
            _build_options MAX_AGENT_TURNS ROBIN_SYSTEM_PROMPT
              (set_tools_used [] a) = (Return opts, a1)) as (opts & a1 & Hopts).
  { unfold _build_options, _get_mcp_server. rewrite !py_bind_run. simpl.
    destruct (_mcp_server a); simpl; eauto. }
  exists opts, a1. split; [done|].
  unfold investigate.
  do 3 (rewrite py_bind_run; cbn -[consume _build_options]).
  unfold on_self, Py.zoom. cbn -[consume _build_options].
  rewrite Hopts.
  rewrite py_bind_run; cbn -[consume]. reflexivity.
Qed.

(** *** Invariants of the callbacks' owner *)

Section owner_invariant.

(** [I] holds of the owner whenever the generator runs; every callback
    started in [I] returns and re-establishes [I]; so does waiting. *)
Variable I : S → Prop.

Hypothesis on_text_keeps : ∀ cb text s,
  on_text callbacks = Some cb → I s →
  ∃ s', cb text s = (Return tt, s') ∧ I s'.
Hypothesis on_tool_use_keeps : ∀ cb tool_name tool_input s,
  on_tool_use callbacks = Some cb → I s →
  ∃ s', cb tool_name tool_input s = (Return tt, s') ∧ I s'.
Hypothesis on_complete_keeps : ∀ cb result s,
  on_complete callbacks = Some cb → I s →
  ∃ s', cb result s = (Return tt, s') ∧ I s'.
Hypothesis suspended_keeps : ∀ s, I s → I (suspended s).

Lemma emit_chunk_invariant (stream : bool) (text : string) (f : Frame) :
  I (owner f) →
  ∃ f', emit_chunk callbacks stream text f = (Return tt, f') ∧ I (owner f').
Proof.
  intros Hf. rewrite emit_chunk_run. unfold forwarded.
  destruct (on_text callbacks) as [cb|] eqn:Hcb.
  - destruct (on_text_keeps cb text (owner f) eq_refl Hf) as (s' & -> & Hs').
    eexists. split; [done|]. by destruct stream.
  - eexists. split; [done|]. by destruct stream.
Qed.

Lemma handle_block_invariant (stream : bool) (block : Sdk.Block) (f : Frame) :
  I (owner f) →
  ∃ f', handle_block callbacks stream block f = (Return tt, f') ∧ I (owner f').
Proof.
  intros Hf. destruct block as [text|tool_name tool_input|]; simpl.
  - by apply emit_chunk_invariant.
  - rewrite py_bind_run. cbn. unfold call_on_tool_use.
    destruct (on_tool_use callbacks) as [cb|] eqn:Hcb; [|by eexists].
    unfold on_owner, Py.zoom. cbn.
    destruct (on_tool_use_keeps cb tool_name tool_input (owner f) eq_refl Hf)
      as (s' & -> & Hs').
    by eexists.
  - by exists f.
Qed.

Lemma handle_message_invariant (stream : bool) (message : Sdk.Message)
    (f : Frame) :
  I (owner f) →
  ∃ f', handle_message callbacks stream message f = (Return tt, f')
        ∧ I (owner f').
Proof.
  intros Hf. destruct message as [subtype data|content|subtype result d n|];
    simpl.
  - destruct (decide _); [|by exists f]. destruct data; by eexists.
  - apply (for_each_invariant (λ f, I (owner f)) (λ _, True));
      [|by apply Forall_true|done].
    intros block f0 _. apply handle_block_invariant.
  - destruct (decide _); [by exists f|]. rewrite py_bind_run.
    assert (∃ f1, capture_final_result callbacks stream result f
                  = (Return tt, f1) ∧ I (owner f1)) as (f1 & -> & Hf1).
    { destruct result as [r|]; [|by exists f]. simpl.
      destruct (PyStr.truthy r); [|by exists f]. simpl.
      rewrite py_bind_run. cbn.
      destruct (negb _); [|by exists f]. by apply emit_chunk_invariant. }
    unfold complete. do 2 (rewrite py_bind_run; cbn).
    unfold call_on_complete.
    destruct (on_complete callbacks) as [cb|] eqn:Hcb; [|by eexists].
    unfold on_owner, Py.zoom.
    edestruct (on_complete_keeps cb) as (s' & -> & Hs'); [done|exact Hf1|].
    by eexists.
  - by exists f.
Qed.

Lemma consume_invariant (stream : bool) (messages : list Sdk.Message)
    (failure : option PyException) (f : Frame) :
  I (owner f) →
  ∃ f' s0,
    consume suspended callbacks stream messages failure f
    = (match failure with Some e => Raise e | None => Return tt end, f')
    ∧ owner f' = suspended s0 ∧ I (owner f').
Proof.
  intros Hf. rewrite consume_for_each, py_bind_run.
  destruct (for_each_invariant (λ f, I (owner f)) (λ _, True)
              (deliver stream) messages f) as (f1 & -> & Hf1);
    [|by apply Forall_true|done|].
  { intros message f0 _ Hf0. unfold deliver. rewrite py_bind_run. cbn.
    apply handle_message_invariant. cbn. by apply suspended_keeps. }
  unfold finish. rewrite py_bind_run. cbn.
  eexists _, (owner f1). split; [by destruct failure|].
  split; [done|]. cbn. by apply suspended_keeps.
Qed.

(** One run of [investigate] from a state of the owner in [I]. *)
Lemma investigate_invariant (q : string) (stream : bool) (a : t) (s : S) :
  I s →
  ∃ f' s0 opts a1,
    _build_options MAX_AGENT_TURNS ROBIN_SYSTEM_PROMPT (set_tools_used [] a)
      = (Return opts, a1)
    ∧ investigate MAX_AGENT_TURNS ROBIN_SYSTEM_PROMPT query suspended
        callbacks q stream (enter a s)
      = (match Sdk.failure (query q opts) with
         | Some e => Raise e
         | None => Return tt
         end, f')
    ∧ owner f' = suspended s0 ∧ I (owner f')
    ∧ asked f' = [(q, opts)].
Proof.
  intros Hs.
  destruct (investigate_unfold q stream a s) as (opts & a1 & Hopts & ->).
  rewrite py_bind_run.
  match goal with
  | |- context [consume _ _ _ _ _ ?f0] =>
      destruct (consume_invariant stream (Sdk.messages (query q opts))
                  (Sdk.failure (query q opts)) f0 Hs)
        as (f1 & s0 & Hrun & Hown & Hf1);
      pose proof (keeps_asked_consume stream (Sdk.messages (query q opts))
                    (Sdk.failure (query q opts)) f0) as Hasked
  end.
  rewrite Hrun in Hasked |- *. cbn in Hasked.
  destruct (Sdk.failure (query q opts)) as [e|] eqn:Hfail.
  - exists f1, s0, opts, a1. rewrite Hfail. by split_and!.
  - destruct stream; cbn.
    + exists f1, s0, opts, a1. rewrite Hfail. by split_and!.
    + rewrite py_bind_run. cbn. eexists _, s0, opts, a1. rewrite Hfail.
      by split_and!.
Qed.

End owner_invariant.

(** The options a freshly reset agent builds. *)
Lemma build_options_after_reset (a : t) :
  ∃ opts a',
    _build_options MAX_AGENT_TURNS ROBIN_SYSTEM_PROMPT (reset_session a)
      = (Return opts, a')
    ∧ Sdk.resume opts = None
    ∧ session_id a' = None ∧ _tools_used a' = [].
Proof.
  unfold _build_options, _get_mcp_server. rewrite !py_bind_run. simpl.
  destruct (_mcp_server a); simpl; eauto 10.
Qed.

(** [C8] After [reset_session()] the continuation token is [None] and the
    tool-use log is empty; the options built next carry no resume token;
    whatever token and log the agent held, and whatever text an earlier run
    accumulated, the next [investigate] runs the same: it puts exactly one
    query to the engine, without resume token. *)
Theorem reset_session_starts_fresh (a : t) :
  let fresh := reset_session a in
  session_id fresh = None
  ∧ _tools_used fresh = []
  ∧ (∃ opts a',
       _build_options MAX_AGENT_TURNS ROBIN_SYSTEM_PROMPT fresh
         = (Return opts, a')
       ∧ Sdk.resume opts = None)
  ∧ (∀ sid tools,
       reset_session (set_session_id sid (set_tools_used tools a)) = fresh)
  ∧ (∀ q stream s prior,
       investigate MAX_AGENT_TURNS ROBIN_SYSTEM_PROMPT query suspended
         callbacks q stream (set_full_response prior (enter fresh s))
       = investigate MAX_AGENT_TURNS ROBIN_SYSTEM_PROMPT query suspended
           callbacks q stream (enter fresh s))
  ∧ (∀ q stream s,
       ∃ opts,
         Sdk.resume opts = None
         ∧ asked (investigate MAX_AGENT_TURNS ROBIN_SYSTEM_PROMPT query
                    suspended callbacks q stream (enter fresh s)).2
           = [(q, opts)]).
Proof.
  intros fresh. split_and!; try done.
  - destruct (build_options_after_reset a) as (opts & a' & ? & ? & _); eauto.
  - intros q stream s.
    destruct (build_options_after_reset a) as (opts & a' & Hopts & Hres & _).
    exists opts. split; [done|].
    unfold investigate.
    do 3 (rewrite py_bind_run; cbn -[consume _build_options]).
    unfold on_self, Py.zoom. cbn -[consume _build_options].
    replace (set_tools_used [] fresh) with (reset_session a) by done.
    rewrite Hopts.
    do 2 (rewrite py_bind_run; cbn -[consume]).
    pose proof (keeps_asked_consume stream
                  (Sdk.messages (query q opts)) (Sdk.failure (query q opts)))
      as Hkeep.
    match goal with
    | |- context [consume _ _ _ _ _ ?f0] =>
        specialize (Hkeep f0); destruct (consume _ _ _ _ _ f0) as [[[]|e] f1]
    end; simpl in *; [|done].
    by destruct stream.
Qed.

End client_facts.

(** A text callback that records what it is given. *)
Definition record_text (text : string) : Py (list string) unit :=
  Py.modify (λ seen, seen ++ [text]).

Definition recording : RobinAgent.Callbacks :=
  {| RobinAgent.on_text := Some record_text;
     RobinAgent.on_tool_use := None;
     RobinAgent.on_complete := None |}.


(** Final result text that was not streamed before is appended, handed to
    the text callback and yielded. *)
Lemma final_result_appended_example :
  let agent := {| RobinAgent.model := "m"; RobinAgent.session_id := None;
                  RobinAgent._tools_used := [];
                  RobinAgent._mcp_server := None |} in
  let f := RobinAgent.set_full_response "Found three leak sites."
             (RobinAgent.enter agent ["Found three leak sites."]) in
  let out :=
    RobinAgent.capture_final_result recording true (Some " Report saved.") f in
  out.1 = Return tt
  ∧ RobinAgent.full_response out.2 = "Found three leak sites. Report saved."
  ∧ RobinAgent.owner out.2 = ["Found three leak sites."; " Report saved."]
  ∧ RobinAgent.yielded out.2 = [" Report saved."].
Proof. vm_compute. by split_and!. Qed.

(** ** Facts about [AgentService] *)

Section service_facts.
Import Events AgentService.

Variable default_model : string.
Variable DEFAULT_MODEL : string.
Variable clock : nat → Q.
Variable new_tool_id : nat → string.

Notation run_coroutine := (AgentService.run_coroutine new_tool_id).
Notation run_ready := (AgentService.run_ready new_tool_id).
Notation _on_text := (AgentService._on_text).
Notation _on_tool_use := (AgentService._on_tool_use clock).
Notation _on_complete := (AgentService._on_complete clock).

(** The events of a session so far. *)
Definition events_of (w : World) : list SSEEventData :=
  SSEStreamManager.events (stream w).

(** The fan-out announcements [emit_start] gets to make: one per leading
    [str] of the requested kinds. *)
Fixpoint announced (agent_types : list pyval) : list SSEEventData :=
  match agent_types with
  | PStr s :: rest => SubAgentStartEventData s :: announced rest
  | _ => []
  end.

(** The events one run of [emit_start] appends, given the id it draws. *)
Definition start_events (tool_id name : string) (input_data : PyDict.t pyval)
  : list SSEEventData :=
  ToolStartEventData tool_id name input_data
    :: (if bool_decide (name = "mcp__robin__delegate_analysis") then
          match py_iter (default (PList []) (PyDict.get input_data "agent_types")) with
          | Some agent_types => announced agent_types
          | None => []
          end
        else []).

(** The events a task appends when it runs with [n] ids already issued. *)
Definition coroutine_events (n : nat) (c : Coroutine) : list SSEEventData :=
  match c with
  | emit_text_coro text => [TextEventData text]
  | emit_tool_end_coro tool_id tool duration =>
      [ToolEndEventData tool_id tool duration None]
  | emit_start_coro name input_data =>
      start_events (new_tool_id n) name input_data
  | emit_complete_coro text session_id duration_ms num_turns =>
      [CompleteEventData text session_id duration_ms num_turns]
  end.

Definition is_start (c : Coroutine) : bool :=
  match c with emit_start_coro _ _ => true | _ => false end.

(** The world after a task has run. *)
Definition after_coroutine (c : Coroutine) (w : World) : World :=
  let n := SSEStreamManager.issued (stream w) in
  {| service :=
       if is_start c then set_current_tool_id (Some (new_tool_id n)) (service w)
       else service w;
     stream :=
       {| SSEStreamManager.events := events_of w ++ coroutine_events n c;
          SSEStreamManager.issued := if is_start c then S n else n |};
     ready := ready w;
     ticks := ticks w |}.

Lemma announce_run (agent_types : list pyval) (w : World) :
  (Py.for_each agent_types
     (λ agent_type,
        on_stream (SSEStreamManager.emit_subagent_start agent_type)) w).2
  = set_stream
      {| SSEStreamManager.events := events_of w ++ announced agent_types;
         SSEStreamManager.issued := SSEStreamManager.issued (stream w) |} w.
Proof.
  revert w. induction agent_types as [|v rest IH]; intros w.
  - simpl. rewrite app_nil_r. by destruct w as [? [] ? ?].
  - cbn [Py.for_each]. unfold Py.bind at 1.
    destruct v; try (simpl; rewrite app_nil_r; by destruct w as [? [] ? ?]).
    cbn -[Py.for_each]. rewrite IH. unfold events_of. simpl.
    by rewrite <-app_assoc.
Qed.

Lemma run_coroutine_after (c : Coroutine) (w : World) :
  (run_coroutine c w).2 = after_coroutine c w.
Proof.
  destruct c as [text|tool_id tool duration|name input_data|text sid d n];
    try (destruct w as [? [] ? ?]; reflexivity).
  unfold AgentService.run_coroutine, emit_start, after_coroutine, start_events.
  rewrite py_bind_run.
  change (on_stream (SSEStreamManager.emit_tool_start new_tool_id name input_data) w)
    with (Return (new_tool_id (SSEStreamManager.issued (stream w))),
          set_stream
            {| SSEStreamManager.events :=
                 events_of w
                   ++ [ToolStartEventData
                         (new_tool_id (SSEStreamManager.issued (stream w)))
                         name input_data];
               SSEStreamManager.issued :=
                 S (SSEStreamManager.issued (stream w)) |} w).
  cbn beta iota. rewrite py_bind_run. cbn -[Py.for_each py_iter bool_decide].
  unfold start_events, events_of.
  destruct (bool_decide (name = "mcp__robin__delegate_analysis")).
  - cbn -[Py.for_each py_iter].
    destruct (py_iter _) as [agent_types|]; [|done].
    rewrite announce_run. unfold events_of. cbn.
    by rewrite <-app_assoc.
  - done.
Qed.

Lemma run_ready_foldl (w : World) :
  run_ready w = foldl (λ w c, after_coroutine c w) (set_ready [] w) (ready w).
Proof.
  unfold AgentService.run_ready. generalize (set_ready [] w).
  induction (ready w) as [|c l IH]; intros w0; [done|].
  simpl. by rewrite run_coroutine_after, IH.
Qed.

(** *** The callbacks in closed form *)

(** Lines 62-69 and 91-98: the previous tool is ended. *)
Definition end_previous (tool_id tool : string) (w : World) : World :=
  set_ready
    (ready w
       ++ [emit_tool_end_coro tool_id tool
             (duration_ms (clock (ticks w)) (_tool_start_time (service w)))])
    (set_ticks (S (ticks w)) w).

(** Lines 72-83: the new tool is started. *)
Definition begin_tool (tool_name : string) (input_data : PyDict.t pyval)
    (w : World) : World :=
  set_ready (ready w ++ [emit_start_coro tool_name input_data])
    (set_service
       (set_tools_used
          (_tools_used (service w) ++ [ {| name := tool_name; input := input_data |} ])
          (set_tool_start_time (clock (ticks w)) (service w)))
       (set_ticks (S (ticks w)) w)).

(** Lines 100-107. *)
Definition announce_complete (result : InvestigationResult.t) (w : World)
  : World :=
  set_ready
    (ready w
       ++ [emit_complete_coro (InvestigationResult.text result)
             (InvestigationResult.session_id result)
             (InvestigationResult.duration_ms result)
             (InvestigationResult.num_turns result)]) w.

Lemma on_text_run (text : string) (w : World) :
  _on_text text w
  = (Return tt,
     set_ready (ready w ++ [emit_text_coro text])
       (set_service
          (set_full_response (_full_response (service w) +:+ text) (service w))
          w)).
Proof. reflexivity. Qed.

Lemma on_tool_use_run (tool_name : string) (input_data : PyDict.t pyval)
    (w : World) :
  _on_tool_use tool_name input_data w
  = match _current_tool_id (service w) with
    | Some tool_id =>
        if PyStr.truthy tool_id then
          match last (_tools_used (service w)) with
          | Some u =>
              (Return tt,
               begin_tool tool_name input_data
                 (end_previous tool_id (name u) w))
          | None =>
              (Raise {| exc_str := "list index out of range" |},
               set_ticks (S (ticks w)) w)
          end
        else (Return tt, begin_tool tool_name input_data w)
    | None => (Return tt, begin_tool tool_name input_data w)
    end.
Proof.
  unfold AgentService._on_tool_use, last_tool_name, time_time, create_task,
    on_service.
  py_unfold. cbn.
  destruct (_current_tool_id (service w)) as [tool_id|]; [|reflexivity].
  destruct (PyStr.truthy tool_id); [|reflexivity].
  destruct (last (_tools_used (service w))) as [u|]; reflexivity.
Qed.

Lemma on_complete_run (result : InvestigationResult.t) (w : World) :
  _on_complete result w
  = let w1 := set_service (set_result (Some result) (service w)) w in
    (Return tt,
     announce_complete result
       match _current_tool_id (service w) with
       | Some tool_id =>
           if PyStr.truthy tool_id then
             end_previous tool_id
               match last (_tools_used (service w)) with
               | Some u => name u
               | None => "unknown"
               end w1
           else w1
       | None => w1
       end).
Proof.
  unfold AgentService._on_complete, time_time, create_task, on_service.
  py_unfold. cbn.
  destruct (_current_tool_id (service w)) as [tool_id|]; [|reflexivity].
  destruct (PyStr.truthy tool_id); reflexivity.
Qed.

(** *** What holds of the world throughout a run *)

Definition has_start (l : list Coroutine) : Prop :=
  ∃ c, c ∈ l ∧ is_start c = true.

Definition no_error (evs : list SSEEventData) : Prop :=
  Forall (λ ev, is_error ev = false) evs.

(** An open tool, or a tool about to be opened, has its entry in the log of
    the service; and no task emits an Error event. *)
Definition Good (w : World) : Prop :=
  ((RobinAgent.truthy_opt (_current_tool_id (service w)) = true
    ∨ has_start (ready w)) → _tools_used (service w) ≠ [])
  ∧ no_error (events_of w).

Lemma no_error_filter (evs : list SSEEventData) :
  no_error evs → filter (λ ev, is_error ev = true) evs = [].
Proof.
  induction 1 as [|ev evs Hev _ IH]; [done|].
  rewrite filter_cons, decide_False, IH; [done|]. by rewrite Hev.
Qed.

Lemma announced_no_error (agent_types : list pyval) :
  no_error (announced agent_types).
Proof.
  induction agent_types as [|v rest IH]; [constructor|].
  destruct v; try constructor; done.
Qed.

Lemma coroutine_events_no_error (n : nat) (c : Coroutine) :
  no_error (coroutine_events n c).
Proof.
  destruct c as [text|tool_id tool duration|tool_name input_data|text sid d k].
  1, 2, 4: by repeat constructor.
  unfold coroutine_events, start_events. constructor; [done|].
  destruct (bool_decide _); [|constructor].
  destruct (py_iter _); [apply announced_no_error | constructor].
Qed.

Lemma has_start_cons (c : Coroutine) (l : list Coroutine) :
  has_start (c :: l) ↔ is_start c = true ∨ has_start l.
Proof.
  unfold has_start. split.
  - intros (c' & [->|Hin]%elem_of_cons & Hc'); eauto.
  - intros [Hc|(c' & Hin & Hc')].
    + exists c. split; [apply list_elem_of_here | done].
    + exists c'. split; [by apply list_elem_of_further | done].
Qed.

Lemma has_start_app (l1 l2 : list Coroutine) :
  has_start (l1 ++ l2) ↔ has_start l1 ∨ has_start l2.
Proof.
  unfold has_start. split.
  - intros (c & [Hin|Hin]%elem_of_app & Hc); eauto.
  - intros [(c & Hin & Hc)|(c & Hin & Hc)]; exists c;
      (split; [apply elem_of_app; auto | done]).
Qed.

Lemma has_start_nil : ¬ has_start [].
Proof. by intros (c & Hin%elem_of_nil & _). Qed.

Lemma run_tasks_good (l : list Coroutine) (w : World) :
  ((RobinAgent.truthy_opt (_current_tool_id (service w)) = true ∨ has_start l)
   → _tools_used (service w) ≠ []) →
  no_error (events_of w) →
  let w' := foldl (λ w c, after_coroutine c w) w l in
  (RobinAgent.truthy_opt (_current_tool_id (service w')) = true
   → _tools_used (service w') ≠ [])
  ∧ no_error (events_of w')
  ∧ ready w' = ready w.
Proof.
  revert w. induction l as [|c l IH]; intros w Htools Hevents; simpl.
  - split_and!; [|done..]. intros Hcur. apply Htools. by left.
  - destruct (IH (after_coroutine c w)) as (Hcur' & Hev' & Hready').
    + unfold after_coroutine. cbn.
      intros [Hcur|Hl].
      * destruct (is_start c) eqn:Hc; cbn in *.
        -- apply Htools. right. apply has_start_cons. by left.
        -- apply Htools. by left.
      * assert (_tools_used (service w) ≠ []) as Hne.
        { apply Htools. right. apply has_start_cons. by right. }
        by destruct (is_start c).
    + unfold after_coroutine, events_of. cbn.
      apply Forall_app. split; [done | apply coroutine_events_no_error].
    + by split_and!.
Qed.

Lemma run_ready_good (w : World) :
  Good w → Good (run_ready w).
Proof.
  intros [Htools Hevents]. rewrite run_ready_foldl.
  destruct (run_tasks_good (ready w) (set_ready [] w)) as (Hcur & Hev & Hready);
    [done..|].
  split; [|done]. intros [Hc|Hs]; [by apply Hcur|].
  rewrite Hready in Hs. by apply has_start_nil in Hs.
Qed.

Lemma run_ready_idle (w : World) : ready (run_ready w) = [].
Proof.
  rewrite run_ready_foldl.
  assert (∀ l w0, ready (foldl (λ w c, after_coroutine c w) w0 l) = ready w0)
    as Hfold.
  { induction l as [|c l IH]; intros w0; [done|]. simpl. by rewrite IH. }
  by rewrite Hfold.
Qed.

Lemma on_text_good (text : string) (w : World) :
  Good w → ∃ w', _on_text text w = (Return tt, w') ∧ Good w'.
Proof.
  intros [Htools Hevents]. rewrite on_text_run. eexists. split; [done|].
  split; [|done]. cbn. intros [Hcur|Hs]; apply Htools; [by left|].
  apply has_start_app in Hs as [Hs|Hs]; [by right|].
  apply has_start_cons in Hs as [?|Hs]; [done | by apply has_start_nil in Hs].
Qed.

Lemma begin_tool_good (tool_name : string) (input_data : PyDict.t pyval)
    (w : World) :
  no_error (events_of w) → Good (begin_tool tool_name input_data w).
Proof.
  intros Hevents. split; [|done]. intros _. cbn. by intros []%app_eq_nil.
Qed.

Lemma on_tool_use_good (tool_name : string) (input_data : PyDict.t pyval)
    (w : World) :
  Good w →
  ∃ w', _on_tool_use tool_name input_data w = (Return tt, w') ∧ Good w'.
Proof.
  intros [Htools Hevents]. rewrite on_tool_use_run.
  destruct (_current_tool_id (service w)) as [tool_id|] eqn:Hcur;
    [|eexists; split; [done | by apply begin_tool_good]].
  destruct (PyStr.truthy tool_id) eqn:Htruthy;
    [|eexists; split; [done | by apply begin_tool_good]].
  destruct (last (_tools_used (service w))) as [u|] eqn:Hlast.
  - eexists. split; [done|]. by apply begin_tool_good.
  - apply last_None in Hlast. destruct Htools; [|done]. by left.
Qed.

Lemma on_complete_good (result : InvestigationResult.t) (w : World) :
  Good w → ∃ w', _on_complete result w = (Return tt, w') ∧ Good w'.
Proof.
  intros [Htools Hevents]. rewrite on_complete_run. eexists. split; [done|].
  cbn. split.
  - intros Hor.
    assert (RobinAgent.truthy_opt (_current_tool_id (service w)) = true
            ∨ has_start (ready w)) as Hw.
    { destruct (_current_tool_id (service w)) as [tool_id|] eqn:Hcur;
        [destruct (PyStr.truthy tool_id) eqn:Htruthy|]; cbn in Hor;
        rewrite ?Hcur in Hor; cbn in Hor;
        (destruct Hor as [Hc|Hs]; [by left|]);
        repeat (apply has_start_app in Hs as [Hs|Hs];
                [|apply has_start_cons in Hs as [?|Hs];
                  [done | by apply has_start_nil in Hs]]);
        by right. }
    specialize (Htools Hw).
    destruct (_current_tool_id (service w)) as [tool_id|];
      [destruct (PyStr.truthy tool_id)|]; done.
  - destruct (_current_tool_id (service w)) as [tool_id|];
      [destruct (PyStr.truthy tool_id)|]; done.
Qed.

(** *** The tool lifecycle read off the events *)

(** Reading the events in order with the invocation that is open, if any:
    a ToolStart needs no invocation open and opens its own; a ToolEnd needs
    the open invocation to be the one it names, with its tool, and a
    duration that is not negative, and closes it; the other events pass.
    [None] when some event breaks the rule. *)
Fixpoint pairing (open : option (string * string)) (evs : list SSEEventData)
  : option (option (string * string)) :=
  match evs with
  | [] => Some open
  | ToolStartEventData tool_id tool _ :: rest =>
      match open with
      | None => pairing (Some (tool_id, tool)) rest
      | Some _ => None
      end
  | ToolEndEventData tool_id tool duration _ :: rest =>
      match open with
      | Some (open_id, open_tool) =>
          if decide (tool_id = open_id ∧ tool = open_tool ∧ (0 ≤ duration)%Z)
          then pairing None rest
          else None
      | None => None
      end
  | _ :: rest => pairing open rest
  end.

Definition is_tool_event (ev : SSEEventData) : bool :=
  is_tool_start ev || is_tool_end ev.

Lemma pairing_app (open : option (string * string))
    (evs1 evs2 : list SSEEventData) :
  pairing open (evs1 ++ evs2)
  = pairing open evs1 ≫= λ open', pairing open' evs2.
Proof.
  revert open. induction evs1 as [|ev evs1 IH]; intros open; [done|].
  destruct ev; cbn; try apply IH.
  - destruct open; [done | apply IH].
  - destruct open as [[open_id open_tool]|]; [|done].
    destruct (decide _); [apply IH | done].
Qed.

Lemma pairing_pass (open : option (string * string))
    (evs : list SSEEventData) :
  Forall (λ ev, is_tool_event ev = false) evs → pairing open evs = Some open.
Proof.
  induction 1 as [|ev evs Hev _ IH]; [done|]. by destruct ev.
Qed.

(** A lifecycle with nothing left open has as many ends as starts. *)
Definition open_count (open : option (string * string)) : nat :=
  match open with Some _ => 1 | None => 0 end.

Lemma pairing_counts (evs : list SSEEventData)
    (open open' : option (string * string)) :
  pairing open evs = Some open' →
  length (filter (λ ev, is_tool_start ev = true) evs) + open_count open
  = length (filter (λ ev, is_tool_end ev = true) evs) + open_count open'.
Proof.
  revert open. induction evs as [|ev evs IH]; intros open Hp.
  - cbn in Hp. by injection Hp as ->.
  - destruct ev; cbn in Hp.
    3: { destruct open as [[open_id open_tool]|]; [|done].
         destruct (decide _); [|done]. apply IH in Hp.
         rewrite filter_cons_False, filter_cons_True by done. cbn in *. lia. }
    2: { destruct open; [done|]. apply IH in Hp.
         rewrite filter_cons_True, filter_cons_False by done. cbn in *. lia. }
    all: apply IH in Hp; by rewrite !filter_cons_False by done.
Qed.

(** *** The ready queue in closed form *)

Fixpoint tasks_issued (n : nat) (l : list Coroutine) : nat :=
  match l with
  | [] => n
  | c :: l' => tasks_issued (if is_start c then S n else n) l'
  end.

(** The events the ready tasks append, [n] ids having been issued. *)
Fixpoint tasks_events (n : nat) (l : list Coroutine) : list SSEEventData :=
  match l with
  | [] => []
  | c :: l' =>
      coroutine_events n c ++ tasks_events (if is_start c then S n else n) l'
  end.

(** The open tool the service records once the ready tasks have run. *)
Fixpoint tasks_current (n : nat) (current : option string)
    (l : list Coroutine) : option string :=
  match l with
  | [] => current
  | c :: l' =>
      tasks_current (if is_start c then S n else n)
        (if is_start c then Some (new_tool_id n) else current) l'
  end.

Lemma tasks_issued_app (n : nat) (l1 l2 : list Coroutine) :
  tasks_issued n (l1 ++ l2) = tasks_issued (tasks_issued n l1) l2.
Proof. revert n. induction l1 as [|c l1 IH]; intros n; [done|]. apply IH. Qed.

Lemma tasks_events_app (n : nat) (l1 l2 : list Coroutine) :
  tasks_events n (l1 ++ l2)
  = tasks_events n l1 ++ tasks_events (tasks_issued n l1) l2.
Proof.
  revert n. induction l1 as [|c l1 IH]; intros n; [done|].
  cbn. by rewrite IH, app_assoc.
Qed.

Lemma tasks_current_app (n : nat) (current : option string)
    (l1 l2 : list Coroutine) :
  tasks_current n current (l1 ++ l2)
  = tasks_current (tasks_issued n l1) (tasks_current n current l1) l2.
Proof.
  revert n current. induction l1 as [|c l1 IH]; intros n current; [done|].
  apply IH.
Qed.

Lemma tasks_without_start (n : nat) (current : option string)
    (l : list Coroutine) :
  ¬ has_start l →
  tasks_issued n l = n ∧ tasks_current n current l = current.
Proof.
  induction l as [|c l IH]; intros Hno; [done|].
  rewrite has_start_cons in Hno. cbn.
  destruct (is_start c); [by destruct Hno; left|]. apply IH. tauto.
Qed.

Lemma run_tasks_closed (l : list Coroutine) (w : World) :
  let w' := foldl (λ w c, after_coroutine c w) w l in
  let n := SSEStreamManager.issued (stream w) in
  events_of w' = events_of w ++ tasks_events n l
  ∧ SSEStreamManager.issued (stream w') = tasks_issued n l
  ∧ _current_tool_id (service w')
    = tasks_current n (_current_tool_id (service w)) l
  ∧ _tools_used (service w') = _tools_used (service w)
  ∧ _tool_start_time (service w') = _tool_start_time (service w)
  ∧ ticks w' = ticks w
  ∧ ready w' = ready w.
Proof.
  revert w. induction l as [|c l IH]; intros w; cbn.
  - by rewrite app_nil_r.
  - destruct (IH (after_coroutine c w)) as (-> & -> & -> & -> & -> & -> & ->).
    unfold after_coroutine, events_of. cbn. rewrite <-app_assoc.
    by destruct (is_start c).
Qed.

Lemma run_ready_closed (w : World) :
  let n := SSEStreamManager.issued (stream w) in
  events_of (run_ready w) = events_of w ++ tasks_events n (ready w)
  ∧ SSEStreamManager.issued (stream (run_ready w)) = tasks_issued n (ready w)
  ∧ _current_tool_id (service (run_ready w))
    = tasks_current n (_current_tool_id (service w)) (ready w)
  ∧ _tools_used (service (run_ready w)) = _tools_used (service w)
  ∧ _tool_start_time (service (run_ready w)) = _tool_start_time (service w)
  ∧ ticks (run_ready w) = ticks w
  ∧ ready (run_ready w) = [].
Proof.
  rewrite run_ready_foldl.
  apply (run_tasks_closed (ready w) (set_ready [] w)).
Qed.

(** *** Durations *)

Lemma py_int_nonneg (x : Q) : Qle (inject_Z 0) x → (0 ≤ py_int x)%Z.
Proof.
  unfold Qle, py_int. cbn. intros Hx.
  apply Z.quot_pos; lia.
Qed.

Lemma duration_ms_nonneg (now start : Q) :
  Qle start now → (0 ≤ duration_ms now start)%Z.
Proof.
  intros Hle. unfold duration_ms. apply py_int_nonneg.
  unfold Qle in *. cbn. nia.
Qed.

(** *** The lifecycle invariant *)

Section lifecycle.

(** The clock does not run backwards, and the ids the stream manager
    generates are not empty. *)
Hypothesis clock_monotone : ∀ i j, i ≤ j → Qle (clock i) (clock j).
Hypothesis ids_truthy : ∀ n, PyStr.truthy (new_tool_id n) = true.

(** The events of the session once the ready tasks have run, and the open
    tool the service records then. *)
Definition all_events (w : World) : list SSEEventData :=
  events_of w ++ tasks_events (SSEStreamManager.issued (stream w)) (ready w).

Definition pending_current (w : World) : option string :=
  tasks_current (SSEStreamManager.issued (stream w))
    (_current_tool_id (service w)) (ready w).

(** The open invocation [open] of the lifecycle is the one the service
    records: its id, the name at the end of the tool log, a start time read
    off the clock. *)
Definition open_matches (w : World) (open : option (string * string)) : Prop :=
  match open with
  | None => pending_current w = None
  | Some (tool_id, tool) =>
      pending_current w = Some tool_id
      ∧ PyStr.truthy tool_id = true
      ∧ name <$> last (_tools_used (service w)) = Some tool
      ∧ ∃ k, k < ticks w ∧ _tool_start_time (service w) = clock k
  end.

Definition starts (evs : list SSEEventData) : nat :=
  length (filter (λ ev, is_tool_start ev = true) evs).

(** [seen] tells whether a tool use has been signalled since the loop last
    ran the ready tasks. *)
Definition Life (seen : bool) (w : World) : Prop :=
  (∃ open, pairing None (all_events w) = Some open ∧ open_matches w open)
  ∧ (seen = false → ¬ has_start (ready w))
  ∧ starts (all_events w) = length (_tools_used (service w)).

(** After the completion signal: every invocation is closed. *)
Definition Closed (w : World) : Prop :=
  pairing None (all_events w) = Some None
  ∧ starts (all_events w) = length (_tools_used (service w)).

Lemma starts_app (evs1 evs2 : list SSEEventData) :
  starts (evs1 ++ evs2) = starts evs1 + starts evs2.
Proof. unfold starts. by rewrite filter_app, length_app. Qed.

Lemma announced_pass (agent_types : list pyval) :
  Forall (λ ev, is_tool_event ev = false) (announced agent_types).
Proof.
  induction agent_types as [|v rest IH]; [constructor|].
  destruct v; try constructor; done.
Qed.

Lemma start_events_pairing (tool_id tool_name : string)
    (input_data : PyDict.t pyval) :
  pairing None (start_events tool_id tool_name input_data)
  = Some (Some (tool_id, tool_name))
  ∧ starts (start_events tool_id tool_name input_data) = 1.
Proof.
  unfold start_events. cbn [pairing]. split.
  - apply pairing_pass. destruct (bool_decide _); [|constructor].
    destruct (py_iter _); [apply announced_pass | constructor].
  - unfold starts. rewrite filter_cons_True by done. cbn. f_equal.
    apply length_zero_iff_nil.
    assert (∀ evs, Forall (λ ev, is_tool_event ev = false) evs →
                   filter (λ ev, is_tool_start ev = true) evs = []) as Hnone.
    { induction 1 as [|ev evs Hev _ IH]; [done|].
      rewrite filter_cons_False; [done|]. by destruct ev. }
    apply Hnone. destruct (bool_decide _); [|constructor].
    destruct (py_iter _); [apply announced_pass | constructor].
Qed.

(** What a callback does to the events to come, when it queues [cs] and no
    start was waiting. *)
Lemma all_events_push (w w' : World) (cs : list Coroutine) :
  stream w' = stream w → ready w' = ready w ++ cs →
  all_events w'
  = all_events w
      ++ tasks_events (tasks_issued (SSEStreamManager.issued (stream w)) (ready w)) cs.
Proof.
  intros Hstream Hready. unfold all_events, events_of.
  by rewrite Hstream, Hready, tasks_events_app, app_assoc.
Qed.

Lemma pending_current_push (w w' : World) (cs : list Coroutine) :
  stream w' = stream w → ready w' = ready w ++ cs →
  _current_tool_id (service w') = _current_tool_id (service w) →
  pending_current w'
  = tasks_current (tasks_issued (SSEStreamManager.issued (stream w)) (ready w))
      (pending_current w) cs.
Proof.
  intros Hstream Hready Hcur. unfold pending_current.
  by rewrite Hstream, Hready, Hcur, tasks_current_app.
Qed.

Lemma on_text_life (seen : bool) (text : string) (w : World) :
  Life seen w → ∃ w', _on_text text w = (Return tt, w') ∧ Life seen w'.
Proof.
  intros ((open & Hpair & Hopen) & Hseen & Hstarts).
  rewrite on_text_run. eexists. split; [done|].
  match goal with |- Life _ ?w1 => set (w' := w1) end.
  assert (all_events w' = all_events w ++ [TextEventData text]) as Hall
    by by apply (all_events_push w w' [emit_text_coro text]).
  assert (pending_current w' = pending_current w) as Hcur
    by by apply (pending_current_push w w' [emit_text_coro text]).
  split_and!.
  - exists open. split.
    + by rewrite Hall, pairing_app, Hpair.
    + destruct open as [[tool_id tool]|]; cbn in *; by rewrite Hcur.
  - intros Hs. specialize (Hseen Hs). cbn. rewrite has_start_app.
    intros [?|[?|?%has_start_nil]%has_start_cons]; done.
  - by rewrite Hall, starts_app, Hstarts, Nat.add_0_r.
Qed.

Lemma begin_tool_life (tool_name : string) (input_data : PyDict.t pyval)
    (w : World) :
  ¬ has_start (ready w) →
  pairing None (all_events w) = Some None →
  starts (all_events w) = length (_tools_used (service w)) →
  Life true (begin_tool tool_name input_data w).
Proof.
  intros Hno Hpair Hstarts.
  set (w' := begin_tool tool_name input_data w).
  set (n := SSEStreamManager.issued (stream w)).
  destruct (tasks_without_start n (_current_tool_id (service w)) (ready w) Hno)
    as [Hissued Hcurrent].
  assert (all_events w'
          = all_events w ++ start_events (new_tool_id n) tool_name input_data)
    as Hall.
  { rewrite (all_events_push w w' [emit_start_coro tool_name input_data])
      by done.
    fold n. rewrite Hissued. cbn. by rewrite app_nil_r. }
  assert (pending_current w' = Some (new_tool_id n)) as Hcur.
  { rewrite (pending_current_push w w' [emit_start_coro tool_name input_data])
      by done.
    fold n. by rewrite Hissued. }
  destruct (start_events_pairing (new_tool_id n) tool_name input_data)
    as [Hp Hs].
  split_and!.
  - exists (Some (new_tool_id n, tool_name)). split.
    + by rewrite Hall, pairing_app, Hpair.
    + split_and!; [done | apply ids_truthy | | ].
      * cbn. by rewrite last_snoc.
      * exists (ticks w). cbn. split; [lia | done].
  - done.
  - rewrite Hall, starts_app, Hs, Hstarts. cbn. rewrite length_app. cbn. lia.
Qed.

Lemma on_tool_use_life (tool_name : string) (input_data : PyDict.t pyval)
    (w : World) :
  Life false w →
  ∃ w', _on_tool_use tool_name input_data w = (Return tt, w') ∧ Life true w'.
Proof.
  intros ((open & Hpair & Hopen) & Hseen & Hstarts).
  specialize (Hseen eq_refl).
  set (n := SSEStreamManager.issued (stream w)).
  destruct (tasks_without_start n (_current_tool_id (service w)) (ready w) Hseen)
    as [Hissued Hcurrent].
  rewrite on_tool_use_run.
  destruct open as [[tool_id tool]|]; cbn in Hopen.
  - destruct Hopen as (Hcur & Htruthy & Hlast & k & Hk & Hstart).
    unfold pending_current in Hcur. fold n in Hcur. rewrite Hcurrent in Hcur.
    rewrite Hcur, Htruthy.
    destruct (last (_tools_used (service w))) as [u|]; [|done].
    injection Hlast as Hname. rewrite Hname.
    eexists. split; [done|].
    set (w1 := end_previous tool_id tool w).
    assert (all_events w1
            = all_events w
                ++ [ToolEndEventData tool_id tool
                      (duration_ms (clock (ticks w)) (clock k)) None]) as Hall.
    { rewrite (all_events_push w w1
                 [emit_tool_end_coro tool_id tool
                    (duration_ms (clock (ticks w))
                       (_tool_start_time (service w)))]) by done.
      by rewrite Hstart. }
    apply begin_tool_life.
    + cbn. rewrite has_start_app.
      intros [?|[?|?%has_start_nil]%has_start_cons]; done.
    + rewrite Hall, pairing_app, Hpair. cbn.
      rewrite decide_True; [done|]. split_and!; [done..|].
      apply duration_ms_nonneg, clock_monotone. lia.
    + by rewrite Hall, starts_app, Hstarts, Nat.add_0_r.
  - unfold pending_current in Hopen. fold n in Hopen.
    rewrite Hcurrent in Hopen. rewrite Hopen.
    eexists. split; [done|]. by apply begin_tool_life.
Qed.

Lemma on_complete_life (result : InvestigationResult.t) (w : World) :
  Life false w →
  ∃ w', _on_complete result w = (Return tt, w') ∧ Closed w'.
Proof.
  intros ((open & Hpair & Hopen) & Hseen & Hstarts).
  specialize (Hseen eq_refl).
  set (n := SSEStreamManager.issued (stream w)).
  destruct (tasks_without_start n (_current_tool_id (service w)) (ready w) Hseen)
    as [Hissued Hcurrent].
  rewrite on_complete_run. eexists. split; [done|]. cbn zeta.
  set (done_event :=
         CompleteEventData (InvestigationResult.text result)
           (InvestigationResult.session_id result)
           (InvestigationResult.duration_ms result)
           (InvestigationResult.num_turns result)).
  destruct open as [[tool_id tool]|]; cbn in Hopen.
  - destruct Hopen as (Hcur & Htruthy & Hlast & k & Hk & Hstart).
    unfold pending_current in Hcur. fold n in Hcur. rewrite Hcurrent in Hcur.
    rewrite Hcur, Htruthy.
    destruct (last (_tools_used (service w))) as [u|]; [|done].
    injection Hlast as Hname. rewrite Hname.
    match goal with |- Closed ?w1 => set (w' := w1) end.
    assert (all_events w'
            = all_events w
                ++ [ToolEndEventData tool_id tool
                      (duration_ms (clock (ticks w)) (clock k)) None;
                    done_event]) as Hall.
    { rewrite <-Hstart. unfold all_events, events_of. cbn.
      rewrite <-!app_assoc, !tasks_events_app. fold n. rewrite Hissued.
      reflexivity. }
    split.
    + rewrite Hall, pairing_app, Hpair. cbn.
      rewrite decide_True; [done|]. split_and!; [done..|].
      apply duration_ms_nonneg, clock_monotone. lia.
    + by rewrite Hall, starts_app, Hstarts, Nat.add_0_r.
  - unfold pending_current in Hopen. fold n in Hopen.
    rewrite Hcurrent in Hopen. rewrite Hopen.
    match goal with |- Closed ?w1 => set (w' := w1) end.
    assert (all_events w' = all_events w ++ [done_event]) as Hall.
    { unfold all_events, events_of. cbn.
      rewrite tasks_events_app. fold n. rewrite Hissued.
      cbn. by rewrite <-?app_assoc. }
    split.
    + by rewrite Hall, pairing_app, Hpair.
    + by rewrite Hall, starts_app, Hstarts, Nat.add_0_r.
Qed.

Lemma run_ready_all_events (w : World) :
  events_of (run_ready w) = all_events w
  ∧ all_events (run_ready w) = all_events w
  ∧ pending_current (run_ready w) = pending_current w.
Proof.
  destruct (run_ready_closed w) as (Hev & Hiss & Hcur & _ & _ & _ & Hready).
  unfold all_events, pending_current.
  rewrite Hready, Hev, Hcur. cbn. by rewrite app_nil_r.
Qed.

Lemma run_ready_life (seen : bool) (w : World) :
  Life seen w → Life false (run_ready w).
Proof.
  intros ((open & Hpair & Hopen) & _ & Hstarts).
  destruct (run_ready_all_events w) as (_ & Hall & Hcur).
  destruct (run_ready_closed w) as (_ & _ & _ & Htools & Htime & Hticks & Hready).
  split_and!.
  - exists open. split; [by rewrite Hall|].
    destruct open as [[tool_id tool]|]; cbn in *;
      by rewrite Hcur, ?Htools, ?Htime, ?Hticks.
  - intros _. rewrite Hready. apply has_start_nil.
  - by rewrite Hall, Htools.
Qed.

Lemma run_ready_closed_life (w : World) :
  Closed w → Closed (run_ready w) ∧ events_of (run_ready w) = all_events w.
Proof.
  intros [Hpair Hstarts].
  destruct (run_ready_all_events w) as (Hev & Hall & _).
  destruct (run_ready_closed w) as (_ & _ & _ & Htools & _).
  split; [|done]. split; by rewrite Hall, ?Htools.
Qed.

(** *** The lifecycle through the agent's loop *)

Definition is_tool_use (block : Sdk.Block) : bool :=
  match block with Sdk.ToolUseBlock _ _ => true | _ => false end.

Definition tool_use_count (content : list Sdk.Block) : nat :=
  length (filter (λ block, is_tool_use block = true) content).

(** A message before the completion that signals at most one tool use. *)
Definition separated (message : Sdk.Message) : Prop :=
  match message with
  | Sdk.AssistantMessage content => tool_use_count content ≤ 1
  | Sdk.ResultMessage _ _ _ _ => False
  | _ => True
  end.

Notation Frame := (RobinAgent.Frame (S := World)).

Lemma emit_chunk_life (seen stream : bool) (text : string) (f : Frame) :
  Life seen (RobinAgent.owner f) →
  ∃ f', RobinAgent.emit_chunk (callbacks clock) stream text f = (Return tt, f')
        ∧ Life seen (RobinAgent.owner f').
Proof.
  intros Hf. rewrite emit_chunk_run. unfold forwarded. cbn.
  destruct (on_text_life seen text (RobinAgent.owner f) Hf) as (w' & -> & Hw').
  eexists. split; [done|]. by destruct stream.
Qed.

Lemma handle_block_life (seen stream : bool) (block : Sdk.Block) (f : Frame) :
  Life seen (RobinAgent.owner f) →
  (is_tool_use block = true → seen = false) →
  ∃ f', RobinAgent.handle_block (callbacks clock) stream block f
        = (Return tt, f')
        ∧ Life (seen || is_tool_use block) (RobinAgent.owner f').
Proof.
  intros Hf Hseen. destruct block as [text|tool_name tool_input|]; cbn.
  - rewrite orb_false_r. by apply emit_chunk_life.
  - rewrite (Hseen eq_refl) in Hf. rewrite orb_true_r.
    rewrite py_bind_run. cbn. unfold RobinAgent.on_owner, Py.zoom. cbn.
    destruct (on_tool_use_life tool_name tool_input (RobinAgent.owner f) Hf)
      as (w' & -> & Hw').
    by eexists.
  - rewrite orb_false_r. by exists f.
Qed.

Lemma blocks_life (stream : bool) (content : list Sdk.Block) (seen : bool)
    (f : Frame) :
  Life seen (RobinAgent.owner f) →
  tool_use_count content + (if seen then 1 else 0) ≤ 1 →
  ∃ f' seen',
    Py.for_each content (RobinAgent.handle_block (callbacks clock) stream) f
    = (Return tt, f')
    ∧ Life seen' (RobinAgent.owner f').
Proof.
  revert seen f. induction content as [|block content IH]; intros seen f Hf Hle.
  - by exists f, seen.
  - unfold tool_use_count in Hle. rewrite filter_cons in Hle.
    destruct (handle_block_life seen stream block f Hf) as (f1 & Hrun & Hf1).
    { intros Hb. rewrite decide_True in Hle by done. cbn in Hle.
      destruct seen; [lia | done]. }
    destruct (IH (seen || is_tool_use block) f1 Hf1) as (f2 & seen2 & Hrest & Hf2).
    { unfold tool_use_count.
      destruct (is_tool_use block) eqn:Hb.
      - rewrite decide_True in Hle by done. cbn in Hle.
        rewrite orb_true_r. lia.
      - rewrite decide_False in Hle by done. by rewrite orb_false_r. }
    exists f2, seen2. split; [|done].
    cbn [Py.for_each]. unfold Py.bind. by rewrite Hrun.
Qed.

Lemma await_life (seen : bool) (f : Frame) :
  Life seen (RobinAgent.owner f) →
  ∃ f', RobinAgent.await_next run_ready f = (Return tt, f')
        ∧ Life false (RobinAgent.owner f')
        ∧ RobinAgent.full_response f' = RobinAgent.full_response f.
Proof.
  intros Hf. eexists. split; [done|]. split; [|done]. cbn.
  by apply (run_ready_life seen).
Qed.

Lemma deliver_life (stream : bool) (message : Sdk.Message) (f : Frame) :
  separated message →
  (∃ seen, Life seen (RobinAgent.owner f)) →
  ∃ f', deliver run_ready (callbacks clock) stream message f = (Return tt, f')
        ∧ ∃ seen', Life seen' (RobinAgent.owner f').
Proof.
  intros Hsep [seen Hf]. unfold deliver. rewrite py_bind_run.
  destruct (await_life seen f Hf) as (f1 & -> & Hf1 & _).
  destruct message as [subtype data|content|subtype result d n|]; cbn in *.
  - destruct (decide _); [|by eauto]. destruct data; by eauto.
  - destruct (blocks_life stream content false f1 Hf1) as (f2 & seen2 & ? & ?);
      [lia | by eauto].
  - done.
  - by eauto.
Qed.

Lemma deliver_result_life (stream : bool) (subtype : string)
    (result : option string) (d n : option Z) (f : Frame) :
  subtype ≠ "init" →
  (∃ seen, Life seen (RobinAgent.owner f)) →
  ∃ f', deliver run_ready (callbacks clock) stream
          (Sdk.ResultMessage subtype result d n) f = (Return tt, f')
        ∧ Closed (RobinAgent.owner f').
Proof.
  intros Hsub [seen Hf]. unfold deliver. rewrite py_bind_run.
  destruct (await_life seen f Hf) as (f1 & -> & Hf1 & _).
  cbn [RobinAgent.handle_message]. rewrite decide_False by done.
  rewrite py_bind_run.
  assert (∃ f2, RobinAgent.capture_final_result (callbacks clock) stream
                  result f1 = (Return tt, f2)
                ∧ Life false (RobinAgent.owner f2)) as (f2 & -> & Hf2).
  { destruct result as [r|]; [|by exists f1]. cbn.
    destruct (PyStr.truthy r); [|by exists f1]. cbn.
    rewrite py_bind_run. cbn.
    destruct (negb _); [|by exists f1]. by apply emit_chunk_life. }
  unfold RobinAgent.complete. do 2 (rewrite py_bind_run; cbn).
  unfold RobinAgent.on_owner, Py.zoom.
  edestruct (on_complete_life) as (w' & -> & Hw'); [exact Hf2|].
  by eexists.
Qed.

Section lifecycle_run.

Variable MAX_AGENT_TURNS : Z.
Variable ROBIN_SYSTEM_PROMPT : string.
Variable query : string → Sdk.ClaudeCodeOptions → Sdk.Stream.

Lemma start_life (investigation_id : string) (model : option string) :
  Life false
    (world (AgentService.start default_model DEFAULT_MODEL investigation_id
              model)).
Proof.
  split_and!; [by exists None | intros _; apply has_start_nil | done].
Qed.


End lifecycle_run.

End lifecycle.

(** *** A run of [AgentService.investigate] *)

Section run_facts.

Variable MAX_AGENT_TURNS : Z.
Variable ROBIN_SYSTEM_PROMPT : string.
Variable query : string → Sdk.ClaudeCodeOptions → Sdk.Stream.

Notation agent_investigate :=
  (AgentService.agent_investigate clock new_tool_id MAX_AGENT_TURNS
     ROBIN_SYSTEM_PROMPT query).
Notation investigate :=
  (AgentService.investigate clock new_tool_id MAX_AGENT_TURNS
     ROBIN_SYSTEM_PROMPT query).
Notation start := (AgentService.start default_model DEFAULT_MODEL).

Lemma start_good (investigation_id : string) (model : option string) :
  Good (world (start investigation_id model)).
Proof.
  split; [|constructor]. cbn. intros [?|Hs]; [done|].
  by apply has_start_nil in Hs.
Qed.

(** The agent's generator, driven from a good world: it ends as the stream
    of the engine ends, leaves the loop idle, and has asked once. *)
Lemma agent_investigate_good (q : string) (s : Session) :
  Good (world s) →
  ∃ s' opts,
    agent_investigate q s
    = (match Sdk.failure (query q opts) with
       | Some e => Raise e
       | None => Return tt
       end, s')
    ∧ Good (world s') ∧ ready (world s') = []
    ∧ queries s' = queries s ++ [(q, opts)].
Proof.
  intros Hs. unfold AgentService.agent_investigate, drain.
  destruct (investigate_invariant MAX_AGENT_TURNS ROBIN_SYSTEM_PROMPT query
              run_ready (callbacks clock) Good) with (q := q) (stream := true)
              (a := _agent s) (s := world s)
    as (f' & s0 & opts & a1 & _ & -> & Hown & Hgood & Hasked); try done.
  - intros cb text w [= <-]. apply on_text_good.
  - intros cb tool_name tool_input w [= <-]. apply on_tool_use_good.
  - intros cb result w [= <-]. apply on_complete_good.
  - apply run_ready_good.
  - exists {| world := RobinAgent.owner f'; _agent := RobinAgent.self f';
              queries := queries s ++ RobinAgent.asked f' |}, opts.
    split_and!; cbn; [done | done | | by rewrite Hasked].
    rewrite Hown. apply run_ready_idle.
Qed.

Lemma tasks_events_no_error (n : nat) (l : list Coroutine) :
  no_error (tasks_events n l).
Proof.
  revert n. induction l as [|c l IH]; intros n; [constructor|].
  cbn. apply Forall_app. split; [apply coroutine_events_no_error | apply IH].
Qed.

Lemma schedule_good (suspended : World → World) (w : World) :
  schedule new_tool_id suspended → Good w → Good (suspended w).
Proof.
  intros Hsched Hw. destruct (Hsched w) as [-> | ->]; [done|].
  by apply run_ready_good.
Qed.

(** The agent's generator under a schedule, driven from a good world: it
    ends as the stream of the engine ends, and has asked once. *)
Lemma agent_investigate_scheduled_good (suspended : World → World)
    (q : string) (s : Session) :
  schedule new_tool_id suspended →
  Good (world s) →
  ∃ s' w0 opts,
    agent_investigate_scheduled clock MAX_AGENT_TURNS ROBIN_SYSTEM_PROMPT
      query suspended q s
    = (match Sdk.failure (query q opts) with
       | Some e => Raise e
       | None => Return tt
       end, s')
    ∧ Good (world s') ∧ world s' = suspended w0
    ∧ queries s' = queries s ++ [(q, opts)].
Proof.
  intros Hsched Hs. unfold agent_investigate_scheduled, drain.
  destruct (investigate_invariant MAX_AGENT_TURNS ROBIN_SYSTEM_PROMPT query
              suspended (callbacks clock) Good) with (q := q) (stream := true)
              (a := _agent s) (s := world s)
    as (f' & w0 & opts & a1 & _ & -> & Hown & Hgood & Hasked); try done.
  - intros cb text w [= <-]. apply on_text_good.
  - intros cb tool_name tool_input w [= <-]. apply on_tool_use_good.
  - intros cb result w [= <-]. apply on_complete_good.
  - intros w. by apply schedule_good.
  - exists {| world := RobinAgent.owner f'; _agent := RobinAgent.self f';
              queries := queries s ++ RobinAgent.asked f' |}, w0, opts.
    split_and!; cbn; [done | done | done | by rewrite Hasked].
Qed.


End run_facts.

(** *** Three tool uses announced in one assistant message *)

Section one_message.

Variables (input1 input2 input3 : PyDict.t pyval).

(** One assistant turn asking for three tools at once, then the result. *)
Definition three_at_once : list Sdk.Message :=
  [ Sdk.AssistantMessage
      [ Sdk.ToolUseBlock "mcp__robin__darkweb_search" input1;
        Sdk.ToolUseBlock "mcp__robin__darkweb_scrape" input2;
        Sdk.ToolUseBlock "mcp__robin__save_report" input3 ];
    Sdk.ResultMessage "success" None None None ].

(** [C1] at its failing input: three tool-use signals delivered while the
    generator handles one assistant message, then the completion.  The
    service emits the three ToolStart events, but the only ToolEnd is the
    one the completion emits for the third tool: when the second and third
    signals arrive, the task that records the open tool's id has not run
    yet, so the first and the second tool are never closed. *)
Theorem tool_uses_in_one_message_lose_their_ends (MAX_AGENT_TURNS : Z)
    (ROBIN_SYSTEM_PROMPT investigation_id q : string) (model : option string) :
  let run :=
    AgentService.investigate clock new_tool_id MAX_AGENT_TURNS
      ROBIN_SYSTEM_PROMPT
      (λ _ _, {| Sdk.messages := three_at_once; Sdk.failure := None |}) q
      (AgentService.start default_model DEFAULT_MODEL investigation_id model) in
  let events := events_of (world run.2) in
  events
  = [ ToolStartEventData (new_tool_id 0) "mcp__robin__darkweb_search" input1;
      ToolStartEventData (new_tool_id 1) "mcp__robin__darkweb_scrape" input2;
      ToolStartEventData (new_tool_id 2) "mcp__robin__save_report" input3 ]
      ++ (if PyStr.truthy (new_tool_id 2) then
            [ ToolEndEventData (new_tool_id 2) "mcp__robin__save_report"
                (duration_ms (clock 3) (clock 2)) None ]
          else [])
      ++ [ CompleteEventData EmptyString None None None ]
  ∧ length (filter (λ ev, is_tool_start ev = true) events) = 3
  ∧ length (filter (λ ev, is_tool_end ev = true) events) ≤ 1
  ∧ ready (world run.2) = [].
Proof.
  intros run events.
  assert (events
          = [ ToolStartEventData (new_tool_id 0) "mcp__robin__darkweb_search" input1;
              ToolStartEventData (new_tool_id 1) "mcp__robin__darkweb_scrape" input2;
              ToolStartEventData (new_tool_id 2) "mcp__robin__save_report" input3 ]
              ++ (if PyStr.truthy (new_tool_id 2) then
                    [ ToolEndEventData (new_tool_id 2) "mcp__robin__save_report"
                        (duration_ms (clock 3) (clock 2)) None ]
                  else [])
              ++ [ CompleteEventData EmptyString None None None ]) as Hevents.
  { unfold events, run. destruct (new_tool_id 2) as [|c id] eqn:Hid;
      vm_compute; rewrite ?Hid; reflexivity. }
  split; [exact Hevents|]. rewrite Hevents. clear Hevents. split_and!.
  - destruct (PyStr.truthy (new_tool_id 2)); vm_compute; reflexivity.
  - destruct (PyStr.truthy (new_tool_id 2)); vm_compute; lia.
  - unfold run. vm_compute. by destruct (new_tool_id 2).
Qed.

End one_message.

End service_facts.

(** *** A failing run, evaluated *)

Definition example_clock (n : nat) : Q := inject_Z (Z.of_nat n).

Definition example_tool_id (n : nat) : string := "tool-" +:+ pretty n.

Definition closed_stream : PyException :=
  {| exc_str := "engine closed the stream" |}.

Definition failing_engine (q : string) (opts : Sdk.ClaudeCodeOptions)
  : Sdk.Stream :=
  {| Sdk.messages := [Sdk.AssistantMessage [Sdk.TextBlock "Searching"]];
     Sdk.failure := Some closed_stream |}.


(** *** After the failure

    An engine that fails on the first query and answers the next. *)
Definition flaky_engine (q : string) (opts : Sdk.ClaudeCodeOptions)
  : Sdk.Stream :=
  if decide (q = "dig deeper") then
    {| Sdk.messages :=
         [ Sdk.AssistantMessage [Sdk.TextBlock "Found"];
           Sdk.ResultMessage "success" None None None ];
       Sdk.failure := None |}
  else failing_engine q opts.


(** *** Three tool uses, one per assistant message *)

Lemma example_clock_monotone (i j : nat) :
  i ≤ j → Qle (example_clock i) (example_clock j).
Proof. intros Hij. unfold Qle, example_clock. cbn. lia. Qed.

Lemma example_tool_id_truthy (n : nat) :
  PyStr.truthy (example_tool_id n) = true.
Proof. reflexivity. Qed.

Definition three_in_turn : list Sdk.Message :=
  [ Sdk.SystemMessage "init" [("session_id", PStr "session-1")];
    Sdk.AssistantMessage
      [ Sdk.TextBlock "Searching.";
        Sdk.ToolUseBlock "mcp__robin__darkweb_search" [("query", PStr "ransomware")] ];
    Sdk.AssistantMessage
      [ Sdk.ToolUseBlock "mcp__robin__darkweb_scrape" [("targets", PList [])] ];
    Sdk.AssistantMessage
      [ Sdk.ToolUseBlock "mcp__robin__save_report" [("content", PStr "report")] ] ].

Definition turn_engine (q : string) (opts : Sdk.ClaudeCodeOptions)
  : Sdk.Stream :=
  {| Sdk.messages :=
       three_in_turn ++ [Sdk.ResultMessage "success" (Some "Done.") (Some 1200%Z) (Some 4%Z)];
     Sdk.failure := None |}.


(** *** A follow-up after a completed turn *)

Definition one_tool_engine (q : string) (opts : Sdk.ClaudeCodeOptions)
  : Sdk.Stream :=
  {| Sdk.messages :=
       [ Sdk.AssistantMessage [Sdk.ToolUseBlock "mcp__robin__darkweb_search" []];
         Sdk.ResultMessage "success" None None None ];
     Sdk.failure := None |}.

(** [_on_complete] ends the open tool but leaves [_current_tool_id] set, so
    the first tool use of a follow-up ends the last tool of the turn before
    a second time. *)
Lemma follow_up_ends_previous_tool_again :
  let first :=
    (AgentService.investigate example_clock example_tool_id 30 "system prompt"
       one_tool_engine "ransomware payments 2024"
       (AgentService.start "model" "model" "investigation" None)).2 in
  let second :=
    (AgentService.follow_up example_clock example_tool_id 30 "system prompt"
       one_tool_engine "dig deeper" first).2 in
  events_of (AgentService.world second)
  = [ Events.ToolStartEventData "tool-0" "mcp__robin__darkweb_search" [];
      Events.ToolEndEventData "tool-0" "mcp__robin__darkweb_search" 1000 None;
      Events.CompleteEventData EmptyString None None None;
      Events.ToolEndEventData "tool-0" "mcp__robin__darkweb_search" 2000 None;
      Events.ToolStartEventData "tool-1" "mcp__robin__darkweb_search" [];
      Events.ToolEndEventData "tool-1" "mcp__robin__darkweb_search" 1000 None;
      Events.CompleteEventData EmptyString None None None ].
Proof. vm_compute. reflexivity. Qed.

(** ** Further facts about the tools *)

Section more_pystr_facts.
Import PyStr.

Lemma endswith_spec (suffix s : string) :
  endswith suffix s = true ↔ ∃ pre, s = pre +:+ suffix.
Proof.
  induction s as [|c s IH]; simpl.
  - rewrite orb_false_r, bool_decide_eq_true. split.
    + intros <-. by exists EmptyString.
    + intros [[|c pre] H]; [done | discriminate].
  - rewrite orb_true_iff, bool_decide_eq_true, IH. split.
    + intros [<- | [pre ->]]; [by exists EmptyString | by exists (String c pre)].
    + intros [[|c' pre] H]; [by left | right].
      rewrite append_cons in H. injection H as _ ->. by exists pre.
Qed.

Lemma endswith_app (suffix pre : string) :
  endswith suffix (pre +:+ suffix) = true.
Proof. apply endswith_spec. by exists pre. Qed.

Lemma truthy_app_r (a b : string) : truthy b = true → truthy (a +:+ b) = true.
Proof. destruct a; [done|]. by rewrite append_cons. Qed.

Lemma replace_char_length (a b : ascii) (s : string) :
  len (replace_char a b s) = len s.
Proof. unfold len. induction s as [|c s IH]; simpl; congruence. Qed.

Lemma replace_char_absent (a b : ascii) (s : string) :
  a ≠ b → PyRepr.has_char a (replace_char a b s) = false.
Proof.
  intros Hab. induction s as [|c s IH]; [done|]. simpl. rewrite IH.
  rewrite orb_false_r. apply bool_decide_eq_false.
  destruct (decide (c = a)); congruence.
Qed.

Lemma replace_char_id (a b : ascii) (s : string) :
  PyRepr.has_char a s = false → replace_char a b s = s.
Proof.
  induction s as [|c s IH]; [done|]. simpl.
  intros [Hc Hs]%orb_false_iff. apply bool_decide_eq_false in Hc.
  rewrite decide_False by done. by rewrite IH.
Qed.

Lemma take_take_le (n m : nat) (s : string) :
  n ≤ m → take n (take m s) = take n s.
Proof.
  revert m s. induction n as [|n IH]; intros m s Hnm.
  - by destruct (take m s).
  - destruct m as [|m]; [lia|]. destruct s as [|c s]; [done|].
    simpl. by rewrite IH by lia.
Qed.

Lemma take_app_le (n : nat) (a b : string) :
  n ≤ len a → take n (a +:+ b) = take n a.
Proof.
  unfold len. revert a. induction n as [|n IH]; intros a Hn.
  - by destruct (a +:+ b), a.
  - destruct a as [|c a]; [simpl in Hn; lia|].
    rewrite append_cons. simpl in *. by rewrite IH by lia.
Qed.

Lemma take_all (n : nat) (s : string) : len s ≤ n → take n s = s.
Proof.
  unfold len. revert s. induction n as [|n IH]; intros [|c s] Hn; simpl in *;
    try done; [lia|]. by rewrite IH by lia.
Qed.

End more_pystr_facts.

Section save_report_facts.
Import Tools.

Variable now : string.

Lemma target_filename_given (args : SaveArgs) (given : string) :
  report_filename args = Some given → PyStr.truthy given = true →
  target_filename now args
  = if PyStr.endswith ".md" given then given else given +:+ ".md".
Proof. intros Hgiven Htruthy. unfold target_filename. by rewrite Hgiven; simpl; rewrite Htruthy. Qed.

Lemma target_filename_default (args : SaveArgs) :
  PyStr.truthy (default EmptyString (report_filename args)) = false →
  target_filename now args = "robin_report_" +:+ now +:+ ".md".
Proof.
  intros Hfalsy. unfold target_filename. rewrite Hfalsy.
  rewrite <-append_assoc. by rewrite endswith_app.
Qed.

Lemma target_filename_endswith (args : SaveArgs) :
  PyStr.endswith ".md" (target_filename now args) = true.
Proof.
  unfold target_filename.
  set (filename := if PyStr.truthy _ then _ else _).
  destruct (PyStr.endswith ".md" filename) eqn:Hends; [done|].
  apply endswith_app.
Qed.

Lemma files_lookup_insert (files : Files) (name text : string) :
  <[name := text]> files !! name = Some text.
Proof. apply lookup_insert_eq. Qed.

Lemma files_lookup_insert_ne (files : Files) (name other text : string) :
  name ≠ other → <[name := text]> files !! other = files !! other.
Proof. apply lookup_insert_ne. Qed.

Lemma files_insert_insert (files : Files) (name text text' : string) :
  <[name := text']> (<[name := text]> files) = <[name := text']> files.
Proof. apply insert_insert_eq. Qed.

(** [X1] The name [save_report] writes to always ends with [".md"]: a
    given non-empty name that ends with [".md"] is used as it is, any other
    given non-empty name gets [".md"] added once, and a missing or empty name
    becomes ["robin_report_<now>.md"].  The name chosen is a fixed point:
    asked for again as the file name, it comes back unchanged. *)
Theorem save_report_filename_extension (args : SaveArgs) :
  let name := target_filename now args in
  (∃ stem, name = stem +:+ ".md")
  ∧ (∀ given, report_filename args = Some given → given ≠ EmptyString →
       ((∃ stem, given = stem +:+ ".md") → name = given)
       ∧ ((¬ ∃ stem, given = stem +:+ ".md") → name = given +:+ ".md"))
  ∧ ((report_filename args = None ∨ report_filename args = Some EmptyString) →
       name = "robin_report_" +:+ now +:+ ".md")
  ∧ (∀ content',
       target_filename now
         {| report_content := content'; report_filename := Some name |} = name).
Proof.
  intros name. split_and!.
  - apply endswith_spec, target_filename_endswith.
  - intros given Hgiven Hne.
    assert (PyStr.truthy given = true) as Htruthy by by destruct given.
    unfold name. rewrite (target_filename_given _ given) by done.
    split.
    + intros Hends%endswith_spec. by rewrite Hends.
    + intros Hends. destruct (PyStr.endswith ".md" given) eqn:E; [|done].
      by apply endswith_spec in E.
  - intros Hmissing. apply target_filename_default.
    by destruct Hmissing as [-> | ->].
  - intros content'.
    pose proof (target_filename_endswith args) as Hends. fold name in Hends.
    rewrite (target_filename_given _ name); [by rewrite Hends|done|].
    apply endswith_spec in Hends as [stem ->]. by apply truthy_app_r.
Qed.

(** [X2] What [save_report] does to the files, whatever file each name
    leads to.  When nothing goes wrong the file its name leads to holds
    exactly the report, under that name and under every other name that
    leads to the same file, and the answer gives the name as it was asked
    for; when [open] raises no file changes; when [write] raises the file
    holds a prefix of the report; in these two cases the answer is
    ["Failed to save report: "] followed by the exception's text.  In every
    case each other file is as it was, and so is what is read under a name
    that leads to another file.  When every name is its own file this is
    [save_report]. *)
Theorem save_report_touches_one_file (realpath : string → string)
    (fault : Fault) (args : SaveArgs) (disk : Files) :
  let name := target_filename now args in
  let out := save_report_on_disk now realpath fault args disk in
  (∀ file, file ≠ realpath name → out.2 !! file = disk !! file)
  ∧ (∀ other, realpath other ≠ realpath name →
       read_file realpath other out.2 = read_file realpath other disk)
  ∧ match fault with
    | NoFault =>
        (∀ alias, realpath alias = realpath name →
           read_file realpath alias out.2 = Some (report_content args))
        ∧ response_text out.1
          = "Report saved successfully to **" +:+ name +:+ "**"
    | OpenFails e =>
        out.2 = disk
        ∧ response_text out.1 = "Failed to save report: " +:+ exc_str e
    | WriteFails e written =>
        (∃ written_text rest,
           (∀ alias, realpath alias = realpath name →
              read_file realpath alias out.2 = Some written_text)
           ∧ report_content args = written_text +:+ rest)
        ∧ response_text out.1 = "Failed to save report: " +:+ exc_str e
    end
  ∧ save_report_on_disk now (λ name, name) fault args disk
    = save_report now fault args disk.
Proof.
  intros name out.
  assert (∀ file, file ≠ realpath name → out.2 !! file = disk !! file)
    as Hframe.
  { intros file Hfile. unfold out, save_report_on_disk. fold name.
    assert (realpath name ≠ file) as Hname by done.
    destruct fault; cbn [snd]; by rewrite ?files_lookup_insert_ne by done. }
  split_and!.
  - exact Hframe.
  - intros other Hother. by apply Hframe.
  - unfold out, read_file, save_report_on_disk. fold name.
    destruct fault as [|e|e written]; cbn [fst snd].
    + split; [|done]. intros alias ->. apply files_lookup_insert.
    + done.
    + split; [|done].
      destruct (take_startswith written (report_content args)) as [rest Hrest].
      exists (PyStr.take written (report_content args)), rest.
      split; [|done]. intros alias ->. apply files_lookup_insert.
  - done.
Qed.

End save_report_facts.

Section save_report_collision.
Import Tools.

(** [X3] A report saved under a name without the extension and a report
    saved later under the same name with [".md"] go to the same file: after
    the two saves that file holds the second report only, and no file is
    created under the name without the extension. *)
Theorem save_report_extension_collision (now1 now2 stem first second : string)
    (files : Files) :
  stem ≠ EmptyString →
  PyStr.endswith ".md" stem = false →
  let saved1 :=
    save_report now1 NoFault
      {| report_content := first; report_filename := Some stem |} files in
  let saved2 :=
    save_report now2 NoFault
      {| report_content := second; report_filename := Some (stem +:+ ".md") |}
      saved1.2 in
  saved1.2 !! (stem +:+ ".md") = Some first
  ∧ saved2.2 !! (stem +:+ ".md") = Some second
  ∧ saved2.2 = <[stem +:+ ".md" := second]> files
  ∧ saved2.2 !! stem = files !! stem.
Proof.
  intros Hne Hends saved1 saved2.
  assert (PyStr.truthy stem = true) as Htruthy by by destruct stem.
  assert (saved1.2 = <[stem +:+ ".md" := first]> files) as H1.
  { unfold saved1, save_report.
    rewrite (target_filename_given _ _ stem) by done. by rewrite Hends. }
  assert (saved2.2 = <[stem +:+ ".md" := second]> saved1.2) as H2.
  { unfold saved2, save_report.
    rewrite (target_filename_given _ _ (stem +:+ ".md"));
      [by rewrite endswith_app | done | by apply truthy_app_r]. }
  assert (stem +:+ ".md" ≠ stem) as Hdiff.
  { intros Heq. symmetry in Heq. by apply append_eq_self_inv in Heq. }
  rewrite H2, H1. split_and!.
  - apply files_lookup_insert.
  - apply files_lookup_insert.
  - apply files_insert_insert.
  - by rewrite !files_lookup_insert_ne.
Qed.

End save_report_collision.

(** Two saves of the analyst's report, the second with the extension. *)
Lemma save_report_extension_collision_witness :
  let saved1 :=
    Tools.save_report "2024-05-01_10-00-00" Tools.NoFault
      {| Tools.report_content := "draft";
         Tools.report_filename := Some "lockbit" |} ∅ in
  let saved2 :=
    Tools.save_report "2024-05-01_10-05-00" Tools.NoFault
      {| Tools.report_content := "final";
         Tools.report_filename := Some "lockbit.md" |} saved1.2 in
  saved2.2 = <["lockbit.md" := "final"]> (∅ : Tools.Files).
Proof.
  intros saved1 saved2.
  refine (proj1 (proj2 (proj2
    (save_report_extension_collision "2024-05-01_10-00-00"
       "2024-05-01_10-05-00" "lockbit" "draft" "final" ∅ _ _)))).
  - discriminate.
  - reflexivity.
Defined.

(** A report saved as ["./lockbit.md"] replaces the text of ["lockbit.md"],
    for a [realpath] that drops a leading ["./"]. *)
Lemma save_report_touches_one_file_witness :
  let realpath name :=
    match name with
    | String "." (String "/" rest) => rest
    | _ => name
    end in
  let disk : Tools.Files := {["lockbit.md" := "draft"]} in
  let saved :=
    Tools.save_report_on_disk "2024-05-01_10-00-00" realpath Tools.NoFault
      {| Tools.report_content := "final";
         Tools.report_filename := Some "./lockbit.md" |} disk in
  Tools.read_file realpath "lockbit.md" disk = Some "draft"
  ∧ Tools.read_file realpath "lockbit.md" saved.2 = Some "final"
  ∧ response_text saved.1 = "Report saved successfully to **./lockbit.md**".
Proof.
  intros realpath disk saved.
  destruct (save_report_touches_one_file "2024-05-01_10-00-00" realpath
              Tools.NoFault
              {| Tools.report_content := "final";
                 Tools.report_filename := Some "./lockbit.md" |} disk)
    as (_ & _ & [Hread Htext] & _).
  split_and!.
  - apply lookup_singleton_eq.
  - by apply Hread.
  - exact Htext.
Defined.

Section more_search_facts.
Import Tools.

Lemma format_title_length (t : string) :
  PyStr.len (format_title t) = if decide (80 < PyStr.len t) then 83 else PyStr.len t.
Proof.
  unfold format_title. destruct (decide _) as [Hlong|Hshort]; [|done].
  rewrite append_length, take_length. change (PyStr.len "...") with 3. lia.
Qed.

Lemma format_title_first_80 (t : string) :
  PyStr.take 80 (format_title t) = PyStr.take 80 t.
Proof.
  unfold format_title. destruct (decide _) as [Hlong|Hshort]; [|done].
  rewrite take_app_le by (rewrite take_length; lia).
  by rewrite take_take_le.
Qed.

(** [X4] One entry of the search listing.  The title shown is never
    longer than 83 characters: a title of at most 80 characters is shown
    whole, a longer one as its first 80 characters followed by ["..."]; in
    both cases the first 80 characters shown are the first 80 of the title.
    The link is never cut: the entry ends with the whole link, after
    ["   URL: "]. *)
Theorem darkweb_search_entry_shape (i : nat) (res : SearchResult) :
  let shown := format_title (title res) in
  PyStr.len shown ≤ 83
  ∧ PyStr.take 80 shown = PyStr.take 80 (title res)
  ∧ (PyStr.len (title res) ≤ 80 → shown = title res)
  ∧ (80 < PyStr.len (title res) →
       PyStr.len shown = 83
       ∧ shown = PyStr.take 80 (title res) +:+ "...")
  ∧ PyStr.endswith ("   URL: " +:+ link res) (format_result i res) = true
  ∧ PyStr.startswith (pretty i +:+ ". **" +:+ shown +:+ "**")
      (format_result i res) = true.
Proof.
  intros shown. split_and!.
  - unfold shown. rewrite format_title_length. destruct (decide _); lia.
  - apply format_title_first_80.
  - intros Hshort. unfold shown, format_title. by rewrite decide_False by lia.
  - intros Hlong.
    assert (PyStr.len shown = 83) as Hlen.
    { unfold shown. rewrite format_title_length. by rewrite decide_True. }
    split; [done|]. unfold shown, format_title. by rewrite decide_True.
  - apply endswith_spec. unfold format_result. fold shown.
    exists (pretty i +:+ ". **" +:+ shown +:+ "**" +:+ nl).
    by rewrite !append_assoc.
  - apply startswith_spec. unfold format_result. fold shown.
    exists (nl +:+ "   URL: " +:+ link res). by rewrite !append_assoc.
Qed.

(** [X5] [darkweb_search] never sends a space to the search back end:
    every space of the query is sent as ["+"] and nothing else changes, so
    the tool answers the same whatever the back end would do with a query
    that holds a space, and a query written with ["+"] in place of its spaces
    gets the same answer as the query itself. *)
Theorem darkweb_search_sends_no_space
    (search search' : string → Z → PyResult (list SearchResult))
    (args : SearchArgs) :
  (∀ q w, PyRepr.has_char " " q = false → search q w = search' q w) →
  let sent := PyStr.replace_char " " "+" (query args) in
  PyRepr.has_char " " sent = false
  ∧ PyStr.len sent = PyStr.len (query args)
  ∧ (PyRepr.has_char " " (query args) = false → sent = query args)
  ∧ darkweb_search search args = darkweb_search search' args
  ∧ darkweb_search search
      {| query := sent; search_max_workers := search_max_workers args |}
    = darkweb_search search args.
Proof.
  intros Hsame sent.
  assert (PyRepr.has_char " " sent = false) as Hsent
    by by apply replace_char_absent.
  split_and!.
  - done.
  - apply replace_char_length.
  - apply replace_char_id.
  - unfold darkweb_search. fold sent. by rewrite Hsame.
  - unfold darkweb_search. simpl. fold sent.
    by rewrite (replace_char_id _ _ sent).
Qed.

End more_search_facts.

(** A back end that breaks on a space is never broken by the tool. *)
Lemma darkweb_search_sends_no_space_witness :
  let fragile q (w : Z) :=
    if PyRepr.has_char " " q
    then Raise {| exc_str := "400 Bad Request" |}
    else Return [ {| title := q; link := "http://a.onion" |} ] in
  let sturdy q (w : Z) :=
    Return [ {| title := q; link := "http://a.onion" |} ] in
  let args := {| Tools.query := "ransomware payments 2024";
                 Tools.search_max_workers := None |} in
  Tools.darkweb_search fragile args = Tools.darkweb_search sturdy args.
Proof.
  intros fragile sturdy args.
  refine (proj1 (proj2 (proj2 (proj2
    (darkweb_search_sends_no_space fragile sturdy args _))))).
  intros q w Hq. unfold fragile, sturdy. by rewrite Hq.
Defined.

Section more_scrape_facts.
Import Tools.

Lemma success_count_le (results : PyDict.t (option string)) :
  success_count results ≤ length results.
Proof. unfold success_count. apply length_filter. Qed.

Lemma success_count_all (results : PyDict.t (option string)) :
  success_count results = length results
  ↔ ∀ item, item ∈ results → meaningful item.2 = true.
Proof.
  unfold success_count, PyDict.t in *.
  induction results as [|item results IH].
  - split; [intros _ item Hin; by apply elem_of_nil in Hin | done].
  - rewrite filter_cons. destruct (decide _) as [Hm|Hm]; simpl.
    + split.
      * intros [= Hlen]. pose proof (proj1 IH Hlen) as Hrest.
        intros item' [->|Hin]%elem_of_cons; auto.
      * intros Hall. f_equal. refine (proj2 IH _). intros item' Hin.
        apply Hall. by right.
    + split.
      * intros Hlen.
        pose proof (length_filter (λ item, meaningful item.2 = true) results).
        lia.
      * intros Hall. destruct Hm. apply Hall. by left.
Qed.

Lemma contract_length (urls_data : list UrlEntry)
    (results : PyDict.t (option string)) :
  NoDup (PyDict.keys results) → scrape_contract urls_data results →
  length results ≤ length urls_data.
Proof.
  intros Hnodup Hcontract.
  assert (PStr <$> PyDict.keys results ⊆+ entry_link <$> urls_data) as Hsub.
  { apply NoDup_submseteq.
    - assert (Inj (=) (=) PStr) as Hinj by (by intros ?? [=]).
      by apply (NoDup_fmap_2 PStr).
    - intros v (l & -> & Hl)%list_elem_of_fmap.
      apply Hcontract in Hl as (e & He & <-). by apply list_elem_of_fmap_2. }
  apply submseteq_length in Hsub.
  unfold PyDict.keys in Hsub. by rewrite !length_fmap in Hsub.
Qed.


End more_scrape_facts.


Section more_delegate_facts.
Import Tools.

Variable available : PyDict.t string.
Variable run_subagents_parallel :
  list string → string → string → PyResult (list SubAgentResult).

Lemma delegate_analysis_dispatch (args : DelegateArgs) :
  agent_types args ≠ [] →
  (∀ a, a ∈ agent_types args → a ∈ PyDict.keys available) →
  delegate_content args ≠ EmptyString →
  delegate_analysis available run_subagents_parallel args
  = {| dispatched :=
         [ {| call_agents := agent_types args;
              call_content := delegate_content args;
              call_context := default EmptyString (delegate_context args) |} ];
       response :=
         match run_subagents_parallel (agent_types args)
                 (delegate_content args)
                 (default EmptyString (delegate_context args)) with
         | Raise e =>
             text_response ("Sub-agent execution failed: " +:+ exc_str e)
         | Return results =>
             text_response (delegate_result_text (agent_types args) results)
         end |}.
Proof.
  intros Hne Hvalid Hcontent. unfold delegate_analysis.
  rewrite (proj2 (invalid_types_nil available run_subagents_parallel _) Hvalid).
  destruct (agent_types args); [done|].
  by destruct (delegate_content args).
Qed.

Lemma result_part_in_text (ats : list string) (results : list SubAgentResult)
    (r : SubAgentResult) :
  r ∈ results → result_part r `substring_of` delegate_result_text ats results.
Proof.
  intros Hin. unfold delegate_result_text. apply substring_of_join.
  right. apply elem_of_app. left. by apply list_elem_of_fmap_2.
Qed.

(** [X7] A delegation that passes the checks (some kinds, all of them in
    the registry, some content) calls the runner once, with the kinds, the
    content and the context (the empty string when none is given).  When the
    runner raises, the answer is ["Sub-agent execution failed: "] followed by
    the exception's text.  When it returns, the answer lists the kinds asked
    for after ["Delegated to: "] and has one section per result: under the
    heading of its kind, the analysis of a result that succeeded, and
    ["*Analysis failed: <error>*"] for one that failed. *)
Theorem delegate_analysis_reports_each_result (args : DelegateArgs) :
  agent_types args ≠ [] →
  (∀ a, a ∈ agent_types args → a ∈ PyDict.keys available) →
  delegate_content args ≠ EmptyString →
  let context := default EmptyString (delegate_context args) in
  let run := delegate_analysis available run_subagents_parallel args in
  let text := response_text (response run) in
  dispatched run
  = [ {| call_agents := agent_types args;
         call_content := delegate_content args;
         call_context := context |} ]
  ∧ (∀ e, run_subagents_parallel (agent_types args) (delegate_content args)
            context = Raise e →
       text = "Sub-agent execution failed: " +:+ exc_str e)
  ∧ (∀ results,
       run_subagents_parallel (agent_types args) (delegate_content args)
         context = Return results →
       ("Delegated to: " +:+ PyStr.join ", " (agent_types args))
         `substring_of` text
       ∧ ∀ r, r ∈ results →
           (success r = true →
              ("### " +:+ agent_type r +:+ nl +:+ nl +:+ analysis r +:+ nl)
                `substring_of` text)
           ∧ (success r = false →
                ("### " +:+ agent_type r +:+ nl +:+ nl +:+ "*Analysis failed: "
                   +:+ PyRepr.str_option (error r) +:+ "*" +:+ nl)
                  `substring_of` text)).
Proof.
  intros Hne Hvalid Hcontent context run text.
  assert (run = _) as Hrun by by apply delegate_analysis_dispatch.
  fold context in Hrun. split_and!.
  - by rewrite Hrun.
  - intros e He. unfold text. by rewrite Hrun, He.
  - intros results Hres.
    assert (text = delegate_result_text (agent_types args) results) as ->
      by (unfold text; by rewrite Hrun, Hres).
    split.
    + unfold delegate_result_text.
      eapply substring_of_trans; [|apply substring_of_join, list_elem_of_here].
      apply substring_of_app_r, substring_of_app_r, substring_of_app_r.
      rewrite <-append_assoc. apply substring_of_app_l, substring_of_refl.
    + intros r Hin.
      pose proof (result_part_in_text (agent_types args) results r Hin) as Hpart.
      unfold result_part in Hpart.
      split; intros Hs; by rewrite Hs in Hpart.
Qed.

End more_delegate_facts.

(** Two workers, one of which failed without saying why. *)
Lemma delegate_analysis_reports_each_result_witness :
  let results :=
    [ {| Tools.agent_type := "IOCExtractor"; Tools.analysis := "1.2.3.4";
         Tools.success := true; Tools.error := None |};
      {| Tools.agent_type := "MalwareAnalyst"; Tools.analysis := EmptyString;
         Tools.success := false; Tools.error := None |} ] in
  let args := {| Tools.agent_types := ["IOCExtractor"; "MalwareAnalyst"];
                 Tools.delegate_content := "scraped text";
                 Tools.delegate_context := None |} in
  let run :=
    Tools.delegate_analysis example_registry (λ _ _ _, Return results) args in
  ("### MalwareAnalyst" +:+ nl +:+ nl +:+ "*Analysis failed: None*" +:+ nl)
    `substring_of` response_text (response run).
Proof.
  intros results args run.
  destruct (delegate_analysis_reports_each_result example_registry
              (λ _ _ _, Return results) args) as (_ & _ & Hres).
  - done.
  - intros a. cbn. rewrite !elem_of_cons, elem_of_nil.
    intros [->|[->|[]]]; auto.
  - discriminate.
  - destruct (Hres results eq_refl) as [_ Hparts].
    apply (Hparts {| Tools.agent_type := "MalwareAnalyst";
                     Tools.analysis := EmptyString;
                     Tools.success := false; Tools.error := None |});
      [apply list_elem_of_further, list_elem_of_here | reflexivity].
Defined.

(** ** Further facts about [RobinAgent] *)

(** Two loops whose bodies keep a relation between their states, and
    return, keep it and return. *)
Lemma for_each_sim {S1 S2 A : Type} (R : S1 → S2 → Prop)
    (body1 : A → Py S1 unit) (body2 : A → Py S2 unit) (l : list A)
    (s1 : S1) (s2 : S2) :
  (∀ x s1 s2, R s1 s2 →
     ∃ s1' s2', body1 x s1 = (Return tt, s1') ∧ body2 x s2 = (Return tt, s2')
                ∧ R s1' s2') →
  R s1 s2 →
  ∃ s1' s2', Py.for_each l body1 s1 = (Return tt, s1')
             ∧ Py.for_each l body2 s2 = (Return tt, s2') ∧ R s1' s2'.
Proof.
  intros Hbody. revert s1 s2. induction l as [|x l IH]; intros s1 s2 HR.
  - by exists s1, s2.
  - destruct (Hbody x s1 s2 HR) as (t1 & t2 & H1 & H2 & HR').
    destruct (IH t1 t2 HR') as (u1 & u2 & G1 & G2 & HR'').
    exists u1, u2. cbn [Py.for_each]. unfold Py.bind. by rewrite H1, H2.
Qed.

(** A loop whose body returns and appends to a log appends, in order, what
    each element adds. *)
Lemma for_each_log {S A B : Type} (log : S → list B) (adds : A → list B)
    (ok : A → Prop) (body : A → Py S unit) (l : list A) (s : S) :
  (∀ x s, ok x → ∃ s', body x s = (Return tt, s') ∧ log s' = log s ++ adds x) →
  Forall ok l →
  ∃ s', Py.for_each l body s = (Return tt, s')
        ∧ log s' = log s ++ concat (adds <$> l).
Proof.
  intros Hbody Hl. revert s. induction Hl as [|x l Hx Hl IH]; intros s.
  - exists s. by rewrite app_nil_r.
  - destruct (Hbody x s Hx) as (s1 & H1 & Hlog1).
    destruct (IH s1) as (s2 & H2 & Hlog2).
    exists s2. cbn [Py.for_each]. unfold Py.bind. rewrite H1. split; [done|].
    rewrite Hlog2, Hlog1. cbn. by rewrite app_assoc.
Qed.

Lemma collect_snoc (chunks : list string) (chunk : string) :
  Client.collect (chunks ++ [chunk]) = Client.collect chunks +:+ chunk.
Proof. unfold Client.collect. by rewrite foldl_snoc. Qed.

Section client_more.
Import RobinAgent.

Context {S : Type}.
Variable MAX_AGENT_TURNS : Z.
Variable ROBIN_SYSTEM_PROMPT : string.
Variable query : string → Sdk.ClaudeCodeOptions → Sdk.Stream.
Variable suspended : S → S.
Variable callbacks : Callbacks (S := S).

Notation Frame := (Frame (S := S)).

(** An agent made without callbacks: [RobinAgent()]. *)
Definition silent : Callbacks (S := S) :=
  {| on_text := None; on_tool_use := None; on_complete := None |}.

(** Every callback returns, whatever it is given. *)
Definition returning : Prop :=
  (∀ cb text s, on_text callbacks = Some cb → ∃ s', cb text s = (Return tt, s'))
  ∧ (∀ cb tool_name tool_input s, on_tool_use callbacks = Some cb →
       ∃ s', cb tool_name tool_input s = (Return tt, s'))
  ∧ (∀ cb result s, on_complete callbacks = Some cb →
       ∃ s', cb result s = (Return tt, s')).

(** Two frames that differ in the state of the callbacks' owner at most. *)
Definition same_but_owner (f g : Frame) : Prop :=
  self f = self g ∧ full_response f = full_response g
  ∧ yielded f = yielded g ∧ asked f = asked g.

Lemma same_but_owner_refl (f : Frame) : same_but_owner f f.
Proof. done. Qed.

Lemma emit_chunk_sim (stream : bool) (text : string) (f g : Frame) :
  returning → same_but_owner f g →
  ∃ f' g', emit_chunk callbacks stream text f = (Return tt, f')
           ∧ emit_chunk silent stream text g = (Return tt, g')
           ∧ same_but_owner f' g' ∧ owner g' = owner g.
Proof.
  intros (Htext & _ & _) (Hself & Hfull & Hyield & Hasked).
  rewrite !emit_chunk_run. unfold forwarded. cbn [on_text silent].
  destruct (on_text callbacks) as [cb|] eqn:Hcb.
  - destruct (Htext cb text (owner f) eq_refl) as [s' ->].
    eexists _, _. split_and!; [done..| |by destruct stream].
    destruct stream; repeat split; cbn; congruence.
  - eexists _, _. split_and!; [done..| |by destruct stream].
    destruct stream; repeat split; cbn; congruence.
Qed.

Lemma handle_block_sim (stream : bool) (block : Sdk.Block) (f g : Frame) :
  returning → same_but_owner f g →
  ∃ f' g', handle_block callbacks stream block f = (Return tt, f')
           ∧ handle_block silent stream block g = (Return tt, g')
           ∧ same_but_owner f' g' ∧ owner g' = owner g.
Proof.
  intros Hret Hsame. destruct block as [text|tool_name tool_input|]; simpl.
  - by apply emit_chunk_sim.
  - destruct Hret as (_ & Htool & _).
    destruct Hsame as (Hself & Hfull & Hyield & Hasked).
    rewrite !py_bind_run. cbn. unfold call_on_tool_use. cbn [on_tool_use silent].
    destruct (on_tool_use callbacks) as [cb|] eqn:Hcb.
    + unfold on_owner, Py.zoom. cbn.
      destruct (Htool cb tool_name tool_input (owner f) eq_refl) as [s' ->].
      eexists _, _. split_and!; [done..| |done].
      repeat split; cbn; congruence.
    + eexists _, _. split_and!; [done..| |done].
      repeat split; cbn; congruence.
  - exists f, g. by split_and!.
Qed.

Lemma capture_final_result_sim (stream : bool) (result : option string)
    (f g : Frame) :
  returning → same_but_owner f g →
  ∃ f' g', capture_final_result callbacks stream result f = (Return tt, f')
           ∧ capture_final_result silent stream result g = (Return tt, g')
           ∧ same_but_owner f' g' ∧ owner g' = owner g.
Proof.
  intros Hret Hsame. destruct result as [r|]; [|by exists f, g].
  simpl. destruct (PyStr.truthy r); [|by exists f, g]. simpl.
  rewrite !py_bind_run. cbn.
  destruct Hsame as (Hself & Hfull & Hyield & Hasked). rewrite Hfull.
  destruct (negb _); [|by exists f, g].
  by apply emit_chunk_sim.
Qed.

Lemma handle_message_sim (stream : bool) (message : Sdk.Message) (f g : Frame) :
  returning → same_but_owner f g →
  ∃ f' g', handle_message callbacks stream message f = (Return tt, f')
           ∧ handle_message silent stream message g = (Return tt, g')
           ∧ same_but_owner f' g' ∧ owner g' = owner g.
Proof.
  intros Hret Hsame.
  destruct message as [subtype data|content|subtype result d n|]; simpl.
  - destruct (decide _); [|by exists f, g]. destruct data; [by exists f, g|].
    destruct Hsame as (Hself & Hfull & Hyield & Hasked).
    eexists _, _. split_and!; [done..| |done].
    repeat split; cbn; congruence.
  - destruct (for_each_sim
                (λ f g, same_but_owner f g)
                (handle_block callbacks stream) (handle_block silent stream)
                content f g) as (f' & g' & Hf & Hg & Hsame'); [|done|].
    { intros block f0 g0 H0.
      destruct (handle_block_sim stream block f0 g0 Hret H0)
        as (f1 & g1 & ? & ? & ? & _). by exists f1, g1. }
    exists f', g'. split_and!; [done..|].
    clear Hf Hsame Hsame'. revert g g' Hg.
    induction content as [|block content IH]; intros g g' Hg.
    + by injection Hg as <-.
    + cbn [Py.for_each] in Hg. unfold Py.bind in Hg.
      destruct (handle_block_sim stream block g g Hret (same_but_owner_refl g))
        as (_ & g1 & _ & Hg1 & _ & Hown).
      rewrite Hg1 in Hg. by rewrite (IH _ _ Hg).
  - destruct (decide _); [by exists f, g|]. rewrite !py_bind_run.
    destruct (capture_final_result_sim stream result f g Hret Hsame)
      as (f1 & g1 & -> & -> & (Hself & Hfull & Hyield & Hasked) & Hown).
    unfold complete. do 2 (rewrite !py_bind_run; cbn).
    unfold call_on_complete. cbn [on_complete silent].
    destruct Hret as (_ & _ & Hcomplete).
    destruct (on_complete callbacks) as [cb|] eqn:Hcb.
    + unfold on_owner, Py.zoom.
      edestruct (Hcomplete cb) as [s' ->]; [done|].
      eexists _, _. split_and!; [done..| |done].
      repeat split; cbn; congruence.
    + eexists _, _. split_and!; [done..| |done].
      repeat split; cbn; congruence.
  - by exists f, g.
Qed.

Lemma deliver_sim (stream : bool) (message : Sdk.Message) (f g : Frame) :
  returning → same_but_owner f g →
  ∃ f' g', deliver suspended callbacks stream message f = (Return tt, f')
           ∧ deliver (λ s, s) silent stream message g = (Return tt, g')
           ∧ same_but_owner f' g' ∧ owner g' = owner g.
Proof.
  intros Hret Hsame. unfold deliver. rewrite !py_bind_run. cbn.
  match goal with
  | |- context [handle_message callbacks stream message ?f1] =>
      match goal with
      | |- context [handle_message silent stream message ?g1] =>
          destruct (handle_message_sim stream message f1 g1 Hret)
            as (f' & g' & ? & ? & ? & ?)
      end
  end.
  { destruct Hsame as (? & ? & ? & ?). by repeat split. }
  by exists f', g'.
Qed.

Lemma consume_sim (stream : bool) (messages : list Sdk.Message)
    (failure : option PyException) (f g : Frame) :
  returning → same_but_owner f g →
  ∃ f' g',
    consume suspended callbacks stream messages failure f
    = (match failure with Some e => Raise e | None => Return tt end, f')
    ∧ consume (λ s, s) silent stream messages failure g
      = (match failure with Some e => Raise e | None => Return tt end, g')
    ∧ same_but_owner f' g' ∧ owner g' = owner g.
Proof.
  intros Hret Hsame. rewrite !consume_for_each, !py_bind_run.
  destruct (for_each_sim
              (λ f0 g0, same_but_owner f0 g0 ∧ owner g0 = owner g)
              (deliver suspended callbacks stream)
              (deliver (λ s, s) silent stream) messages f g)
    as (f1 & g1 & -> & -> & (Hself & Hfull & Hyield & Hasked) & Hown);
    [|done|].
  { intros message f0 g0 [H0 Hown0].
    destruct (deliver_sim stream message f0 g0 Hret H0)
      as (f1 & g1 & ? & ? & ? & ?).
    exists f1, g1. split_and!; [done..|congruence]. }
  unfold finish. rewrite !py_bind_run. cbn.
  eexists _, _. split_and!; [by destruct failure..| |done].
  repeat split; cbn; congruence.
Qed.

(** [investigate] with callbacks that return, against [investigate] of an
    agent made without callbacks. *)
Lemma investigate_sim (q : string) (stream : bool) (a : t) (s : S) :
  returning →
  ∃ opts a1 f' g',
    _build_options MAX_AGENT_TURNS ROBIN_SYSTEM_PROMPT (set_tools_used [] a)
      = (Return opts, a1)
    ∧ investigate MAX_AGENT_TURNS ROBIN_SYSTEM_PROMPT query suspended
        callbacks q stream (enter a s)
      = (match Sdk.failure (query q opts) with
         | Some e => Raise e
         | None => Return tt
         end, f')
    ∧ investigate MAX_AGENT_TURNS ROBIN_SYSTEM_PROMPT query (λ s, s)
        silent q stream (enter a s)
      = (match Sdk.failure (query q opts) with
         | Some e => Raise e
         | None => Return tt
         end, g')
    ∧ same_but_owner f' g' ∧ owner g' = s.
Proof.
  intros Hret.
  destruct (investigate_unfold MAX_AGENT_TURNS ROBIN_SYSTEM_PROMPT query
              suspended callbacks q stream a s) as (opts & a1 & Hopts & ->).
  destruct (investigate_unfold MAX_AGENT_TURNS ROBIN_SYSTEM_PROMPT query
              (λ s, s) silent q stream a s) as (opts' & a1' & Hopts' & ->).
  rewrite Hopts in Hopts'. injection Hopts' as <- <-.
  exists opts, a1. rewrite !py_bind_run.
  match goal with
  | |- context [consume _ _ _ _ _ ?f0] =>
      destruct (consume_sim stream (Sdk.messages (query q opts))
                  (Sdk.failure (query q opts)) f0 f0 Hret
                  (same_but_owner_refl f0))
        as (f1 & g1 & -> & -> & (Hself & Hfull & Hyield & Hasked) & Hown)
  end.
  cbn in Hown.
  destruct (Sdk.failure (query q opts)) as [e|]; [by exists f1, g1|].
  destruct stream; cbn; [by exists f1, g1|].
  rewrite !py_bind_run. cbn. eexists _, _. split_and!; [done..| |done].
  repeat split; cbn; congruence.
Qed.

End client_more.

(** A loop whose body returns and moves a reading of the state by [step]
    moves it by the fold of [step]. *)
Lemma for_each_fold {S A B : Type} (get : S → B) (step : B → A → B)
    (body : A → Py S unit) (l : list A) (s : S) :
  (∀ x s, ∃ s', body x s = (Return tt, s') ∧ get s' = step (get s) x) →
  ∃ s', Py.for_each l body s = (Return tt, s')
        ∧ get s' = foldl step (get s) l.
Proof.
  intros Hbody. revert s. induction l as [|x l IH]; intros s.
  - by exists s.
  - destruct (Hbody x s) as (s1 & H1 & Hget1).
    destruct (IH s1) as (s2 & H2 & Hget2).
    exists s2. cbn [Py.for_each]. unfold Py.bind. rewrite H1. split; [done|].
    by rewrite Hget2, Hget1.
Qed.

Section client_streams.
Import RobinAgent.

Context {S : Type}.
Variable MAX_AGENT_TURNS : Z.
Variable ROBIN_SYSTEM_PROMPT : string.
Variable query : string → Sdk.ClaudeCodeOptions → Sdk.Stream.
Variable suspended : S → S.
Variable callbacks : Callbacks (S := S).

Notation Frame := (Frame (S := S)).
Notation silent := (silent (S := S)).

Lemma silent_returning : returning silent.
Proof. by split_and!. Qed.

(** *** The chunks a run yields *)

(** While the loop runs, a streaming generator has yielded the text it has
    accumulated, piece by piece, and a generator that does not stream has
    yielded nothing. *)
Definition chunks_ok (stream : bool) (g : Frame) : Prop :=
  if stream then Client.collect (yielded g) = full_response g
  else yielded g = [].

Lemma emit_chunk_chunks (stream : bool) (text : string) (g : Frame) :
  chunks_ok stream g →
  ∃ g', emit_chunk silent stream text g = (Return tt, g') ∧ chunks_ok stream g'.
Proof.
  intros Hg. rewrite emit_chunk_run. cbn. eexists. split; [done|].
  unfold chunks_ok in *. destruct stream; cbn; [|done].
  by rewrite collect_snoc, Hg.
Qed.

Lemma handle_block_chunks (stream : bool) (block : Sdk.Block) (g : Frame) :
  chunks_ok stream g →
  ∃ g', handle_block silent stream block g = (Return tt, g')
        ∧ chunks_ok stream g'.
Proof.
  intros Hg. destruct block as [text|tool_name tool_input|]; simpl.
  - by apply emit_chunk_chunks.
  - rewrite py_bind_run. cbn. eexists. split; [done|]. by destruct stream.
  - by exists g.
Qed.

Lemma handle_message_chunks (stream : bool) (message : Sdk.Message)
    (g : Frame) :
  chunks_ok stream g →
  ∃ g', handle_message silent stream message g = (Return tt, g')
        ∧ chunks_ok stream g'.
Proof.
  intros Hg. destruct message as [subtype data|content|subtype result d n|];
    simpl.
  - destruct (decide _); [|by exists g]. destruct data; [by exists g|].
    eexists. split; [done|]. by destruct stream.
  - apply (for_each_invariant (chunks_ok stream) (λ _, True));
      [|by apply Forall_true|done].
    intros block g0 _. apply handle_block_chunks.
  - destruct (decide _); [by exists g|]. rewrite py_bind_run.
    assert (∃ g1, capture_final_result silent stream result g
                  = (Return tt, g1) ∧ chunks_ok stream g1)
      as (g1 & -> & Hg1).
    { destruct result as [r|]; [|by exists g]. simpl.
      destruct (PyStr.truthy r); [|by exists g]. simpl.
      rewrite py_bind_run. cbn.
      destruct (negb _); [|by exists g]. by apply emit_chunk_chunks. }
    unfold complete. do 2 (rewrite py_bind_run; cbn). by exists g1.
  - by exists g.
Qed.

Lemma consume_chunks (stream : bool) (messages : list Sdk.Message)
    (failure : option PyException) (g : Frame) :
  chunks_ok stream g →
  ∃ g', consume (λ s, s) silent stream messages failure g
        = (match failure with Some e => Raise e | None => Return tt end, g')
        ∧ chunks_ok stream g'.
Proof.
  intros Hg. rewrite consume_for_each, py_bind_run.
  destruct (for_each_invariant (chunks_ok stream) (λ _, True)
              (deliver (λ s, s) silent stream) messages g)
    as (g1 & -> & Hg1); [|by apply Forall_true|done|].
  { intros message g0 _ Hg0. unfold deliver. rewrite py_bind_run. cbn.
    apply handle_message_chunks. by destruct stream. }
  unfold finish. rewrite py_bind_run. cbn.
  eexists. split; [by destruct failure|]. by destruct stream.
Qed.

(** [X8] What the generator [investigate] yields, with callbacks that
    return.  A streaming run has yielded its accumulated text piece by
    piece: the chunks put together as the callers do ([full_text += chunk])
    are the text in [full_response], also when the engine's stream then
    fails.  A run that does not stream yields exactly one chunk, the whole
    text, when the stream ends, and nothing at all when the stream fails. *)
Theorem investigate_yields_the_response (q : string) (stream : bool) (a : t)
    (s : S) :
  returning callbacks →
  let run := investigate MAX_AGENT_TURNS ROBIN_SYSTEM_PROMPT query suspended
               callbacks q stream (enter a s) in
  (stream = true →
     Client.collect (yielded run.2) = full_response run.2)
  ∧ (stream = false →
       yielded run.2 = match run.1 with
                       | Return _ => [full_response run.2]
                       | Raise _ => []
                       end)
  ∧ (run.1 = Return tt → Client.collect (yielded run.2) = full_response run.2).
Proof.
  intros Hret run.
  destruct (investigate_sim MAX_AGENT_TURNS ROBIN_SYSTEM_PROMPT query
              suspended callbacks q stream a s Hret)
    as (opts & a1 & f' & g' & Hopts & Hrun & Hbare
        & (_ & Hfull & Hyield & _) & _).
  fold run in Hrun. rewrite Hrun. cbn [fst snd]. rewrite Hfull, Hyield.
  clear Hrun Hfull Hyield f' run.
  destruct (investigate_unfold MAX_AGENT_TURNS ROBIN_SYSTEM_PROMPT query
              (λ s, s) silent q stream a s)
    as (opts' & a1' & Hopts' & Hunfold).
  rewrite Hopts in Hopts'. injection Hopts' as <- <-.
  rewrite Hunfold, py_bind_run in Hbare.
  match type of Hbare with
  | context [consume _ _ _ _ _ ?g0] =>
      destruct (consume_chunks stream (Sdk.messages (query q opts))
                  (Sdk.failure (query q opts)) g0) as (g1 & Hg1 & Hok);
        [by destruct stream|]
  end.
  rewrite Hg1 in Hbare.
  destruct (Sdk.failure (query q opts)) as [e|].
  - injection Hbare as <-. unfold chunks_ok in Hok.
    destruct stream; by split_and!.
  - destruct stream; cbn in Hbare.
    + injection Hbare as <-. by split_and!.
    + rewrite py_bind_run in Hbare. cbn in Hbare. injection Hbare as <-.
      unfold chunks_ok in Hok. cbn. rewrite Hok. by split_and!.
Qed.

(** *** What a run leaves in the agent *)

(** [{"name": tool_name, "input": tool_input}] for a tool-use block. *)
Definition signalled_by (block : Sdk.Block) : list ToolUse :=
  match block with
  | Sdk.ToolUseBlock tool_name tool_input =>
      [ {| name := tool_name; input := tool_input |} ]
  | _ => []
  end.

(** The tool uses one message of the engine signals, in order. *)
Definition tool_uses (message : Sdk.Message) : list ToolUse :=
  match message with
  | Sdk.AssistantMessage content => concat (signalled_by <$> content)
  | _ => []
  end.

(** The continuation token after a message, [sid] being the token before:
    an ['init'] message with data sets it to the data's ['session_id'],
    [None] when there is none. *)
Definition session_after_message (sid : option string)
    (message : Sdk.Message) : option string :=
  match message with
  | Sdk.SystemMessage subtype ((_ :: _) as data) =>
      if decide (subtype = "init") then
        match PyDict.get data "session_id" with
        | Some (PStr sid') => Some sid'
        | _ => None
        end
      else sid
  | _ => sid
  end.

(** What the agent records of one message. *)
Definition note_message (a : t) (message : Sdk.Message) : t :=
  set_session_id (session_after_message (session_id a) message)
    (set_tools_used (_tools_used a ++ tool_uses message) a).

Lemma set_same (a : t) :
  set_session_id (session_id a) (set_tools_used (_tools_used a) a) = a.
Proof. by destruct a. Qed.

Lemma emit_chunk_self (stream : bool) (text : string) (g : Frame) :
  ∃ g', emit_chunk silent stream text g = (Return tt, g') ∧ self g' = self g.
Proof.
  rewrite emit_chunk_run. cbn. eexists. split; [done|]. by destruct stream.
Qed.

Lemma handle_block_log (stream : bool) (block : Sdk.Block) (g : Frame) :
  ∃ g', handle_block silent stream block g = (Return tt, g')
        ∧ self g'
          = set_tools_used (_tools_used (self g) ++ signalled_by block) (self g).
Proof.
  destruct block as [text|tool_name tool_input|]; simpl.
  - rewrite emit_chunk_run. cbn. eexists. split; [done|].
    rewrite app_nil_r. destruct stream; cbn; by destruct (self g).
  - rewrite py_bind_run. cbn. by eexists.
  - exists g. rewrite app_nil_r. by destruct (self g).
Qed.

Lemma blocks_log (stream : bool) (content : list Sdk.Block) (g : Frame) :
  ∃ g', Py.for_each content (handle_block silent stream) g = (Return tt, g')
        ∧ self g'
          = set_tools_used
              (_tools_used (self g) ++ concat (signalled_by <$> content))
              (self g).
Proof.
  revert g. induction content as [|block content IH]; intros g.
  - exists g. cbn. rewrite app_nil_r. by destruct (self g).
  - destruct (handle_block_log stream block g) as (g1 & H1 & Hself1).
    destruct (IH g1) as (g2 & H2 & Hself2).
    exists g2. cbn [Py.for_each]. unfold Py.bind. rewrite H1. split; [done|].
    rewrite Hself2, Hself1. cbn. by rewrite app_assoc.
Qed.

Lemma handle_message_note (stream : bool) (message : Sdk.Message) (g : Frame) :
  ∃ g', handle_message silent stream message g = (Return tt, g')
        ∧ self g' = note_message (self g) message.
Proof.
  unfold note_message.
  destruct message as [subtype data|content|subtype result d n|]; simpl.
  - rewrite app_nil_r. destruct data as [|kv data].
    + exists g. split; [by destruct (decide _)|]. by rewrite set_same.
    + destruct (decide _).
      * eexists. split; [done|]. cbn -[PyDict.get]. by destruct (self g).
      * exists g. split; [done|]. by rewrite set_same.
  - destruct (blocks_log stream content g) as (g' & Hrun & Hself).
    exists g'. split; [done|]. rewrite Hself. by destruct (self g).
  - rewrite app_nil_r, set_same.
    destruct (decide _); [by exists g|]. rewrite py_bind_run.
    assert (∃ g1, capture_final_result silent stream result g
                  = (Return tt, g1) ∧ self g1 = self g) as (g1 & -> & Hg1).
    { destruct result as [r|]; [|by exists g]. simpl.
      destruct (PyStr.truthy r); [|by exists g]. simpl.
      rewrite py_bind_run. cbn.
      destruct (negb _); [|by exists g]. apply emit_chunk_self. }
    unfold complete. do 2 (rewrite py_bind_run; cbn). by exists g1.
  - exists g. by rewrite app_nil_r, set_same.
Qed.

Lemma consume_note (stream : bool) (messages : list Sdk.Message)
    (failure : option PyException) (g : Frame) :
  ∃ g', consume (λ s, s) silent stream messages failure g
        = (match failure with Some e => Raise e | None => Return tt end, g')
        ∧ self g' = foldl note_message (self g) messages.
Proof.
  rewrite consume_for_each, py_bind_run.
  destruct (for_each_fold self note_message
              (deliver (λ s, s) silent stream) messages g)
    as (g1 & -> & Hg1).
  { intros message g0. unfold deliver. rewrite py_bind_run. cbn.
    destruct (handle_message_note stream message (set_owner (owner g0) g0))
      as (g' & Hrun & Hself).
    by exists g'. }
  unfold finish. rewrite py_bind_run. cbn.
  eexists. split; [by destruct failure|]. done.
Qed.

Lemma build_options_run (a : t) :
  ∃ opts a1,
    _build_options MAX_AGENT_TURNS ROBIN_SYSTEM_PROMPT a = (Return opts, a1)
    ∧ _tools_used a1 = _tools_used a ∧ session_id a1 = session_id a
    ∧ model a1 = model a
    ∧ Sdk.model opts = model a
    ∧ Sdk.resume opts
      = (if truthy_opt (session_id a) then session_id a else None).
Proof.
  unfold _build_options, _get_mcp_server. rewrite !py_bind_run. simpl.
  destruct (_mcp_server a); simpl; eauto 10.
Qed.

(** The agent after a run of [investigate] with callbacks that return. *)
Lemma investigate_note (q : string) (stream : bool) (a : t) (s : S) :
  returning callbacks →
  let run := investigate MAX_AGENT_TURNS ROBIN_SYSTEM_PROMPT query suspended
               callbacks q stream (enter a s) in
  ∃ opts a1,
    _build_options MAX_AGENT_TURNS ROBIN_SYSTEM_PROMPT (set_tools_used [] a)
      = (Return opts, a1)
    ∧ run.1 = match Sdk.failure (query q opts) with
              | Some e => Raise e
              | None => Return tt
              end
    ∧ asked run.2 = [(q, opts)]
    ∧ self run.2 = foldl note_message a1 (Sdk.messages (query q opts)).
Proof.
  intros Hret run.
  destruct (investigate_sim MAX_AGENT_TURNS ROBIN_SYSTEM_PROMPT query
              suspended callbacks q stream a s Hret)
    as (opts & a1 & f' & g' & Hopts & Hrun & Hbare
        & (Hself & _ & _ & Hasked) & _).
  exists opts, a1. fold run in Hrun. rewrite Hrun. cbn [fst snd].
  rewrite Hself, Hasked. clear Hrun Hself Hasked f' run.
  destruct (investigate_unfold MAX_AGENT_TURNS ROBIN_SYSTEM_PROMPT query
              (λ s, s) silent q stream a s)
    as (opts' & a1' & Hopts' & Hunfold).
  rewrite Hopts in Hopts'. injection Hopts' as <- <-.
  rewrite Hunfold, py_bind_run in Hbare.
  match type of Hbare with
  | context [consume _ _ _ _ _ ?g0] =>
      destruct (consume_note stream (Sdk.messages (query q opts))
                  (Sdk.failure (query q opts)) g0) as (g1 & Hg1 & Hnote);
      pose proof (keeps_asked_consume (λ s, s) silent stream
                    (Sdk.messages (query q opts))
                    (Sdk.failure (query q opts)) g0) as Hkeep
  end.
  rewrite Hg1 in Hbare, Hkeep. cbn in Hnote, Hkeep.
  split_and!; [done..| |].
  - destruct (Sdk.failure (query q opts)) as [e|].
    + by injection Hbare as <-.
    + destruct stream; cbn in Hbare.
      * by injection Hbare as <-.
      * rewrite py_bind_run in Hbare. cbn in Hbare. by injection Hbare as <-.
  - destruct (Sdk.failure (query q opts)) as [e|].
    + by injection Hbare as <-.
    + destruct stream; cbn in Hbare.
      * by injection Hbare as <-.
      * rewrite py_bind_run in Hbare. cbn in Hbare. by injection Hbare as <-.
Qed.

Lemma note_message_tools (a : t) (messages : list Sdk.Message) :
  _tools_used (foldl note_message a messages)
  = _tools_used a ++ concat (tool_uses <$> messages).
Proof.
  revert a. induction messages as [|message messages IH]; intros a; cbn.
  - by rewrite app_nil_r.
  - rewrite IH. cbn. by rewrite app_assoc.
Qed.

Lemma note_message_session (a : t) (messages : list Sdk.Message) :
  session_id (foldl note_message a messages)
  = foldl session_after_message (session_id a) messages.
Proof.
  revert a. induction messages as [|message messages IH]; intros a; cbn;
    [done|]. by rewrite IH.
Qed.

Lemma note_message_model (a : t) (messages : list Sdk.Message) :
  model (foldl note_message a messages) = model a.
Proof.
  revert a. induction messages as [|message messages IH]; intros a; cbn;
    [done|]. by rewrite IH.
Qed.

(** [X9] The tool-use log after a run of [investigate] with callbacks that
    return: whatever the log held before, it now holds exactly the tool-use
    blocks of the assistant messages the engine streamed, in the order of
    the stream, also when the stream ended by raising. *)
Theorem investigate_logs_every_tool_use (q : string) (stream : bool) (a : t)
    (s : S) :
  returning callbacks →
  let run := investigate MAX_AGENT_TURNS ROBIN_SYSTEM_PROMPT query suspended
               callbacks q stream (enter a s) in
  ∃ opts,
    asked run.2 = [(q, opts)]
    ∧ _tools_used (self run.2)
      = concat (tool_uses <$> Sdk.messages (query q opts)).
Proof.
  intros Hret run.
  destruct (investigate_note q stream a s Hret)
    as (opts & a1 & Hopts & _ & Hasked & Hself).
  destruct (build_options_run (set_tools_used [] a))
    as (opts' & a1' & Hopts' & Htools & _).
  rewrite Hopts in Hopts'. injection Hopts' as <- <-.
  exists opts. split; [done|].
  fold run in Hself. by rewrite Hself, note_message_tools, Htools.
Qed.

(** [X10] Session continuity.  A run of [investigate] with callbacks that
    return asks the engine to resume the session the agent holds (no
    session, when it holds none or an empty token) and leaves the agent with
    the token of the last ['init'] message that carried data, unchanged when
    there was none; the follow-up that comes next resumes exactly that
    session, with the same model. *)
Theorem follow_up_resumes_the_session (q q' : string) (stream : bool) (a : t)
    (s : S) :
  returning callbacks →
  let run := investigate MAX_AGENT_TURNS ROBIN_SYSTEM_PROMPT query suspended
               callbacks q stream (enter a s) in
  let next := follow_up MAX_AGENT_TURNS ROBIN_SYSTEM_PROMPT query suspended
                callbacks q' (enter (self run.2) (owner run.2)) in
  ∃ opts opts',
    asked run.2 = [(q, opts)]
    ∧ Sdk.resume opts = (if truthy_opt (session_id a) then session_id a else None)
    ∧ session_id (self run.2)
      = foldl session_after_message (session_id a) (Sdk.messages (query q opts))
    ∧ asked next.2 = [(q', opts')]
    ∧ Sdk.resume opts'
      = (if truthy_opt (session_id (self run.2)) then session_id (self run.2)
         else None)
    ∧ Sdk.model opts' = Sdk.model opts.
Proof.
  intros Hret run next.
  destruct (investigate_note q stream a s Hret)
    as (opts & a1 & Hopts & _ & Hasked & Hself).
  destruct (build_options_run (set_tools_used [] a))
    as (opts0 & a0 & Hopts0 & _ & Hsid & Hmodel & Hmodel_opts & Hresume).
  rewrite Hopts in Hopts0. injection Hopts0 as <- <-.
  destruct (investigate_note q' true (self run.2) (owner run.2) Hret)
    as (opts' & a1' & Hopts' & _ & Hasked' & _).
  destruct (build_options_run (set_tools_used [] (self run.2)))
    as (opts1 & a2 & Hopts1 & _ & _ & _ & Hmodel_opts' & Hresume').
  rewrite Hopts' in Hopts1. injection Hopts1 as <- <-.
  exists opts, opts'. fold run in Hself, Hasked.
  split_and!; try done.
  - by rewrite Hself, note_message_session, Hsid.
  - rewrite Hmodel_opts', Hmodel_opts. cbn.
    by rewrite Hself, note_message_model, Hmodel.
Qed.


End client_streams.

(** ** Facts about [run_investigation] *)

Section client_completion.
Import RobinAgent.

Context {S : Type}.
Variable suspended : S → S.
Variable callbacks : Callbacks (S := S).

Notation Frame := (Frame (S := S)).
Notation silent := (silent (S := S)).

(** A message on which the loop reports completion: a [ResultMessage] whose
    subtype is not ['init']. *)
Definition completes (message : Sdk.Message) : bool :=
  match message with
  | Sdk.ResultMessage subtype _ _ _ => bool_decide (subtype ≠ "init")
  | _ => false
  end.

(** The text a block, and a message, carries. *)
Definition block_chunk (block : Sdk.Block) : list string :=
  match block with Sdk.TextBlock text => [text] | _ => [] end.

Definition text_chunks (message : Sdk.Message) : list string :=
  match message with
  | Sdk.AssistantMessage content => concat (block_chunk <$> content)
  | _ => []
  end.

(** Lines 155-158: the accumulated text after the final result text
    [result] has been looked at, [before] being the text accumulated so
    far. *)
Definition final_text (before : string) (result : option string) : string :=
  match result with
  | Some result_text =>
      if PyStr.truthy result_text && negb (PyStr.contains result_text before)
      then before +:+ result_text
      else before
  | None => before
  end.

Definition without_on_complete (cbs : Callbacks (S := S)) : Callbacks :=
  {| on_text := on_text cbs; on_tool_use := on_tool_use cbs;
     on_complete := None |}.

Lemma handle_message_plain (stream : bool) (message : Sdk.Message) (f : Frame) :
  completes message = false →
  handle_message callbacks stream message f
  = handle_message (without_on_complete callbacks) stream message f.
Proof.
  destruct message as [subtype data|content|subtype result d n|]; simpl;
    try reflexivity.
  intros Hno%bool_decide_eq_false. destruct (decide _); [done|].
  by destruct Hno.
Qed.

Lemma consume_plain (stream : bool) (messages : list Sdk.Message)
    (failure : option PyException) (f : Frame) :
  Forall (λ message, completes message = false) messages →
  consume suspended callbacks stream messages failure f
  = consume suspended (without_on_complete callbacks) stream messages failure f.
Proof.
  intros Hplain. revert f.
  induction Hplain as [|message rest Hm _ IH]; intros f; [done|].
  cbn [consume]. rewrite !py_bind_run. cbn.
  rewrite !py_bind_run, (handle_message_plain _ _ _ Hm).
  destruct (handle_message _ _ _ _) as [[[]|e] f1]; [apply IH | done].
Qed.

Lemma consume_split (stream : bool) (pre post : list Sdk.Message)
    (message : Sdk.Message) (failure : option PyException) (f : Frame) :
  consume suspended callbacks stream (pre ++ message :: post) failure f
  = (consume suspended callbacks stream pre None;;
     handle_message callbacks stream message;;
     consume suspended callbacks stream post failure) f.
Proof.
  revert f. induction pre as [|first pre IH]; intros f.
  - cbn [app consume]. by rewrite !py_bind_run.
  - cbn [app consume]. rewrite !py_bind_run. cbn. rewrite !py_bind_run.
    destruct (handle_message _ _ first _) as [[[]|e] f1]; [|done].
    by rewrite IH, !py_bind_run.
Qed.

Lemma handle_block_yield (block : Sdk.Block) (g : Frame) :
  ∃ g', handle_block silent true block g = (Return tt, g')
        ∧ yielded g' = yielded g ++ block_chunk block.
Proof.
  destruct block as [text|tool_name tool_input|]; simpl.
  - rewrite emit_chunk_run. cbn. by eexists.
  - rewrite py_bind_run. cbn. eexists. split; [done|]. by rewrite app_nil_r.
  - exists g. by rewrite app_nil_r.
Qed.

Lemma handle_message_yield (message : Sdk.Message) (g : Frame) :
  completes message = false →
  ∃ g', handle_message silent true message g = (Return tt, g')
        ∧ yielded g' = yielded g ++ text_chunks message.
Proof.
  destruct message as [subtype data|content|subtype result d n|]; simpl.
  - intros _. rewrite app_nil_r. destruct (decide _); [|by exists g].
    destruct data; [by exists g|]. by eexists.
  - intros _.
    apply (for_each_log yielded block_chunk (λ _, True));
      [|by apply Forall_true].
    intros block g0 _. apply handle_block_yield.
  - intros Hno%bool_decide_eq_false. destruct (decide _); [|by destruct Hno].
    exists g. by rewrite app_nil_r.
  - intros _. exists g. by rewrite app_nil_r.
Qed.

Lemma consume_yield (messages : list Sdk.Message)
    (failure : option PyException) (g : Frame) :
  Forall (λ message, completes message = false) messages →
  ∃ g', consume (λ s, s) silent true messages failure g
        = (match failure with Some e => Raise e | None => Return tt end, g')
        ∧ yielded g' = yielded g ++ concat (text_chunks <$> messages).
Proof.
  intros Hplain. rewrite consume_for_each, py_bind_run.
  destruct (for_each_log yielded text_chunks
              (λ message, completes message = false)
              (deliver (λ s, s) silent true) messages g)
    as (g1 & -> & Hg1); [|done|].
  { intros message g0 Hm. unfold deliver. rewrite py_bind_run. cbn.
    destruct (handle_message_yield message (set_owner (owner g0) g0) Hm)
      as (g' & Hrun & Hyield).
    by exists g'. }
  unfold finish. rewrite py_bind_run. cbn.
  eexists. split; [by destruct failure|]. done.
Qed.

(** A stretch of the stream without completion, consumed by a streaming
    run whose callbacks return. *)
Lemma consume_prefix (messages : list Sdk.Message) (f : Frame) :
  returning callbacks →
  Forall (λ message, completes message = false) messages →
  Client.collect (yielded f) = full_response f →
  ∃ f', consume suspended callbacks true messages None f = (Return tt, f')
        ∧ self f' = foldl note_message (self f) messages
        ∧ yielded f' = yielded f ++ concat (text_chunks <$> messages)
        ∧ full_response f' = Client.collect (yielded f')
        ∧ asked f' = asked f.
Proof.
  intros Hret Hplain Hchunks.
  destruct (consume_sim suspended callbacks true messages None f f Hret
              (same_but_owner_refl f))
    as (f' & g' & Hf & Hg & (Hself & Hfull & Hyield & Hasked) & _).
  destruct (consume_note true messages None f) as (g1 & Hg1 & Hnote).
  destruct (consume_yield messages None f Hplain) as (g2 & Hg2 & Hyielded).
  destruct (consume_chunks true messages None f Hchunks) as (g3 & Hg3 & Hok).
  pose proof (keeps_asked_consume (λ s, s) silent true messages None f)
    as Hkeep.
  rewrite Hg in Hg1, Hg2, Hg3, Hkeep.
  injection Hg1 as <-. injection Hg2 as <-. injection Hg3 as <-.
  cbn in Hkeep, Hok. exists f'. split; [done|].
  rewrite Hself, Hyield, Hfull, Hasked. by split_and!.
Qed.

End client_completion.

(** A run on a stream without completion never looks at [on_complete]. *)
Lemma investigate_plain {S : Type} (MAX_AGENT_TURNS : Z)
    (ROBIN_SYSTEM_PROMPT : string)
    (query : string → Sdk.ClaudeCodeOptions → Sdk.Stream) (suspended : S → S)
    (callbacks : RobinAgent.Callbacks (S := S)) (q : string) (stream : bool)
    (f : RobinAgent.Frame (S := S)) :
  (∀ opts, Forall (λ message, completes message = false)
             (Sdk.messages (query q opts))) →
  RobinAgent.investigate MAX_AGENT_TURNS ROBIN_SYSTEM_PROMPT query suspended
    callbacks q stream f
  = RobinAgent.investigate MAX_AGENT_TURNS ROBIN_SYSTEM_PROMPT query suspended
      (without_on_complete callbacks) q stream f.
Proof.
  intros Hplain. unfold RobinAgent.investigate.
  do 2 (rewrite !py_bind_run; cbn -[RobinAgent.consume RobinAgent._build_options]).
  rewrite !py_bind_run.
  destruct (RobinAgent.on_self _ _) as [[opts|e] f1]; [|done].
  rewrite !py_bind_run. cbn -[RobinAgent.consume]. rewrite !py_bind_run.
  by rewrite consume_plain by apply Hplain.
Qed.

Section run_investigation_facts.
Import RobinAgent Client.

Context {S : Type}.
Variable DEFAULT_MODEL : string.
Variable MAX_AGENT_TURNS : Z.
Variable ROBIN_SYSTEM_PROMPT : string.
Variable query : string → Sdk.ClaudeCodeOptions → Sdk.Stream.
Variable suspended : S → S.
Variable on_text : option (string → Py S unit).
Variable on_tool_use : option (string → PyDict.t pyval → Py S unit).

Notation Frame := (Frame (S := Scope (S := S))).
Notation callbacks := (agent_callbacks on_text on_tool_use).
Notation waiting := (λ c : Scope, set_caller (suspended (caller c)) c).

(** The caller's callbacks return, whatever they are given. *)
Definition caller_returning : Prop :=
  (∀ cb text s, on_text = Some cb → ∃ s', cb text s = (Return tt, s'))
  ∧ (∀ cb tool_name tool_input s, on_tool_use = Some cb →
       ∃ s', cb tool_name tool_input s = (Return tt, s')).

Lemma on_text_holder (cb : string → Py Scope unit) (text : string) (c : Scope) :
  caller_returning → RobinAgent.on_text callbacks = Some cb →
  ∃ c', cb text c = (Return tt, c') ∧ result_holder c' = result_holder c.
Proof.
  intros [Htext _]. cbn. destruct on_text as [user|]; [|done].
  intros [= <-]. unfold on_caller, Py.zoom.
  destruct (Htext user text (caller c) eq_refl) as [s' ->]. by eexists.
Qed.

Lemma on_tool_use_holder (cb : string → PyDict.t pyval → Py Scope unit)
    (tool_name : string) (tool_input : PyDict.t pyval) (c : Scope) :
  caller_returning → RobinAgent.on_tool_use callbacks = Some cb →
  ∃ c', cb tool_name tool_input c = (Return tt, c')
        ∧ result_holder c' = result_holder c.
Proof.
  intros [_ Htool]. cbn. destruct on_tool_use as [user|]; [|done].
  intros [= <-]. unfold on_caller, Py.zoom.
  destruct (Htool user tool_name tool_input (caller c) eq_refl) as [s' ->].
  by eexists.
Qed.

Lemma agent_callbacks_returning : caller_returning → returning callbacks.
Proof.
  intros Hret. split_and!.
  - intros cb text c Hcb.
    destruct (on_text_holder cb text c Hret Hcb) as (c' & ? & _). by exists c'.
  - intros cb tool_name tool_input c Hcb.
    destruct (on_tool_use_holder cb tool_name tool_input c Hret Hcb)
      as (c' & ? & _).
    by exists c'.
  - intros cb result c [= <-]. by eexists.
Qed.

(** Before the first completion nothing is captured. *)
Lemma consume_prefix_holder (messages : list Sdk.Message) (f : Frame) :
  caller_returning →
  Forall (λ message, completes message = false) messages →
  ∃ f', consume waiting callbacks true messages None f = (Return tt, f')
        ∧ result_holder (owner f') = result_holder (owner f).
Proof.
  intros Hret Hplain. rewrite consume_plain by done.
  destruct (consume_invariant waiting (without_on_complete callbacks)
              (λ c, result_holder c = result_holder (owner f)))
    with (stream := true) (messages := messages) (failure := @None PyException)
         (f := f)
    as (f' & _ & Hrun & _ & Hf'); try done.
  - intros cb text c Hcb <-. by apply on_text_holder.
  - intros cb tool_name tool_input c Hcb <-. by apply on_tool_use_holder.
  - by exists f'.
Qed.

(** After the first completion the first captured result stays first. *)
Lemma consume_holder_head (result : InvestigationResult.t)
    (messages : list Sdk.Message) (failure : option PyException) (f : Frame) :
  caller_returning →
  (∃ rest, result_holder (owner f) = result :: rest) →
  ∃ f', consume waiting callbacks true messages failure f
        = (match failure with Some e => Raise e | None => Return tt end, f')
        ∧ ∃ rest, result_holder (owner f') = result :: rest.
Proof.
  intros Hret Hf.
  destruct (consume_invariant waiting callbacks
              (λ c, ∃ rest, result_holder c = result :: rest))
    with (stream := true) (messages := messages) (failure := failure) (f := f)
    as (f' & _ & Hrun & _ & Hf'); try done.
  - intros cb text c Hcb [rest Hc].
    destruct (on_text_holder cb text c Hret Hcb) as (c' & ? & Hc').
    exists c'. split; [done|]. exists rest. congruence.
  - intros cb tool_name tool_input c Hcb [rest Hc].
    destruct (on_tool_use_holder cb tool_name tool_input c Hret Hcb)
      as (c' & ? & Hc').
    exists c'. split; [done|]. exists rest. congruence.
  - intros cb r c [= <-] [rest Hc]. eexists. split; [done|].
    cbn. rewrite Hc. by eexists.
  - by exists f'.
Qed.

(** The completion itself: the result handed to [capture_result]. *)
Lemma handle_result_holder (subtype : string) (result : option string)
    (d n : option Z) (f : Frame) :
  caller_returning → subtype ≠ "init" →
  ∃ f', handle_message callbacks true (Sdk.ResultMessage subtype result d n) f
        = (Return tt, f')
        ∧ result_holder (owner f')
          = result_holder (owner f)
              ++ [ {| InvestigationResult.text :=
                        final_text (full_response f) result;
                      InvestigationResult.session_id := session_id (self f);
                      InvestigationResult.duration_ms := d;
                      InvestigationResult.num_turns := n;
                      InvestigationResult.tools_used := _tools_used (self f) |} ].
Proof.
  intros Hret Hsub. simpl. rewrite decide_False by done. rewrite py_bind_run.
  assert (∃ f1, capture_final_result callbacks true result f = (Return tt, f1)
                ∧ self f1 = self f
                ∧ result_holder (owner f1) = result_holder (owner f)
                ∧ full_response f1 = final_text (full_response f) result)
    as (f1 & -> & Hself & Hholder & Hfull).
  { destruct result as [r|]; [|by exists f]. unfold final_text.
    destruct (decide (r = EmptyString)) as [->|Hr]; [by exists f|].
    rewrite capture_final_result_run by done.
    assert (PyStr.truthy r = true) as -> by by destruct r.
    destruct (PyStr.contains r (full_response f)); [by exists f|]. cbn [negb andb].
    rewrite emit_chunk_run. unfold forwarded.
    destruct (RobinAgent.on_text callbacks) as [cb|] eqn:Hcb.
    - destruct (on_text_holder cb r (owner f) Hret Hcb) as (c' & -> & Hc').
      by eexists.
    - by eexists. }
  unfold complete. do 2 (rewrite py_bind_run; cbn).
  eexists. split; [done|]. cbn. by rewrite Hself, Hholder, Hfull.
Qed.

(** [X12] [run_investigation] returns the first completion.  The caller's
    callbacks returning and the engine's stream ending without failure, with
    a [ResultMessage] (subtype other than ['init']) that no completion
    precedes: whatever follows it in the stream, the result returned is the
    one built at that message.  Its text is the text of the blocks before it,
    followed by the final result text unless that is empty or already occurs
    in it; its tool log is the tool uses before it; its session is the one
    announced before it; its duration and turns are those of the message. *)
Theorem run_investigation_returns_first_completion (q : string)
    (pre post : list Sdk.Message) (subtype : string) (result : option string)
    (d n : option Z) (s : S) :
  caller_returning →
  (∀ opts, query q opts
           = {| Sdk.messages :=
                  pre ++ Sdk.ResultMessage subtype result d n :: post;
                Sdk.failure := None |}) →
  Forall (λ message, completes message = false) pre →
  subtype ≠ "init" →
  ∃ s',
    run_investigation DEFAULT_MODEL MAX_AGENT_TURNS ROBIN_SYSTEM_PROMPT query
      suspended q on_text on_tool_use s
    = (Return
         {| InvestigationResult.text :=
              final_text (collect (concat (text_chunks <$> pre))) result;
            InvestigationResult.session_id :=
              foldl session_after_message None pre;
            InvestigationResult.duration_ms := d;
            InvestigationResult.num_turns := n;
            InvestigationResult.tools_used := concat (tool_uses <$> pre) |},
       s').
Proof.
  intros Hret Hquery Hplain Hsub. unfold run_investigation.
  set (agent := __init__ DEFAULT_MODEL None).
  set (scope := {| caller := s; result_holder := [] |}).
  destruct (investigate_unfold MAX_AGENT_TURNS ROBIN_SYSTEM_PROMPT query
              waiting callbacks q true agent scope)
    as (opts & a1 & Hopts & ->).
  destruct (build_options_run MAX_AGENT_TURNS ROBIN_SYSTEM_PROMPT
              (set_tools_used [] agent))
    as (opts' & a1' & Hopts' & Htools & Hsid & _).
  rewrite Hopts in Hopts'. injection Hopts' as <- <-.
  rewrite Hquery. cbn [Sdk.messages Sdk.failure negb Py.when].
  rewrite py_bind_run, consume_split, py_bind_run.
  match goal with
  | |- context [consume _ _ _ pre None ?f] => set (f0 := f)
  end.
  destruct (consume_prefix waiting callbacks pre f0
              (agent_callbacks_returning Hret) Hplain eq_refl)
    as (f1 & Hrun1 & Hself1 & Hyield1 & Hfull1 & _).
  destruct (consume_prefix_holder pre f0 Hret Hplain)
    as (f1' & Hrun1' & Hholder1).
  rewrite Hrun1 in Hrun1'. injection Hrun1' as <-. rewrite Hrun1.
  rewrite py_bind_run.
  destruct (handle_result_holder subtype result d n f1 Hret Hsub)
    as (f2 & -> & Hholder2).
  change (result_holder (owner f0)) with (@nil InvestigationResult.t)
    in Hholder1.
  change (self f0) with a1 in Hself1.
  change (yielded f0) with (@nil string) in Hyield1.
  rewrite Hholder1 in Hholder2. cbn [app] in Hholder2.
  destruct (consume_holder_head _ post None f2 Hret (ex_intro _ [] Hholder2))
    as (f3 & -> & rest & Hholder3).
  cbn. rewrite Hholder3. eexists. f_equal. f_equal.
  rewrite Hfull1, Hyield1, Hself1. cbn [app].
  by rewrite note_message_tools, note_message_session, Htools, Hsid.
Qed.

(** [X13] [run_investigation] without a completion.  The caller's
    callbacks returning and the engine's stream ending without failure and
    without a [ResultMessage] (subtype other than ['init']): the result is
    [InvestigationResult(text=full_text)], the text of the blocks of the
    stream put together; whatever the stream announced, the result has no
    session, no duration, no turns and an empty tool log. *)
Theorem run_investigation_falls_back_to_text (q : string)
    (messages : list Sdk.Message) (s : S) :
  caller_returning →
  (∀ opts, query q opts
           = {| Sdk.messages := messages; Sdk.failure := None |}) →
  Forall (λ message, completes message = false) messages →
  ∃ s',
    run_investigation DEFAULT_MODEL MAX_AGENT_TURNS ROBIN_SYSTEM_PROMPT query
      suspended q on_text on_tool_use s
    = (Return
         {| InvestigationResult.text :=
              collect (concat (text_chunks <$> messages));
            InvestigationResult.session_id := None;
            InvestigationResult.duration_ms := None;
            InvestigationResult.num_turns := None;
            InvestigationResult.tools_used := [] |},
       s').
Proof.
  intros Hret Hquery Hplain. unfold run_investigation.
  set (agent := __init__ DEFAULT_MODEL None).
  set (scope := {| caller := s; result_holder := [] |}).
  destruct (investigate_unfold MAX_AGENT_TURNS ROBIN_SYSTEM_PROMPT query
              waiting callbacks q true agent scope)
    as (opts & a1 & Hopts & ->).
  rewrite Hquery. cbn [Sdk.messages Sdk.failure negb Py.when].
  rewrite py_bind_run.
  match goal with
  | |- context [consume _ _ _ messages None ?f] => set (f0 := f)
  end.
  destruct (consume_prefix waiting callbacks messages f0
              (agent_callbacks_returning Hret) Hplain eq_refl)
    as (f1 & Hrun1 & _ & Hyield1 & _).
  destruct (consume_prefix_holder messages f0 Hret Hplain)
    as (f1' & Hrun1' & Hholder1).
  rewrite Hrun1 in Hrun1'. injection Hrun1' as <-. rewrite Hrun1.
  change (result_holder (owner f0)) with (@nil InvestigationResult.t)
    in Hholder1.
  change (yielded f0) with (@nil string) in Hyield1.
  cbn. rewrite Hholder1, Hyield1. by eexists.
Qed.

End run_investigation_facts.

(** *** The runs of the examples, with a recording text callback *)

Lemma recording_returning : returning recording.
Proof.
  split_and!; [|done..]. intros cb text seen [= <-]. by eexists.
Qed.

Lemma record_text_returning : caller_returning (Some record_text) None.
Proof.
  split; [|done]. intros cb text seen [= <-]. by eexists.
Qed.

(** The stream of [three_in_turn] cut before its completion. *)
Definition unfinished_engine (q : string) (opts : Sdk.ClaudeCodeOptions)
  : Sdk.Stream :=
  {| Sdk.messages := three_in_turn; Sdk.failure := None |}.

Lemma investigate_yields_the_response_witness :
  let run :=
    RobinAgent.investigate 30 "system prompt" turn_engine (λ seen, seen)
      recording "ransomware payments 2024" true
      (RobinAgent.enter (RobinAgent.__init__ "model" None) []) in
  Client.collect (RobinAgent.yielded run.2) = RobinAgent.full_response run.2.
Proof.
  intros run.
  exact (proj1 (investigate_yields_the_response 30 "system prompt" turn_engine
                  (λ seen, seen) recording "ransomware payments 2024" true
                  (RobinAgent.__init__ "model" None) [] recording_returning)
           eq_refl).
Defined.

Lemma investigate_logs_every_tool_use_witness :
  let run :=
    RobinAgent.investigate 30 "system prompt" turn_engine (λ seen, seen)
      recording "ransomware payments 2024" true
      (RobinAgent.enter (RobinAgent.__init__ "model" None) []) in
  RobinAgent._tools_used (RobinAgent.self run.2)
  = [ {| name := "mcp__robin__darkweb_search";
         input := [("query", PStr "ransomware")] |};
      {| name := "mcp__robin__darkweb_scrape";
         input := [("targets", PList [])] |};
      {| name := "mcp__robin__save_report";
         input := [("content", PStr "report")] |} ].
Proof.
  intros run.
  destruct (investigate_logs_every_tool_use 30 "system prompt" turn_engine
              (λ seen, seen) recording "ransomware payments 2024" true
              (RobinAgent.__init__ "model" None) [] recording_returning)
    as (opts & _ & Hlog).
  etrans; [exact Hlog | vm_compute; reflexivity].
Defined.

Lemma follow_up_resumes_the_session_witness :
  let run :=
    RobinAgent.investigate 30 "system prompt" turn_engine (λ seen, seen)
      recording "ransomware payments 2024" true
      (RobinAgent.enter (RobinAgent.__init__ "model" None) []) in
  let next :=
    RobinAgent.follow_up 30 "system prompt" turn_engine (λ seen, seen)
      recording "dig deeper"
      (RobinAgent.enter (RobinAgent.self run.2) (RobinAgent.owner run.2)) in
  ∃ opts',
    RobinAgent.asked next.2 = [("dig deeper", opts')]
    ∧ Sdk.resume opts' = Some "session-1".
Proof.
  intros run next.
  destruct (follow_up_resumes_the_session 30 "system prompt" turn_engine
              (λ seen, seen) recording "ransomware payments 2024" "dig deeper"
              true (RobinAgent.__init__ "model" None) [] recording_returning)
    as (opts & opts' & _ & _ & _ & Hasked & Hresume & _).
  exists opts'. split; [exact Hasked|].
  etrans; [exact Hresume | vm_compute; reflexivity].
Defined.


Lemma run_investigation_returns_first_completion_witness :
  ∃ seen,
    Client.run_investigation "model" 30 "system prompt" turn_engine
      (λ seen, seen) "ransomware payments 2024" (Some record_text) None []
    = (Return
         {| InvestigationResult.text := "Searching.Done.";
            InvestigationResult.session_id := Some "session-1";
            InvestigationResult.duration_ms := Some 1200%Z;
            InvestigationResult.num_turns := Some 4%Z;
            InvestigationResult.tools_used :=
              [ {| name := "mcp__robin__darkweb_search";
                   input := [("query", PStr "ransomware")] |};
                {| name := "mcp__robin__darkweb_scrape";
                   input := [("targets", PList [])] |};
                {| name := "mcp__robin__save_report";
                   input := [("content", PStr "report")] |} ] |},
       seen).
Proof.
  destruct (run_investigation_returns_first_completion "model" 30
              "system prompt" turn_engine (λ seen, seen) (Some record_text)
              None "ransomware payments 2024" three_in_turn [] "success"
              (Some "Done.") (Some 1200%Z) (Some 4%Z) []
              record_text_returning)
    as [seen Hrun].
  - done.
  - repeat constructor.
  - discriminate.
  - exists seen. etrans; [exact Hrun | vm_compute; reflexivity].
Defined.

Lemma run_investigation_falls_back_to_text_witness :
  ∃ seen,
    Client.run_investigation "model" 30 "system prompt" unfinished_engine
      (λ seen, seen) "ransomware payments 2024" (Some record_text) None []
    = (Return (InvestigationResult.of_text "Searching."), seen).
Proof.
  destruct (run_investigation_falls_back_to_text "model" 30 "system prompt"
              unfinished_engine (λ seen, seen) (Some record_text) None
              "ransomware payments 2024" three_in_turn []
              record_text_returning)
    as [seen Hrun].
  - done.
  - repeat constructor.
  - exists seen. etrans; [exact Hrun | vm_compute; reflexivity].
Defined.

(** ** Further facts about [AgentService] *)

Section service_more.
Import Events AgentService.

Variable default_model : string.
Variable DEFAULT_MODEL : string.
Variable clock : nat → Q.
Variable new_tool_id : nat → string.
Variable MAX_AGENT_TURNS : Z.
Variable ROBIN_SYSTEM_PROMPT : string.
Variable query : string → Sdk.ClaudeCodeOptions → Sdk.Stream.

Notation run_ready := (AgentService.run_ready new_tool_id).
Notation events_to_come := (all_events new_tool_id).
Notation _on_text := (AgentService._on_text).
Notation _on_tool_use := (AgentService._on_tool_use clock).
Notation _on_complete := (AgentService._on_complete clock).
Notation agent_investigate :=
  (AgentService.agent_investigate clock new_tool_id MAX_AGENT_TURNS
     ROBIN_SYSTEM_PROMPT query).
Notation investigate :=
  (AgentService.investigate clock new_tool_id MAX_AGENT_TURNS
     ROBIN_SYSTEM_PROMPT query).
Notation follow_up :=
  (AgentService.follow_up clock new_tool_id MAX_AGENT_TURNS
     ROBIN_SYSTEM_PROMPT query).

(** *** What the events say *)

(** The contents of the Text events, in order. *)
Definition texts (evs : list SSEEventData) : list string :=
  omap (λ ev, match ev with TextEventData c => Some c | _ => None end) evs.

(** The tool and input of the ToolStart events, in order. *)
Definition tool_starts (evs : list SSEEventData) : list ToolUse :=
  omap (λ ev, match ev with
              | ToolStartEventData _ tool input_data =>
                  Some {| name := tool; input := input_data |}
              | _ => None
              end) evs.

Definition is_subagent_end (ev : SSEEventData) : bool :=
  match ev with SubAgentEndEventData _ _ _ _ => true | _ => false end.

Definition no_subagent_end (evs : list SSEEventData) : Prop :=
  Forall (λ ev, is_subagent_end ev = false) evs.

(** The same, read off the tasks that are ready to run. *)
Definition task_text (c : Coroutine) : option string :=
  match c with emit_text_coro text => Some text | _ => None end.

Definition task_start (c : Coroutine) : option ToolUse :=
  match c with
  | emit_start_coro tool_name input_data =>
      Some {| name := tool_name; input := input_data |}
  | _ => None
  end.

Definition is_end (c : Coroutine) : Prop :=
  match c with emit_tool_end_coro _ _ _ => True | _ => False end.

Lemma texts_app (evs1 evs2 : list SSEEventData) :
  texts (evs1 ++ evs2) = texts evs1 ++ texts evs2.
Proof. apply omap_app. Qed.

Lemma tool_starts_app (evs1 evs2 : list SSEEventData) :
  tool_starts (evs1 ++ evs2) = tool_starts evs1 ++ tool_starts evs2.
Proof. apply omap_app. Qed.

Lemma announced_quiet (agent_types : list pyval) :
  texts (announced agent_types) = []
  ∧ tool_starts (announced agent_types) = []
  ∧ no_subagent_end (announced agent_types).
Proof.
  induction agent_types as [|v rest (IH1 & IH2 & IH3)];
    [split_and!; [done..|constructor]|].
  destruct v as [|b|z|s|items|entries].
  4: { cbn. split_and!; [done..|]. by constructor. }
  all: split_and!; [done..|constructor].
Qed.

Lemma start_events_quiet (tool_id tool_name : string)
    (input_data : PyDict.t pyval) :
  texts (start_events tool_id tool_name input_data) = []
  ∧ tool_starts (start_events tool_id tool_name input_data)
    = [ {| name := tool_name; input := input_data |} ]
  ∧ no_subagent_end (start_events tool_id tool_name input_data).
Proof.
  unfold start_events.
  assert (∃ rest, (if bool_decide (tool_name = "mcp__robin__delegate_analysis")
                   then match py_iter (default (PList [])
                                         (PyDict.get input_data "agent_types")) with
                        | Some agent_types => announced agent_types
                        | None => []
                        end
                   else []) = rest
                  ∧ texts rest = [] ∧ tool_starts rest = []
                  ∧ no_subagent_end rest) as (rest & -> & H1 & H2 & H3).
  { destruct (bool_decide _);
      [|eexists; split_and!; [done..|constructor]].
    destruct (py_iter _) as [agent_types|];
      [|eexists; split_and!; [done..|constructor]].
    eexists. split; [done|]. apply announced_quiet. }
  cbn. fold (texts rest). fold (tool_starts rest). rewrite H1, H2.
  split_and!; [done..|]. by constructor.
Qed.

Lemma tasks_events_read (k : nat) (cs : list Coroutine) :
  texts (tasks_events new_tool_id k cs) = omap task_text cs
  ∧ tool_starts (tasks_events new_tool_id k cs) = omap task_start cs
  ∧ no_subagent_end (tasks_events new_tool_id k cs).
Proof.
  revert k. induction cs as [|c cs IH]; intros k;
    [split_and!; [done..|constructor]|].
  cbn [tasks_events].
  destruct (IH (if is_start c then S k else k)) as (IH1 & IH2 & IH3).
  rewrite texts_app, tool_starts_app, IH1, IH2.
  destruct c as [text|tool_id tool duration|tool_name input_data|text sid d n];
    cbn [coroutine_events].
  - split_and!; [done..|]. by constructor.
  - split_and!; [done..|]. by constructor.
  - destruct (start_events_quiet (new_tool_id k) tool_name input_data)
      as (-> & -> & H3).
    split_and!; [done..|]. by apply Forall_app.
  - split_and!; [done..|]. by constructor.
Qed.

Lemma ends_read (ends : list Coroutine) :
  Forall is_end ends → omap task_text ends = [] ∧ omap task_start ends = [].
Proof.
  induction 1 as [|c ends Hc _ [IH1 IH2]]; [done|].
  by destruct c.
Qed.

(** *** What the callbacks do, in one line each *)

Lemma on_text_effect (text : string) (w : World) :
  ∃ w', _on_text text w = (Return tt, w')
        ∧ stream w' = stream w
        ∧ ready w' = ready w ++ [emit_text_coro text]
        ∧ _full_response (service w') = _full_response (service w) +:+ text
        ∧ _tools_used (service w') = _tools_used (service w)
        ∧ _subagent_results (service w') = _subagent_results (service w)
        ∧ _result (service w') = _result (service w).
Proof. rewrite on_text_run. eexists. by split_and!. Qed.

Lemma on_tool_use_effect (tool_name : string) (input_data : PyDict.t pyval)
    (w : World) :
  Good w →
  ∃ w' ends,
    _on_tool_use tool_name input_data w = (Return tt, w')
    ∧ stream w' = stream w
    ∧ ready w' = ready w ++ ends ++ [emit_start_coro tool_name input_data]
    ∧ Forall is_end ends
    ∧ _full_response (service w') = _full_response (service w)
    ∧ _tools_used (service w')
      = _tools_used (service w) ++ [ {| name := tool_name; input := input_data |} ]
    ∧ _subagent_results (service w') = _subagent_results (service w)
    ∧ _result (service w') = _result (service w).
Proof.
  intros [Htools _]. rewrite on_tool_use_run.
  destruct (_current_tool_id (service w)) as [tool_id|] eqn:Hcur;
    [|exists (begin_tool clock tool_name input_data w), []; by split_and!].
  destruct (PyStr.truthy tool_id) eqn:Htruthy;
    [|exists (begin_tool clock tool_name input_data w), []; by split_and!].
  destruct (last (_tools_used (service w))) as [u|] eqn:Hlast.
  - eexists _, [emit_tool_end_coro tool_id (name u) _].
    split_and!; try done.
    + cbn. by rewrite <-app_assoc.
    + by repeat constructor.
  - apply last_None in Hlast. destruct Htools; [|done]. by left.
Qed.

Lemma on_complete_effect (result : InvestigationResult.t) (w : World) :
  ∃ w' ends,
    _on_complete result w = (Return tt, w')
    ∧ stream w' = stream w
    ∧ ready w'
      = ready w ++ ends
          ++ [emit_complete_coro (InvestigationResult.text result)
                (InvestigationResult.session_id result)
                (InvestigationResult.duration_ms result)
                (InvestigationResult.num_turns result)]
    ∧ Forall is_end ends
    ∧ _full_response (service w') = _full_response (service w)
    ∧ _tools_used (service w') = _tools_used (service w)
    ∧ _subagent_results (service w') = _subagent_results (service w)
    ∧ _result (service w') = Some result.
Proof.
  rewrite on_complete_run. cbn zeta.
  destruct (_current_tool_id (service w)) as [tool_id|];
    [destruct (PyStr.truthy tool_id)|].
  - eexists _, [emit_tool_end_coro tool_id _ _]. split_and!; try done.
    + cbn. by rewrite <-app_assoc.
    + by repeat constructor.
  - eexists _, []. by split_and!.
  - eexists _, []. by split_and!.
Qed.

Lemma run_ready_service (w : World) :
  _full_response (service (run_ready w)) = _full_response (service w)
  ∧ _subagent_results (service (run_ready w)) = _subagent_results (service w)
  ∧ _result (service (run_ready w)) = _result (service w).
Proof.
  rewrite run_ready_foldl.
  change (service w) with (service (set_ready [] w)).
  generalize (set_ready [] w). induction (ready w) as [|c l IH]; intros w0;
    [done|].
  cbn [foldl]. destruct (IH (after_coroutine new_tool_id c w0)) as (-> & -> & ->).
  unfold after_coroutine. cbn. by destruct (is_start c).
Qed.

(** What a callback adds to the events to come. *)
Lemma all_events_added (w w' : World) (cs : list Coroutine) :
  stream w' = stream w → ready w' = ready w ++ cs →
  ∃ added, events_to_come w' = events_to_come w ++ added
           ∧ texts added = omap task_text cs
           ∧ tool_starts added = omap task_start cs
           ∧ no_subagent_end added.
Proof.
  intros Hstream Hready. eexists. split.
  - by apply all_events_push.
  - apply tasks_events_read.
Qed.

(** *** Invariants of a run *)

Section run_invariant.

(** [I] is kept, in a good world, by the three callbacks and by the tasks
    that run while the generator waits. *)
Variable I : World → Prop.

Hypothesis on_text_keeps : ∀ text w, Good w → I w → I (_on_text text w).2.
Hypothesis on_tool_use_keeps : ∀ tool_name input_data w,
  Good w → I w → I (_on_tool_use tool_name input_data w).2.
Hypothesis on_complete_keeps : ∀ result w,
  Good w → I w → I (_on_complete result w).2.
Hypothesis run_ready_keeps : ∀ w, Good w → I w → I (run_ready w).

Lemma agent_investigate_keeps (q : string) (s : Session) :
  Good (world s) → I (world s) →
  ∃ s' opts,
    agent_investigate q s
    = (match Sdk.failure (query q opts) with
       | Some e => Raise e
       | None => Return tt
       end, s')
    ∧ Good (world s') ∧ I (world s') ∧ ready (world s') = [].
Proof.
  intros HG HI. unfold AgentService.agent_investigate, drain.
  destruct (investigate_invariant MAX_AGENT_TURNS ROBIN_SYSTEM_PROMPT query
              run_ready (callbacks clock) (λ w, Good w ∧ I w))
    with (q := q) (stream := true) (a := _agent s) (s := world s)
    as (f' & s0 & opts & a1 & _ & -> & Hown & [HG' HI'] & _); try done.
  - intros cb text w [= <-] [Hw1 Hw2].
    destruct (on_text_good text w Hw1) as (w' & Hrun & Hw').
    exists w'. split; [done|]. split; [done|].
    specialize (on_text_keeps text w Hw1 Hw2). by rewrite Hrun in on_text_keeps.
  - intros cb tool_name tool_input w [= <-] [Hw1 Hw2].
    destruct (on_tool_use_good clock tool_name tool_input w Hw1)
      as (w' & Hrun & Hw').
    exists w'. split; [done|]. split; [done|].
    specialize (on_tool_use_keeps tool_name tool_input w Hw1 Hw2).
    by rewrite Hrun in on_tool_use_keeps.
  - intros cb result w [= <-] [Hw1 Hw2].
    destruct (on_complete_good clock result w Hw1) as (w' & Hrun & Hw').
    exists w'. split; [done|]. split; [done|].
    specialize (on_complete_keeps result w Hw1 Hw2).
    by rewrite Hrun in on_complete_keeps.
  - intros w [Hw1 Hw2]. split; [by apply run_ready_good | by apply run_ready_keeps].
  - eexists _, opts. split_and!; cbn; [done..|].
    rewrite Hown. apply run_ready_idle.
Qed.

(** The world after the Error event of lines 126-128. *)
Definition with_error (e : PyException) (w : World) : World :=
  set_stream
    {| SSEStreamManager.events :=
         events_of w ++ [ErrorEventData (exc_str e) INVESTIGATION_ERROR];
       SSEStreamManager.issued := SSEStreamManager.issued (stream w) |} w.

(** What the service answers when the generator has ended. *)
Definition answer (failure : option PyException) (s : Session)
  : PyResult InvestigationResult.t * Session :=
  match failure with
  | None =>
      (Return (default (InvestigationResult.of_text
                          (_full_response (service (world s))))
                 (_result (service (world s)))), s)
  | Some e => (Raise e, set_world (with_error e (world s)) s)
  end.

Lemma investigate_keeps (q : string) (s : Session) :
  Good (world s) → I (world s) →
  ∃ s' opts,
    investigate q s = answer (Sdk.failure (query q opts)) s'
    ∧ Good (world s') ∧ I (world s') ∧ ready (world s') = [].
Proof.
  intros HG HI.
  destruct (agent_investigate_keeps q s HG HI)
    as (s' & opts & Hrun & HG' & HI' & Hidle).
  exists s', opts. split; [|done].
  unfold AgentService.investigate, Py.try_except. rewrite py_bind_run, Hrun.
  by destruct (Sdk.failure (query q opts)).
Qed.

(** [follow_up] first empties the service's text (line 140). *)
Definition emptied (w : World) : World :=
  set_service (set_full_response EmptyString (service w)) w.

Lemma follow_up_keeps (q : string) (s : Session) :
  Good (world s) → I (emptied (world s)) →
  ∃ s' opts,
    follow_up q s = answer (Sdk.failure (query q opts)) s'
    ∧ Good (world s') ∧ I (world s') ∧ ready (world s') = [].
Proof.
  intros HG HI.
  destruct (agent_investigate_keeps q (set_world (emptied (world s)) s))
    as (s' & opts & Hrun & HG' & HI' & Hidle); [done..|].
  exists s', opts. split; [|done].
  unfold AgentService.follow_up. rewrite py_bind_run. cbn.
  unfold Py.try_except. rewrite py_bind_run.
  change (agent_follow_up clock new_tool_id MAX_AGENT_TURNS
            ROBIN_SYSTEM_PROMPT query q)
    with (agent_investigate q).
  unfold emptied in Hrun. rewrite Hrun.
  by destruct (Sdk.failure (query q opts)).
Qed.

End run_invariant.

Lemma idle_all_events (w : World) :
  ready w = [] → events_to_come w = events_of w.
Proof.
  intros Hidle. unfold all_events. rewrite Hidle. cbn. by rewrite app_nil_r.
Qed.

Lemma with_error_events (e : PyException) (w : World) :
  events_of (with_error e w)
  = events_of w ++ [ErrorEventData (exc_str e) INVESTIGATION_ERROR].
Proof. done. Qed.

(** The events and the service of the session [answer] leaves. *)
Lemma answer_world (failure : option PyException) (s : Session) :
  ∃ tail,
    events_of (world (answer failure s).2) = events_of (world s) ++ tail
    ∧ texts tail = [] ∧ tool_starts tail = [] ∧ no_subagent_end tail
    ∧ service (world (answer failure s).2) = service (world s).
Proof.
  destruct failure as [e|]; cbn.
  - eexists. split; [done|]. split_and!; [done..| |done].
    by repeat constructor.
  - exists []. rewrite app_nil_r. split_and!; [done..|constructor|done].
Qed.

(** *** The text of the service and the Text events *)

Definition text_kept (base : list SSEEventData) (text0 : string) (w : World)
  : Prop :=
  ∃ new, events_to_come w = base ++ new
         ∧ _full_response (service w)
           = foldl (λ full chunk, full +:+ chunk) text0 (texts new).

Lemma text_kept_step (base : list SSEEventData) (text0 : string)
    (w w' : World) (cs : list Coroutine) :
  stream w' = stream w → ready w' = ready w ++ cs →
  _full_response (service w')
  = foldl (λ full chunk, full +:+ chunk) (_full_response (service w))
      (omap task_text cs) →
  text_kept base text0 w → text_kept base text0 w'.
Proof.
  intros Hstream Hready Hfull (new & Hall & Hnew).
  destruct (all_events_added w w' cs Hstream Hready)
    as (added & Hadded & Htexts & _).
  exists (new ++ added). split; [by rewrite Hadded, Hall, app_assoc|].
  by rewrite texts_app, foldl_app, <-Hnew, Htexts.
Qed.

Lemma text_kept_on_text (base : list SSEEventData) (text0 text : string)
    (w : World) :
  text_kept base text0 w → text_kept base text0 (_on_text text w).2.
Proof.
  destruct (on_text_effect text w) as (w' & -> & Hs & Hr & Hfull & _).
  cbn [snd]. by apply text_kept_step with (cs := [emit_text_coro text]).
Qed.

Lemma text_kept_on_tool_use (base : list SSEEventData) (text0 : string)
    (tool_name : string) (input_data : PyDict.t pyval) (w : World) :
  Good w → text_kept base text0 w →
  text_kept base text0 (_on_tool_use tool_name input_data w).2.
Proof.
  intros HG.
  destruct (on_tool_use_effect tool_name input_data w HG)
    as (w' & ends & -> & Hs & Hr & Hends & Hfull & _).
  cbn [snd].
  apply text_kept_step with (cs := ends ++ [emit_start_coro tool_name input_data]);
    [done..|].
  rewrite omap_app, (proj1 (ends_read ends Hends)). by rewrite Hfull.
Qed.

Lemma text_kept_on_complete (base : list SSEEventData) (text0 : string)
    (result : InvestigationResult.t) (w : World) :
  text_kept base text0 w → text_kept base text0 (_on_complete result w).2.
Proof.
  destruct (on_complete_effect result w)
    as (w' & ends & -> & Hs & Hr & Hends & Hfull & _).
  cbn [snd]. eapply text_kept_step; [done..|].
  rewrite omap_app, (proj1 (ends_read ends Hends)). by rewrite Hfull.
Qed.

Lemma text_kept_run_ready (base : list SSEEventData) (text0 : string)
    (w : World) :
  text_kept base text0 w → text_kept base text0 (run_ready w).
Proof.
  intros (new & Hall & Hnew). exists new.
  destruct (run_ready_all_events new_tool_id w) as (_ & -> & _).
  destruct (run_ready_service w) as (-> & _). by split.
Qed.


(** *** The tool log of the service and the ToolStart events *)

Definition starts_kept (w : World) : Prop :=
  tool_starts (events_to_come w) = _tools_used (service w).

Lemma starts_kept_step (w w' : World) (cs : list Coroutine) :
  stream w' = stream w → ready w' = ready w ++ cs →
  _tools_used (service w') = _tools_used (service w) ++ omap task_start cs →
  starts_kept w → starts_kept w'.
Proof.
  unfold starts_kept. intros Hstream Hready Htools Hw.
  destruct (all_events_added w w' cs Hstream Hready)
    as (added & -> & _ & Hstarts & _).
  by rewrite tool_starts_app, Hw, Hstarts, Htools.
Qed.

Lemma starts_kept_on_text (text : string) (w : World) :
  starts_kept w → starts_kept (_on_text text w).2.
Proof.
  destruct (on_text_effect text w) as (w' & -> & Hs & Hr & _ & Htools & _).
  cbn [snd]. apply starts_kept_step with (cs := [emit_text_coro text]); [done..|].
  by rewrite Htools, app_nil_r.
Qed.

Lemma starts_kept_on_tool_use (tool_name : string)
    (input_data : PyDict.t pyval) (w : World) :
  Good w → starts_kept w →
  starts_kept (_on_tool_use tool_name input_data w).2.
Proof.
  intros HG.
  destruct (on_tool_use_effect tool_name input_data w HG)
    as (w' & ends & -> & Hs & Hr & Hends & _ & Htools & _).
  cbn [snd]. apply starts_kept_step
    with (cs := ends ++ [emit_start_coro tool_name input_data]); [done..|].
  by rewrite omap_app, (proj2 (ends_read ends Hends)), Htools.
Qed.

Lemma starts_kept_on_complete (result : InvestigationResult.t) (w : World) :
  starts_kept w → starts_kept (_on_complete result w).2.
Proof.
  destruct (on_complete_effect result w)
    as (w' & ends & -> & Hs & Hr & Hends & _ & Htools & _).
  cbn [snd]. eapply starts_kept_step; [done..|].
  by rewrite omap_app, (proj2 (ends_read ends Hends)), Htools, app_nil_r.
Qed.

Lemma starts_kept_run_ready (w : World) :
  starts_kept w → starts_kept (run_ready w).
Proof.
  unfold starts_kept. intros Hw.
  destruct (run_ready_all_events new_tool_id w) as (_ & -> & _).
  destruct (run_ready_closed new_tool_id w) as (_ & _ & _ & -> & _). done.
Qed.


(** *** Sub-agent ends *)

Definition subagents_kept (w : World) : Prop :=
  no_subagent_end (events_to_come w) ∧ _subagent_results (service w) = [].

Lemma subagents_kept_step (w w' : World) (cs : list Coroutine) :
  stream w' = stream w → ready w' = ready w ++ cs →
  _subagent_results (service w') = _subagent_results (service w) →
  subagents_kept w → subagents_kept w'.
Proof.
  intros Hstream Hready Hsub [Hev Hres]. unfold subagents_kept.
  destruct (all_events_added w w' cs Hstream Hready)
    as (added & -> & _ & _ & Hadded).
  split; [by apply Forall_app | by rewrite Hsub].
Qed.

(** [X16] The service announces that sub-agents start and never that they
    end.  For a session at rest with no SubAgentEnd event and an empty
    [_subagent_results]: after [investigate], and after [follow_up], whether
    the engine's stream ends or fails and whatever it streams, there is
    still no SubAgentEnd event and [_subagent_results] is still empty; a
    session just started is such a session. *)
Theorem service_never_ends_a_subagent (q : string) (s : Session)
    (investigation_id : string) (model : option string) :
  Good (world s) → ready (world s) = [] →
  no_subagent_end (events_of (world s)) →
  _subagent_results (service (world s)) = [] →
  let run := investigate q s in
  let again := follow_up q s in
  let fresh := AgentService.start default_model DEFAULT_MODEL investigation_id
                 model in
  (no_subagent_end (events_of (world run.2))
   ∧ _subagent_results (service (world run.2)) = [])
  ∧ (no_subagent_end (events_of (world again.2))
     ∧ _subagent_results (service (world again.2)) = [])
  ∧ (no_subagent_end (events_of (world fresh))
     ∧ _subagent_results (service (world fresh)) = []).
Proof.
  intros HG Hidle Hev Hres run again fresh.
  assert (∀ text w, Good w → subagents_kept w →
                    subagents_kept (_on_text text w).2) as Htext.
  { intros text w _.
    destruct (on_text_effect text w) as (w' & -> & Hs & Hr & _ & _ & Hsub & _).
    cbn [snd]. by apply subagents_kept_step with (cs := [emit_text_coro text]). }
  assert (∀ tool_name input_data w, Good w → subagents_kept w →
            subagents_kept (_on_tool_use tool_name input_data w).2) as Htool.
  { intros tool_name input_data w Hw.
    destruct (on_tool_use_effect tool_name input_data w Hw)
      as (w' & ends & -> & Hs & Hr & _ & _ & _ & Hsub & _).
    cbn [snd]. by eapply subagents_kept_step. }
  assert (∀ result w, Good w → subagents_kept w →
                      subagents_kept (_on_complete result w).2) as Hcomplete.
  { intros result w _.
    destruct (on_complete_effect result w)
      as (w' & ends & -> & Hs & Hr & _ & _ & _ & Hsub & _).
    cbn [snd]. by eapply subagents_kept_step. }
  assert (∀ w, Good w → subagents_kept w → subagents_kept (run_ready w))
    as Hready.
  { intros w _ [Hw1 Hw2]. split.
    - by destruct (run_ready_all_events new_tool_id w) as (_ & -> & _).
    - by destruct (run_ready_service w) as (_ & -> & _). }
  assert (subagents_kept (world s)) as Hs.
  { split; [by rewrite idle_all_events | done]. }
  split; [|split; [|split; [constructor|done]]].
  - destruct (investigate_keeps subagents_kept Htext Htool Hcomplete Hready
                q s HG Hs)
      as (s' & opts & Hrun & _ & [Hev' Hres'] & Hidle').
    rewrite idle_all_events in Hev' by done.
    destruct (answer_world (Sdk.failure (query q opts)) s')
      as (tail & Htail & _ & _ & Hnone & Hsvc).
    fold run in Hrun. rewrite Hrun, Htail, Hsvc.
    split; [by apply Forall_app | done].
  - destruct (follow_up_keeps subagents_kept Htext Htool Hcomplete Hready
                q s HG)
      as (s' & opts & Hrun & _ & [Hev' Hres'] & Hidle'); [done|].
    rewrite idle_all_events in Hev' by done.
    destruct (answer_world (Sdk.failure (query q opts)) s')
      as (tail & Htail & _ & _ & Hnone & Hsvc).
    fold again in Hrun. rewrite Hrun, Htail, Hsvc.
    split; [by apply Forall_app | done].
Qed.

(** *** The result the service holds and the Complete event *)

(** The Complete event of a result (lines 100-107). *)
Definition complete_event (r : InvestigationResult.t) : SSEEventData :=
  CompleteEventData (InvestigationResult.text r)
    (InvestigationResult.session_id r) (InvestigationResult.duration_ms r)
    (InvestigationResult.num_turns r).

Definition result_kept (w : World) : Prop :=
  ∀ r, _result (service w) = Some r → complete_event r ∈ events_to_come w.

Lemma result_kept_step (w w' : World) (cs : list Coroutine) :
  stream w' = stream w → ready w' = ready w ++ cs →
  _result (service w') = _result (service w) →
  result_kept w → result_kept w'.
Proof.
  intros Hstream Hready Hres Hw r Hr.
  destruct (all_events_added w w' cs Hstream Hready) as (added & -> & _).
  apply elem_of_app. left. apply Hw. by rewrite <-Hres.
Qed.

Lemma result_kept_on_complete (result : InvestigationResult.t) (w : World) :
  result_kept (_on_complete result w).2.
Proof.
  destruct (on_complete_effect result w)
    as (w' & ends & -> & Hs & Hr & _ & _ & _ & _ & Hres).
  cbn [snd]. intros r Hr'. rewrite Hres in Hr'. injection Hr' as <-.
  rewrite (all_events_push new_tool_id w w' _ Hs Hr), tasks_events_app.
  apply elem_of_app. right. apply elem_of_app. right. apply list_elem_of_here.
Qed.


(** *** A run without completion *)

(** [X18] A run whose stream carries no completion answers with the
    result the service already held.  The stream of the engine ending without
    failure and without a [ResultMessage] (subtype other than ['init']), in a
    session where no open tool lacks its log entry: [investigate] and
    [follow_up] leave [_result] as it was; so after a completed run they
    return that earlier run's result once more, and only a service that
    holds no result answers with the text it accumulated. *)
Theorem run_without_completion_answers_held_result (q : string) (s : Session) :
  Good (world s) →
  (∀ opts, Sdk.failure (query q opts) = None) →
  (∀ opts, Forall (λ message, completes message = false)
             (Sdk.messages (query q opts))) →
  let held := _result (service (world s)) in
  let answers_held (run : PyResult InvestigationResult.t * Session) :=
    _result (service (world run.2)) = held
    ∧ run.1 = Return (default (InvestigationResult.of_text
                                 (_full_response (service (world run.2))))
                        held) in
  answers_held (investigate q s) ∧ answers_held (follow_up q s).
Proof.
  intros HG Hfail Hplain held answers_held.
  assert (∀ s0, Good (world s0) → _result (service (world s0)) = held →
            ∃ s', agent_investigate q s0 = (Return tt, s')
                  ∧ _result (service (world s')) = held) as Hagent.
  { intros s0 HG0 Hheld. unfold AgentService.agent_investigate, drain.
    rewrite investigate_plain by done.
    destruct (investigate_invariant MAX_AGENT_TURNS ROBIN_SYSTEM_PROMPT query
                run_ready (without_on_complete (callbacks clock))
                (λ w, Good w ∧ _result (service w) = held))
      with (q := q) (stream := true) (a := _agent s0) (s := world s0)
      as (f' & w0 & opts & a1 & _ & -> & _ & [_ Hheld'] & _); try done.
    - intros cb text w [= <-] [Hw1 Hw2].
      destruct (on_text_good text w Hw1) as (w' & Hrun & Hw').
      exists w'. split; [done|]. split; [done|].
      destruct (on_text_effect text w) as (w'' & Hrun' & _ & _ & _ & _ & _ & Hres).
      rewrite Hrun in Hrun'. injection Hrun' as <-. by rewrite Hres.
    - intros cb tool_name tool_input w [= <-] [Hw1 Hw2].
      destruct (on_tool_use_good clock tool_name tool_input w Hw1)
        as (w' & Hrun & Hw').
      exists w'. split; [done|]. split; [done|].
      destruct (on_tool_use_effect tool_name tool_input w Hw1)
        as (w'' & ends & Hrun' & _ & _ & _ & _ & _ & _ & Hres).
      rewrite Hrun in Hrun'. injection Hrun' as <-. by rewrite Hres.
    - intros w [Hw1 Hw2]. split; [by apply run_ready_good|].
      destruct (run_ready_service w) as (_ & _ & Hres). by rewrite Hres.
    - rewrite Hfail. by eexists. }
  split.
  - destruct (Hagent s HG eq_refl) as (s' & Hrun & Hheld).
    assert (investigate q s = answer None s') as ->.
    { unfold AgentService.investigate, Py.try_except.
      by rewrite py_bind_run, Hrun. }
    unfold answers_held, answer. cbn. by rewrite Hheld.
  - destruct (Hagent (set_world (emptied (world s)) s) HG eq_refl)
      as (s' & Hrun & Hheld).
    assert (follow_up q s = answer None s') as ->.
    { unfold AgentService.follow_up. rewrite py_bind_run. cbn.
      unfold Py.try_except. rewrite py_bind_run.
      change (agent_follow_up clock new_tool_id MAX_AGENT_TURNS
                ROBIN_SYSTEM_PROMPT query q)
        with (agent_investigate q).
      unfold emptied in Hrun. by rewrite Hrun. }
    unfold answers_held, answer. cbn. by rewrite Hheld.
Qed.

End service_more.

Section service_callbacks.
Import Events AgentService.

Variable clock : nat → Q.
Variable new_tool_id : nat → string.

Notation run_ready := (AgentService.run_ready new_tool_id).
Notation _on_tool_use := (AgentService._on_tool_use clock).
Notation _on_complete := (AgentService._on_complete clock).
Notation emit_start := (AgentService.emit_start new_tool_id).

Lemma announced_strings (kinds : list string) :
  announced (PStr <$> kinds) = SubAgentStartEventData <$> kinds.
Proof. induction kinds as [|kind kinds IH]; [done|]. cbn. by rewrite IH. Qed.

Lemma announced_map {A : Type} (f : A → string) (l : list A) :
  announced ((λ x, PStr (f x)) <$> l)
  = (λ x, SubAgentStartEventData (f x)) <$> l.
Proof. induction l as [|x l IH]; [done|]. cbn. by rewrite IH. Qed.

(** [X19] What [emit_start] announces.  It emits the ToolStart event with
    a newly generated id and records that id as the open tool.  For any tool
    but ["mcp__robin__delegate_analysis"], and for a delegation without
    ['agent_types'], that is all.  For a delegation whose ['agent_types'] is
    a list of names, one SubAgentStart event per name follows, in the order
    given; when ['agent_types'] is a single name instead of a list, one
    SubAgentStart event per character of the name follows. *)
Theorem emit_start_announces_each_kind (tool_name : string)
    (input_data : PyDict.t pyval) (w : World) :
  let w' := (emit_start tool_name input_data w).2 in
  let tool_id := new_tool_id (SSEStreamManager.issued (stream w)) in
  let started := ToolStartEventData tool_id tool_name input_data in
  _current_tool_id (service w') = Some tool_id
  ∧ SSEStreamManager.issued (stream w') = S (SSEStreamManager.issued (stream w))
  ∧ ready w' = ready w
  ∧ (tool_name ≠ "mcp__robin__delegate_analysis" →
       events_of w' = events_of w ++ [started])
  ∧ (tool_name = "mcp__robin__delegate_analysis" →
       (PyDict.get input_data "agent_types" = None →
          events_of w' = events_of w ++ [started])
       ∧ (∀ kinds,
            PyDict.get input_data "agent_types" = Some (PList (PStr <$> kinds)) →
            events_of w'
            = events_of w ++ started :: (SubAgentStartEventData <$> kinds))
       ∧ (∀ kind,
            PyDict.get input_data "agent_types" = Some (PStr kind) →
            events_of w'
            = events_of w
                ++ started
                   :: ((λ c, SubAgentStartEventData (String c EmptyString))
                         <$> list_ascii_of_string kind))).
Proof.
  intros w' tool_id started.
  assert (w' = after_coroutine new_tool_id
                 (emit_start_coro tool_name input_data) w) as ->.
  { exact (run_coroutine_after new_tool_id
             (emit_start_coro tool_name input_data) w). }
  unfold after_coroutine, events_of. cbn -[py_iter bool_decide].
  fold tool_id. unfold start_events. fold started.
  split_and!; [done..| |].
  - intros Hname. by rewrite bool_decide_eq_false_2.
  - intros Hname. rewrite bool_decide_eq_true_2 by done. split_and!.
    + by intros ->.
    + intros kinds ->. cbn. by rewrite announced_strings.
    + intros kind ->.
      by rewrite <-(announced_map (λ c, String c EmptyString)).
Qed.

(** [X20] A completion ends the open tool but leaves it recorded as open.
    In a world at rest whose open tool has a non-empty id and its entry at
    the end of the log: once [_on_complete] and the tasks it created have
    run, [_current_tool_id] still holds that id; so the next tool-use signal
    ends the same invocation a second time, with a later clock reading,
    before the new ToolStart. *)
Theorem completion_leaves_the_tool_open (result : InvestigationResult.t)
    (tool_name : string) (input_data : PyDict.t pyval) (tool_id : string)
    (u : ToolUse) (w : World) :
  ready w = [] →
  _current_tool_id (service w) = Some tool_id →
  PyStr.truthy tool_id = true →
  last (_tools_used (service w)) = Some u →
  let w1 := run_ready (_on_complete result w).2 in
  let w2 := run_ready (_on_tool_use tool_name input_data w1).2 in
  let start := _tool_start_time (service w) in
  _current_tool_id (service w1) = Some tool_id
  ∧ events_of w1
    = events_of w
        ++ [ ToolEndEventData tool_id (name u)
               (duration_ms (clock (ticks w)) start) None;
             CompleteEventData (InvestigationResult.text result)
               (InvestigationResult.session_id result)
               (InvestigationResult.duration_ms result)
               (InvestigationResult.num_turns result) ]
  ∧ events_of w2
    = events_of w1
        ++ ToolEndEventData tool_id (name u)
             (duration_ms (clock (S (ticks w))) start) None
           :: start_events (new_tool_id (SSEStreamManager.issued (stream w)))
                tool_name input_data.
Proof.
  intros Hidle Hcur Htruthy Hlast w1 w2 start.
  assert ((_on_complete result w).2
          = announce_complete result
              (end_previous clock tool_id (name u)
                 (set_service (set_result (Some result) (service w)) w)))
    as Hcomplete.
  { by rewrite on_complete_run, Hcur, Htruthy, Hlast. }
  destruct (run_ready_closed new_tool_id (_on_complete result w).2)
    as (Hev1 & Hiss1 & Hcur1 & Htools1 & Htime1 & Hticks1 & Hready1).
  fold w1 in Hev1, Hiss1, Hcur1, Htools1, Htime1, Hticks1, Hready1.
  rewrite Hcomplete in Hev1, Hiss1, Hcur1, Htools1, Htime1, Hticks1.
  cbn in Hev1, Hiss1, Hcur1, Htools1, Htime1, Hticks1.
  rewrite Hidle in Hev1, Hiss1, Hcur1. cbn in Hev1, Hiss1, Hcur1.
  rewrite Hcur in Hcur1.
  assert ((_on_tool_use tool_name input_data w1).2
          = begin_tool clock tool_name input_data
              (end_previous clock tool_id (name u) w1)) as Htool.
  { by rewrite on_tool_use_run, Hcur1, Htruthy, Htools1, Hlast. }
  destruct (run_ready_closed new_tool_id (_on_tool_use tool_name input_data w1).2)
    as (Hev2 & _).
  fold w2 in Hev2. rewrite Htool in Hev2. cbn in Hev2.
  rewrite Hready1, Hiss1, Hticks1, Htime1 in Hev2. cbn in Hev2.
  split_and!; [done..|]. rewrite Hev2. by rewrite app_nil_r.
Qed.

End service_callbacks.

(** ** The options of the agent *)

Section options_facts.
Import RobinAgent.

Variable MAX_AGENT_TURNS : Z.
Variable ROBIN_SYSTEM_PROMPT : string.

(** [X22] The MCP server is made once and the options allow exactly its
    tools.  For an agent that has made no server yet: [_build_options] makes
    the server ["robin"], registers it under that name and allows, in order,
    exactly its tools under the names ["mcp__robin__<tool>"]; it changes
    nothing else in the agent; and from then on [_get_mcp_server] returns
    that same server and [_build_options] the same options, without changing
    the agent. *)
Theorem build_options_allows_the_server_tools (a : t) :
  _mcp_server a = None →
  ∃ opts server a1,
    _build_options MAX_AGENT_TURNS ROBIN_SYSTEM_PROMPT a = (Return opts, a1)
    ∧ Sdk.mcp_servers opts = [(Sdk.server_name server, server)]
    ∧ Sdk.allowed_tools opts
      = (λ tool, "mcp__" +:+ Sdk.server_name server +:+ "__" +:+ tool)
          <$> Sdk.server_tools server
    ∧ a1 = set_mcp_server (Some server) a
    ∧ _get_mcp_server a1 = (Return server, a1)
    ∧ _build_options MAX_AGENT_TURNS ROBIN_SYSTEM_PROMPT a1 = (Return opts, a1).
Proof.
  intros Hnone. unfold _build_options, _get_mcp_server.
  rewrite !py_bind_run. cbn. rewrite Hnone. cbn.
  eexists _,
    {| Sdk.server_name := "robin"; Sdk.server_version := "1.0.0";
       Sdk.server_tools :=
         ["darkweb_search"; "darkweb_scrape"; "save_report";
          "delegate_analysis"] |}, _.
  split; [reflexivity|]. split_and!; reflexivity.
Qed.

End options_facts.

Lemma build_options_allows_the_server_tools_witness :
  ∃ opts a1,
    RobinAgent._build_options 30 "system prompt"
      (RobinAgent.__init__ "model" None) = (Return opts, a1)
    ∧ Sdk.allowed_tools opts
      = [ "mcp__robin__darkweb_search"; "mcp__robin__darkweb_scrape";
          "mcp__robin__save_report"; "mcp__robin__delegate_analysis" ]
    ∧ RobinAgent._build_options 30 "system prompt" a1 = (Return opts, a1).
Proof.
  destruct (build_options_allows_the_server_tools 30 "system prompt"
              (RobinAgent.__init__ "model" None) eq_refl)
    as (opts & server & a1 & Hrun & _ & _ & _ & _ & Hagain).
  exists opts, a1. split_and!; [exact Hrun | | exact Hagain].
  pose proof Hrun as Hopts. vm_compute in Hopts. by injection Hopts as <- _.
Defined.

(** ** The runs of the service, evaluated *)

(** A run that does not fail leaves a session in which no open tool lacks
    its log entry. *)
Lemma investigate_good (clock : nat → Q) (new_tool_id : nat → string)
    (MAX_AGENT_TURNS : Z) (ROBIN_SYSTEM_PROMPT : string)
    (query : string → Sdk.ClaudeCodeOptions → Sdk.Stream) (q : string)
    (s : AgentService.Session) :
  Good (AgentService.world s) →
  (∀ opts, Sdk.failure (query q opts) = None) →
  let run := AgentService.investigate clock new_tool_id MAX_AGENT_TURNS
               ROBIN_SYSTEM_PROMPT query q s in
  Good (AgentService.world run.2) ∧ AgentService.ready (AgentService.world run.2) = [].
Proof.
  intros HG Hfail run.
  destruct (investigate_keeps clock new_tool_id MAX_AGENT_TURNS
              ROBIN_SYSTEM_PROMPT query (λ _, True)) with (q := q) (s := s)
    as (s' & opts & Hrun & HG' & _ & Hidle); try done.
  fold run in Hrun. rewrite Hrun, Hfail. by cbn.
Qed.

Definition example_session : AgentService.Session :=
  AgentService.start "model" "model" "investigation" None.

(** The first turn of the examples, completed. *)
Definition first_turn : PyResult InvestigationResult.t * AgentService.Session :=
  AgentService.investigate example_clock example_tool_id 30 "system prompt"
    turn_engine "ransomware payments 2024" example_session.

Lemma first_turn_good :
  Good (AgentService.world first_turn.2)
  ∧ AgentService.ready (AgentService.world first_turn.2) = [].
Proof.
  apply investigate_good; [apply start_good | done].
Qed.



Lemma service_never_ends_a_subagent_witness :
  no_subagent_end (events_of (AgentService.world first_turn.2))
  ∧ AgentService._subagent_results
      (AgentService.service (AgentService.world first_turn.2)) = [].
Proof.
  exact (proj1 (service_never_ends_a_subagent "model" "model" example_clock
                  example_tool_id 30 "system prompt" turn_engine
                  "ransomware payments 2024" example_session "investigation"
                  None (start_good "model" "model" "investigation" None)
                  eq_refl ltac:(constructor) eq_refl)).
Defined.


(** A follow-up whose stream is cut before the completion answers with the
    result of the first turn. *)
Lemma run_without_completion_answers_held_result_witness :
  (AgentService.follow_up example_clock example_tool_id 30 "system prompt"
     unfinished_engine "dig deeper" first_turn.2).1
  = first_turn.1.
Proof.
  destruct (run_without_completion_answers_held_result example_clock
              example_tool_id 30 "system prompt" unfinished_engine
              "dig deeper" first_turn.2 (proj1 first_turn_good))
    as [_ [_ Hanswer]].
  - done.
  - intros opts. repeat constructor.
  - etrans; [exact Hanswer | vm_compute; reflexivity].
Defined.

(** The world after a tool use that no completion has followed yet. *)
Definition open_tool_engine (q : string) (opts : Sdk.ClaudeCodeOptions)
  : Sdk.Stream :=
  {| Sdk.messages :=
       [ Sdk.AssistantMessage [Sdk.ToolUseBlock "mcp__robin__darkweb_search" []] ];
     Sdk.failure := None |}.

Definition open_tool_world : AgentService.World :=
  AgentService.world
    (AgentService.investigate example_clock example_tool_id 30 "system prompt"
       open_tool_engine "ransomware payments 2024" example_session).2.

Lemma completion_leaves_the_tool_open_witness :
  let w1 :=
    AgentService.run_ready example_tool_id
      (AgentService._on_complete example_clock
         (InvestigationResult.of_text "Done.") open_tool_world).2 in
  let w2 :=
    AgentService.run_ready example_tool_id
      (AgentService._on_tool_use example_clock "mcp__robin__darkweb_scrape" []
         w1).2 in
  events_of w2
  = [ Events.ToolStartEventData "tool-0" "mcp__robin__darkweb_search" [];
      Events.ToolEndEventData "tool-0" "mcp__robin__darkweb_search" 1000 None;
      Events.CompleteEventData "Done." None None None;
      Events.ToolEndEventData "tool-0" "mcp__robin__darkweb_search" 2000 None;
      Events.ToolStartEventData "tool-1" "mcp__robin__darkweb_scrape" [] ].
Proof.
  intros w1 w2.
  destruct (completion_leaves_the_tool_open example_clock example_tool_id
              (InvestigationResult.of_text "Done.")
              "mcp__robin__darkweb_scrape" [] "tool-0"
              {| name := "mcp__robin__darkweb_search"; input := [] |}
              open_tool_world)
    as (_ & _ & Hev2); [vm_compute; reflexivity..|].
  etrans; [exact Hev2 | vm_compute; reflexivity].
Defined.

Section service_runs.
Import Events AgentService.

Variable default_model : string.
Variable DEFAULT_MODEL : string.
Variable clock : nat → Q.
Variable new_tool_id : nat → string.
Variable MAX_AGENT_TURNS : Z.
Variable ROBIN_SYSTEM_PROMPT : string.
Variable query : string → Sdk.ClaudeCodeOptions → Sdk.Stream.

Notation investigate :=
  (AgentService.investigate clock new_tool_id MAX_AGENT_TURNS
     ROBIN_SYSTEM_PROMPT query).
Notation follow_up :=
  (AgentService.follow_up clock new_tool_id MAX_AGENT_TURNS
     ROBIN_SYSTEM_PROMPT query).


(** [X24] The model of the service reaches the engine.  The first query a
    newly made service puts to the engine carries the model the service was
    given, or [settings.default_model] when it was given none or an empty
    one (and [config.DEFAULT_MODEL] when that is empty too), together with
    the system prompt, the turn limit and no session to resume; this is the
    only query of the run, whether the engine's stream ends or fails. *)
Theorem service_model_reaches_the_engine (investigation_id q : string)
    (model : option string) :
  let chosen :=
    if RobinAgent.truthy_opt model then default default_model model
    else default_model in
  let run :=
    investigate q
      (AgentService.start default_model DEFAULT_MODEL investigation_id model) in
  ∃ opts,
    queries run.2 = [(q, opts)]
    ∧ Sdk.model opts = (if PyStr.truthy chosen then chosen else DEFAULT_MODEL)
    ∧ Sdk.resume opts = None
    ∧ Sdk.max_turns opts = MAX_AGENT_TURNS
    ∧ Sdk.system_prompt opts = ROBIN_SYSTEM_PROMPT.
Proof.
  intros chosen run.
  set (s := AgentService.start default_model DEFAULT_MODEL investigation_id
              model).
  destruct (investigate_invariant MAX_AGENT_TURNS ROBIN_SYSTEM_PROMPT query
              (AgentService.run_ready new_tool_id) (callbacks clock) Good)
    with (q := q) (stream := true) (a := _agent s) (s := world s)
    as (f' & w0 & opts & a1 & Hopts & Hagent & _ & _ & Hasked).
  - intros cb text w [= <-]. apply on_text_good.
  - intros cb tool_name tool_input w [= <-]. apply on_tool_use_good.
  - intros cb result w [= <-]. apply on_complete_good.
  - apply run_ready_good.
  - apply start_good.
  - exists opts. split.
    + unfold run, AgentService.investigate, Py.try_except.
      rewrite py_bind_run. unfold AgentService.agent_investigate, drain.
      fold s. rewrite Hagent.
      destruct (Sdk.failure (query q opts)); cbn; by rewrite Hasked.
    + unfold RobinAgent._build_options, RobinAgent._get_mcp_server in Hopts.
      rewrite !py_bind_run in Hopts. cbn in Hopts. injection Hopts as <- _.
      cbn. fold chosen. by destruct chosen.
Qed.

End service_runs.

